(** * Journal Analyzer plugin: a shallow embedding of [main.ts]

    The plugin collects date-stamped journal notes, concatenates them,
    pipes a prompt to an external command-line tool and stores the answer
    as a note; a second mode asks the tool for cross-links and inserts
    them into the current note.

    Conventions of the embedding.
    - A JavaScript string is a [string]; every [ascii] stands for one
      UTF-16 code unit (the development covers code units below 256).
    - Asynchronous methods run one [await] after the other, so a method
      is a function of the monad [M]: it takes the world (vault, temporary
      directory, clock, user-interface log) and gives back an outcome,
      a value or a thrown [Error], with the world it left behind.
    - What the host provides (the shell, [JSON.parse], the locale) is a
      field of [Runtime]; every result holds for every runtime.
    - Modals and settings panels appear only as the events they show;
      the one-second pause of [analyzeJournalRange] takes no part in a
      run.  The command that only computes the range of the last days
      is left out. *)

From Stdlib Require Import ZArith List Ascii String Sorted Permutation Lia DecimalString.
From Stdlib Require DecimalNat.
From stdpp Require Import gmap strings list fin_maps.
From stdpp Require sorting.

Local Open Scope Z_scope.

(* ================================================================== *)
(** * JavaScript strings and arrays *)
(* ================================================================== *)

Module Js.

(** The line terminator of template literals and the double quote. *)
Definition nl : string := String "010" "".
Definition dq : string := String "034" "".

(** A template literal that spans several lines. *)
Definition template (lines : list string) : string := String.concat nl lines.

(** [String(n)] for the integers the plugin prints. *)
Definition ofNat (n : nat) : string := NilEmpty.string_of_uint (Nat.to_uint n).
Definition ofZ (z : Z) : string := NilEmpty.string_of_int (Z.to_int z).

(** [s.padStart(2, '0')] *)
Definition padStart2 (s : string) : string :=
  match String.length s with
  | O => "00" +:+ s
  | S O => "0" +:+ s
  | _ => s
  end.

(** [s.substring(0, n)] and the rest of [s] after it. *)
Fixpoint take (n : nat) (s : string) : string :=
  match n, s with
  | S k, String c s' => String c (take k s')
  | _, _ => ""
  end.

Fixpoint drop (n : nat) (s : string) : string :=
  match n, s with
  | S k, String _ s' => drop k s'
  | _, _ => s
  end.

(** [s.startsWith(p)] *)
Fixpoint startsWith (p s : string) : bool :=
  match p, s with
  | "", _ => true
  | String a p', String b s' => if Ascii.eqb a b then startsWith p' s' else false
  | String _ _, "" => false
  end.

(** [s.indexOf(p)]: the least position at which [p] occurs. *)
Fixpoint indexOf (p s : string) : option nat :=
  if startsWith p s then Some O
  else match s with
       | "" => None
       | String _ s' => option_map S (indexOf p s')
       end.

(** [s.includes(p)] *)
Definition includes (p s : string) : bool :=
  match indexOf p s with Some _ => true | None => false end.

(** Relational operators on strings compare code units, the shorter
    string first when one is a prefix of the other. *)
Definition le (a b : string) : bool := String.leb a b.
Definition ge (a b : string) : bool := String.leb b a.

(** ** [String.prototype.replace] with a string pattern

    Only the first occurrence is replaced, and the replacement text is
    a template: [GetSubstitution] expands [$$], [$&], [$`] and [$']
    in it.  With a string pattern there are no captures, so a [$]
    before anything else stands for itself. *)
Fixpoint getSubstitution (matched before after template : string) : string :=
  match template with
  | "" => ""
  | String c rest =>
      if Ascii.eqb c "$" then
        match rest with
        | String d rest' =>
            if Ascii.eqb d "$" then
              String "$" (getSubstitution matched before after rest')
            else if Ascii.eqb d "&" then
              matched +:+ getSubstitution matched before after rest'
            else if Ascii.eqb d "`" then
              before +:+ getSubstitution matched before after rest'
            else if Ascii.eqb d "'" then
              after +:+ getSubstitution matched before after rest'
            else String c (getSubstitution matched before after rest)
        | "" => String c ""
        end
      else String c (getSubstitution matched before after rest)
  end.

Definition replace (s pattern replacement : string) : string :=
  match indexOf pattern s with
  | None => s
  | Some i =>
      let before := take i s in
      let after := drop (i + String.length pattern) s in
      before +:+ getSubstitution pattern before after replacement +:+ after
  end.

(** [s.replace(/\.md$/, '')]: without the [m] flag [$] is the end of
    the input, so only a final [".md"] is removed. *)
Fixpoint stripMdSuffix (s : string) : string :=
  match s with
  | "" => ""
  | String c s' => if String.eqb s ".md" then "" else String c (stripMdSuffix s')
  end.

(** ** [String.prototype.split] with a non-empty string separator

    The scan goes left to right; at a match the current piece is closed
    and the separator is skipped.  [skip] counts the code units of a
    matched separator that are still to be passed over, [piece] holds
    the current piece backwards. *)
Fixpoint splitFrom (sep : string) (skip : nat) (piece : string) (s : string)
  : list string :=
  match s with
  | "" => [String.rev piece]
  | String c s' =>
      match skip with
      | S k => splitFrom sep k piece s'
      | O =>
          if startsWith sep s
          then String.rev piece :: splitFrom sep (String.length sep - 1) "" s'
          else splitFrom sep O (String c piece) s'
      end
  end.

Definition split (sep s : string) : list string := splitFrom sep O "" s.

(** ** [String.prototype.trim] *)
Definition isWhiteSpace (c : ascii) : bool :=
  match nat_of_ascii c with
  | 9%nat | 10%nat | 11%nat | 12%nat | 13%nat | 32%nat | 160%nat => true
  | _ => false
  end.

Fixpoint trimStart (s : string) : string :=
  match s with
  | "" => ""
  | String c s' => if isWhiteSpace c then trimStart s' else s
  end.

Definition trim (s : string) : string :=
  String.rev (trimStart (String.rev (trimStart s))).

(** ** The two regular expressions of the plugin *)

(** [\d] without the [u] flag *)
Definition isDigit (c : ascii) : bool :=
  (48 <=? nat_of_ascii c)%nat && (nat_of_ascii c <=? 57)%nat.

(** A string that begins with [\d{4}-\d{2}-\d{2}]. *)
Definition dateAtStart (s : string) : bool :=
  match s with
  | String y1 (String y2 (String y3 (String y4 (String h1
      (String m1 (String m2 (String h2 (String d1 (String d2 _))))))))) =>
      isDigit y1 && isDigit y2 && isDigit y3 && isDigit y4 && Ascii.eqb h1 "-"
      && isDigit m1 && isDigit m2 && Ascii.eqb h2 "-" && isDigit d1 && isDigit d2
  | _ => false
  end.

(** [s.match(/(\d{4}-\d{2}-\d{2})/)]: group 1 of the leftmost match,
    [None] for [null]. *)
Fixpoint matchDate (s : string) : option string :=
  if dateAtStart s then Some (take 10 s)
  else match s with
       | "" => None
       | String _ s' => matchDate s'
       end.

(** The longest prefix of [s] that ends in a closing bracket: what the
    greedy [[\s\S]*\]] takes of the text after an opening bracket. *)
Fixpoint throughLastClose (s : string) : option string :=
  match s with
  | "" => None
  | String c s' =>
      match throughLastClose s' with
      | Some r => Some (String c r)
      | None => if Ascii.eqb c "]" then Some "]" else None
      end
  end.

(** [s.match(/\[[\s\S]*\]/)]: element 0 of the leftmost match. *)
Fixpoint matchArray (s : string) : option string :=
  match s with
  | "" => None
  | String c s' =>
      if Ascii.eqb c "[" then
        match throughLastClose s' with
        | Some r => Some (String c r)
        | None => matchArray s'
        end
      else matchArray s'
  end.

(** ** [Array.prototype.sort]

    The sort is stable; [cmp a b <= 0] keeps [a] before [b]. *)
Section Sort.
Context {A : Type} (cmp : A -> A -> Z).

Fixpoint insert (x : A) (l : list A) : list A :=
  match l with
  | [] => [x]
  | y :: l' => if cmp x y <=? 0 then x :: l else y :: insert x l'
  end.

Definition sort (l : list A) : list A := foldr insert [] l.
End Sort.

End Js.

(* ================================================================== *)
(** * The host: vault, temporary directory, shell, user interface *)
(* ================================================================== *)

(** [TFile] of the Obsidian API, with the fields the plugin reads. *)
Record TFile := {
  path : string;
  basename : string;
  extension : string;
  stat_mtime : Z
}.

(** What the vault holds under a path: a note with its text, or a folder. *)
Inductive TAbstractFile :=
| VFile (file : TFile) (data : string)
| VFolder (folderPath : string).

Definition abstractPath (e : TAbstractFile) : string :=
  match e with
  | VFile f _ => path f
  | VFolder p => p
  end.

(** [interface Connection] *)
Record Connection := {
  sourceFile : string;
  targetFile : string;
  sourceText : string;
  targetText : string;
  reason : string;
  confidence : Z;
  connectionType : string
}.

(** [interface JournalAnalyzerSettings] *)
Record JournalAnalyzerSettings := {
  journalFolder : string;
  metaFolder : string;
  claudeCodePath : string;
  daysToAnalyze : Z;
  connectionMinConfidence : Z;
  connectionTypes : list string
}.

Definition DEFAULT_SETTINGS : JournalAnalyzerSettings := {|
  journalFolder := "journal";
  metaFolder := "journal/meta";
  claudeCodePath := "/Users/timmcelreath/Repos/claude-scripts/claude-wrapper.sh";
  daysToAnalyze := 30;
  connectionMinConfidence := 70;
  connectionTypes := ["thematic"; "temporal"; "entity"]
|}.

(** The thrown value: every [throw] of the plugin and of its host raises
    a plain [Error] with a message. *)
Inductive JsError := Error (message : string).

Definition message (e : JsError) : string := match e with Error m => m end.

(** An element of the array that [JSON.parse] gives, told apart as far
    as [c.confidence >= min] tells elements apart: an object with the
    members of a [Connection]; [null], of which no property can be read;
    any value without a [confidence] (a number, a string, a boolean, a
    nested array, an object that lacks the member), for which the
    comparison is [undefined >= min].  An object whose [confidence] is
    not an integer, which the comparison would coerce, is not covered. *)
Inductive Element :=
| JsObject (c : Connection)
| JsNull
| JsOther.

(** How the promise of [execAsync] settles. *)
Inductive ExecOutcome :=
| ExecRejected (reason : string)
| ExecResolved (stdout stderr : string).

(** The local calendar fields of a [Date]. *)
Record JsDate := {
  getFullYear : nat;
  getMonth : nat;
  getDate : nat
}.

(** What shows up in the user interface and on the console. *)
Inductive Event :=
| Notice (text : string)
| Progress (text : string)
| ProgressClosed
| ConsoleWarn (text : string)
| ConsoleError (text : string)
| OpenFile (p : string).

Record World := {
  vault : list TAbstractFile;
  tmpfs : gmap string string;
  clock : Z;
  events : list Event
}.

(** The collaborators outside the repository.  [execAsync] runs a shell
    command line: it sees the temporary directory, may change it, and
    settles one way or the other.  [JSON_parse] gives the decoded array
    (the text it is given starts with a bracket, so what it decodes is
    an array), or the message of its [SyntaxError]. *)
Record Runtime := {
  os_tmpdir : string;
  exec : string -> gmap string string -> ExecOutcome * gmap string string;
  JSON_parse : string -> string + list Element;
  localeCompare : string -> string -> Z;
  toLocaleString : Z -> string;
  newDate : Z -> JsDate
}.

(** ** The monad of asynchronous methods *)

Inductive Outcome (A : Type) :=
| Returned (a : A)
| Thrown (e : JsError).
Arguments Returned {A} a.
Arguments Thrown {A} e.

Definition M (A : Type) : Type := World -> Outcome A * World.

Definition ret {A} (a : A) : M A := fun w => (Returned a, w).

Definition throw {A} (e : JsError) : M A := fun w => (Thrown e, w).

Definition bind {A B} (m : M A) (k : A -> M B) : M B :=
  fun w =>
    match m w with
    | (Returned a, w') => k a w'
    | (Thrown e, w') => (Thrown e, w')
    end.

(** [try { body } catch (error) { handler }]: the world keeps whatever the
    body did before it threw. *)
Definition try_catch {A} (body : M A) (handler : JsError -> M A) : M A :=
  fun w =>
    match body w with
    | (Returned a, w') => (Returned a, w')
    | (Thrown e, w') => handler e w'
    end.

Declare Scope js_scope.
Delimit Scope js_scope with js.
Notation "x <- m ;; k" := (bind m (fun x => k))
  (at level 100, m at next level, right associativity) : js_scope.
Notation "m ;;; k" := (bind m (fun _ => k))
  (at level 100, right associativity) : js_scope.
Local Open Scope js_scope.

Definition when (b : bool) (m : M unit) : M unit := if b then m else ret tt.

(** [for (const x of xs) { body }] *)
Fixpoint forOf {A} (xs : list A) (body : A -> M unit) : M unit :=
  match xs with
  | [] => ret tt
  | x :: xs' => body x ;;; forOf xs' body
  end.

Definition emit (e : Event) : M unit :=
  fun w => (Returned tt,
            {| vault := vault w; tmpfs := tmpfs w; clock := clock w;
               events := events w ++ [e] |}).

Definition Date_now : M Z := fun w => (Returned (clock w), w).

(** ** The vault *)

Definition hasPath (p : string) (e : TAbstractFile) : bool :=
  String.eqb (abstractPath e) p.

Definition getAbstractFileByPath (v : list TAbstractFile) (p : string)
  : option TAbstractFile :=
  List.find (hasPath p) v.

Definition isMarkdown (e : TAbstractFile) : option TFile :=
  match e with
  | VFile f _ => if String.eqb (extension f) "md" then Some f else None
  | VFolder _ => None
  end.

Definition getMarkdownFiles (v : list TAbstractFile) : list TFile :=
  omap isMarkdown v.

Definition readData (v : list TAbstractFile) (p : string) : option string :=
  match getAbstractFileByPath v p with
  | Some (VFile _ d) => Some d
  | _ => None
  end.

Definition setVault (v : list TAbstractFile) : M unit :=
  fun w => (Returned tt,
            {| vault := v; tmpfs := tmpfs w; clock := clock w; events := events w |}).

Definition getVault : M (list TAbstractFile) := fun w => (Returned (vault w), w).

(** [vault.read(file)] *)
Definition vault_read (f : TFile) : M string :=
  v <- getVault ;;
  match readData v (path f) with
  | Some d => ret d
  | None => throw (Error ("ENOENT: no such file or directory, open '" +:+ path f +:+ "'"))
  end.

Definition writeData (p data : string) (e : TAbstractFile) : TAbstractFile :=
  match e with
  | VFile f d => if String.eqb (path f) p then VFile f data else e
  | VFolder _ => e
  end.

(** [vault.modify(file, data)] *)
Definition vault_modify (f : TFile) (data : string) : M unit :=
  v <- getVault ;;
  match readData v (path f) with
  | Some _ => setVault (map (writeData (path f) data) v)
  | None => throw (Error ("ENOENT: no such file or directory, open '" +:+ path f +:+ "'"))
  end.

(** The name of a path after its last slash, and the two sides of the
    last dot of a name. *)
Fixpoint fileName (p : string) : string :=
  match p with
  | "" => ""
  | String c p' => if Js.includes "/" p then fileName p' else p
  end.

Fixpoint beforeLastDot (n : string) : string :=
  match n with
  | "" => ""
  | String c n' => if Js.includes "." n' then String c (beforeLastDot n')
                   else if Ascii.eqb c "." then "" else n
  end.

Fixpoint afterLastDot (n : string) : string :=
  match n with
  | "" => ""
  | String c n' => if Js.includes "." n' then afterLastDot n'
                   else if Ascii.eqb c "." then n' else ""
  end.

(** [vault.create(path, data)] *)
Definition vault_create (p data : string) : M TFile :=
  v <- getVault ;;
  match getAbstractFileByPath v p with
  | Some _ => throw (Error "File already exists.")
  | None =>
      now <- Date_now ;;
      let f := {| path := p; basename := beforeLastDot (fileName p);
                  extension := afterLastDot (fileName p); stat_mtime := now |} in
      setVault (v ++ [VFile f data]) ;;;
      ret f
  end.

(** [vault.createFolder(path)] *)
Definition vault_createFolder (p : string) : M unit :=
  v <- getVault ;;
  match getAbstractFileByPath v p with
  | Some _ => throw (Error "Folder already exists.")
  | None => setVault (v ++ [VFolder p])
  end.

(** ** The temporary directory and the shell *)

Definition setTmpfs (fs : gmap string string) : M unit :=
  fun w => (Returned tt,
            {| vault := vault w; tmpfs := fs; clock := clock w; events := events w |}).

(** [fs.promises.writeFile(file, data)] *)
Definition fs_writeFile (file data : string) : M unit :=
  fun w => setTmpfs (<[file := data]> (tmpfs w)) w.

(** [fs.promises.unlink(file)] *)
Definition fs_unlink (file : string) : M unit :=
  fun w =>
    match tmpfs w !! file with
    | Some _ => setTmpfs (delete file (tmpfs w)) w
    | None => throw (Error ("ENOENT: no such file or directory, unlink '" +:+ file +:+ "'")) w
    end.

Section Shell.
Variable rt : Runtime.

(** [execAsync(command)] *)
Definition execAsync (command : string) : M (string * string) :=
  fun w =>
    match exec rt command (tmpfs w) with
    | (ExecResolved out err, fs) => (ret (out, err) : M _) (snd (setTmpfs fs w))
    | (ExecRejected r, fs) => (throw (Error r) : M _) (snd (setTmpfs fs w))
    end.
End Shell.

(* ================================================================== *)
(** * [class JournalAnalyzerPlugin] *)
(* ================================================================== *)

Section Plugin.
Variable rt : Runtime.
Variable settings : JournalAnalyzerSettings.

Import Js.

(** [formatDate(date)] *)
Definition formatDate (date : JsDate) : string :=
  let year := ofNat (getFullYear date) in
  let month := padStart2 (ofNat (getMonth date + 1)) in
  let day := padStart2 (ofNat (getDate date)) in
  year +:+ "-" +:+ month +:+ "-" +:+ day.

(** The callback of [allFiles.filter] in [getJournalFilesInRange]. *)
Definition inDateRange (startDate endDate : string) (file : TFile) : bool :=
  if negb (startsWith (journalFolder settings) (path file)) then false
  else
    match matchDate (basename file) with
    | None => false
    | Some fileDate => ge fileDate startDate && le fileDate endDate
    end.

Definition byBasename (a b : TFile) : Z :=
  localeCompare rt (basename a) (basename b).

(** [getJournalFilesInRange(startDate, endDate)] *)
Definition getJournalFilesInRange (startDate endDate : string) : M (list TFile) :=
  v <- getVault ;;
  match getAbstractFileByPath v (journalFolder settings) with
  | None => throw (Error ("Journal folder not found: " +:+ journalFolder settings))
  | Some _ =>
      let allFiles := getMarkdownFiles v in
      let journalFiles := List.filter (inDateRange startDate endDate) allFiles in
      ret (sort byBasename journalFiles)
  end.

(** One turn of the loop of [readJournalFiles]: what [content +=] adds. *)
Definition entrySection (name fileContent : string) : string :=
  nl +:+ nl +:+ "## Entry: " +:+ name +:+ nl +:+ nl +:+ fileContent +:+ nl.

Fixpoint readJournalFilesFrom (content : string) (files : list TFile) : M string :=
  match files with
  | [] => ret content
  | file :: rest =>
      fileContent <- vault_read file ;;
      readJournalFilesFrom (content +:+ entrySection (basename file) fileContent) rest
  end.

(** [readJournalFiles(files)] *)
Definition readJournalFiles (files : list TFile) : M string :=
  readJournalFilesFrom "" files.

Definition themePrompt (content startDate endDate : string) : string :=
  template [
    "Analyze the following journal entries from " +:+ startDate +:+ " to " +:+ endDate +:+ ".";
    "";
    "Please provide:";
    "";
    "1. **Recurring Themes** - Identify major themes that appear multiple times";
    "2. **Pattern Recognition** - Note behavioral patterns, decision-making patterns, emotional patterns";
    "3. **Key Insights** - What stands out as significant across entries";
    "4. **Suggested Connections** - Identify entries or concepts that should be linked together";
    "5. **Questions to Consider** - Based on the patterns, what questions might be worth exploring";
    "";
    "Journal Entries:";
    content;
    "";
    "Please format your response in markdown with clear sections."
  ].

(** [content.split('## Entry:').length - 1] *)
Definition entriesCount (content : string) : Z :=
  Z.of_nat (length (split "## Entry:" content)) - 1.

Definition isBlank (stdout : string) : bool :=
  String.eqb stdout "" || (String.length (trim stdout) =? 0)%nat.

Definition pipeCommand (tempFile : string) : string :=
  "cat " +:+ dq +:+ tempFile +:+ dq +:+ " | " +:+ claudeCodePath settings.

Definition themeTempFile (now : Z) : string :=
  os_tmpdir rt +:+ "/journal-analysis-prompt-" +:+ ofZ now +:+ ".txt".

(** [analyzeWithClaudeCode(content, startDate, endDate)] *)
Definition analyzeWithClaudeCode (content startDate endDate : string) : M string :=
  let prompt := themePrompt content startDate endDate in
  try_catch
    (now <- Date_now ;;
     let tempFile := themeTempFile now in
     fs_writeFile tempFile prompt ;;;
     out <- execAsync rt (pipeCommand tempFile) ;;
     let stdout := fst out in
     let stderr := snd out in
     fs_unlink tempFile ;;;
     when (negb (String.eqb stderr "")) (emit (ConsoleWarn ("Claude Code stderr: " +:+ stderr))) ;;;
     if isBlank stdout then throw (Error "Claude Code returned empty response")
     else
       generated <- Date_now ;;
       ret (template [
         trim stdout;
         "";
         "---";
         "*Generated by Journal Analyzer Plugin*";
         "*Entries analyzed: " +:+ ofZ (entriesCount content) +:+ "*";
         "*Generated: " +:+ toLocaleString rt generated +:+ "*"
       ]))
    (fun error =>
       emit (ConsoleError ("Error calling Claude Code: " +:+ message error)) ;;;
       throw (Error ("Failed to analyze with Claude Code: " +:+ message error))).

Definition metaNotePath (startDate endDate : string) : string :=
  metaFolder settings +:+ "/analysis-" +:+ startDate +:+ "-to-" +:+ endDate +:+ ".md".

Definition metaFrontmatter (today startDate endDate : string) : string :=
  template [
    "---";
    "date: " +:+ today;
    "type: journal-analysis";
    "tags: [meta, analysis, journal]";
    "start_date: " +:+ startDate;
    "end_date: " +:+ endDate;
    "---";
    "";
    ""
  ].

(** [createMetaNote(analysis, startDate, endDate)] *)
Definition createMetaNote (analysis startDate endDate : string) : M unit :=
  v <- getVault ;;
  match getAbstractFileByPath v (metaFolder settings) with
  | None => vault_createFolder (metaFolder settings)
  | Some _ => ret tt
  end ;;;
  let filename := metaNotePath startDate endDate in
  now <- Date_now ;;
  let frontmatter := metaFrontmatter (formatDate (newDate rt now)) startDate endDate in
  let fullContent := frontmatter +:+ analysis in
  v1 <- getVault ;;
  match getAbstractFileByPath v1 filename with
  | Some (VFile existingFile _) => vault_modify existingFile fullContent
  | _ => vault_create filename fullContent ;;; ret tt
  end ;;;
  v2 <- getVault ;;
  match getAbstractFileByPath v2 filename with
  | Some (VFile file _) => emit (OpenFile (path file))
  | _ => ret tt
  end.

(** [analyzeJournalRange(startDate, endDate)] *)
Definition analyzeJournalRange (startDate endDate : string) : M unit :=
  emit (Progress "Initializing...") ;;;
  try_catch
    (emit (Progress "Finding journal entries...") ;;;
     journalFiles <- getJournalFilesInRange startDate endDate ;;
     if (length journalFiles =? 0)%nat then
       emit ProgressClosed ;;;
       emit (Notice "No journal entries found in the specified range")
     else
       let fileNames := String.concat ", " (map basename journalFiles) in
       emit (Progress ("Found " +:+ ofNat (length journalFiles) +:+ " entries: " +:+ fileNames)) ;;;
       emit (Progress "Reading journal entries...") ;;;
       journalContent <- readJournalFiles journalFiles ;;
       emit (Progress (template ["Analyzing with Claude Code..."; "(This may take 30-60 seconds)"])) ;;;
       analysis <- analyzeWithClaudeCode journalContent startDate endDate ;;
       emit (Progress "Creating analysis note...") ;;;
       createMetaNote analysis startDate endDate ;;;
       emit ProgressClosed ;;;
       emit (Notice "Journal analysis complete!"))
    (fun error =>
       emit ProgressClosed ;;;
       emit (ConsoleError ("Error analyzing journal: " +:+ message error)) ;;;
       emit (Notice ("Error analyzing journal: " +:+ message error))).

(** ** Connections *)

Definition byRecency (a b : TFile) : Z := stat_mtime b - stat_mtime a.

Definition preview (content : string) : string :=
  if (500 <? String.length content)%nat then take 500 content +:+ "..." else content.

Fixpoint otherNotes (context : string) (recentFiles : list TFile) : M string :=
  match recentFiles with
  | [] => ret context
  | file :: rest =>
      content <- vault_read file ;;
      otherNotes (context +:+ "## " +:+ path file +:+ nl +:+ preview content +:+ nl +:+ nl) rest
  end.

Definition connectionPrompt (currentFile : TFile) (context : string) : string :=
  template [
    "Analyze the current note and suggest wiki-link connections to other notes in the vault.";
    "";
    "Current Note: " +:+ basename currentFile;
    "";
    "Your task:";
    "1. Find concepts, themes, people, or ideas in the current note that relate to other notes";
    "2. Only suggest connections that meet the minimum confidence threshold: "
      +:+ ofZ (connectionMinConfidence settings) +:+ "%";
    "3. Focus on connection types: " +:+ String.concat ", " (connectionTypes settings);
    "";
    "For each suggested connection, provide:";
    "- sourceText: The exact text in current note that should be linked (5-30 words)";
    "- targetFile: The path to the note it should link to";
    "- targetText: The relevant text in the target note (5-30 words)";
    "- reason: Why this connection is meaningful (1 sentence)";
    "- confidence: Your confidence level (0-100)";
    "- connectionType: One of: thematic, temporal, entity, causal";
    "";
    "Return ONLY valid JSON array of connection objects. Example:";
    "[";
    "  {";
    "    " +:+ dq +:+ "sourceFile" +:+ dq +:+ ": " +:+ dq +:+ path currentFile +:+ dq +:+ ",";
    "    " +:+ dq +:+ "targetFile" +:+ dq +:+ ": " +:+ dq +:+ "journal/2025-10-17.md" +:+ dq +:+ ",";
    "    " +:+ dq +:+ "sourceText" +:+ dq +:+ ": " +:+ dq +:+ "making art less intimidating" +:+ dq +:+ ",";
    "    " +:+ dq +:+ "targetText" +:+ dq +:+ ": " +:+ dq +:+ "Artsy's mission to make art accessible" +:+ dq +:+ ",";
    "    " +:+ dq +:+ "reason" +:+ dq +:+ ": " +:+ dq +:+ "Same core mission concept in different contexts" +:+ dq +:+ ",";
    "    " +:+ dq +:+ "confidence" +:+ dq +:+ ": 95,";
    "    " +:+ dq +:+ "connectionType" +:+ dq +:+ ": " +:+ dq +:+ "thematic" +:+ dq;
    "  }";
    "]";
    "";
    "Context:";
    context;
    "";
    "Return JSON array only:"
  ].

Definition connectionTempFile (now : Z) : string :=
  os_tmpdir rt +:+ "/connection-analysis-" +:+ ofZ now +:+ ".txt".

(** [connections.filter(c => c.confidence >= this.settings.connectionMinConfidence)] *)
Definition meetsThreshold (c : Connection) : bool :=
  connectionMinConfidence settings <=? confidence c.

(** [connections.filter(...)] on the decoded array: the callback meets
    one element after another, and reading [confidence] of [null] throws
    a [TypeError]. *)
Fixpoint filterByConfidence (connections : list Element) : M (list Connection) :=
  match connections with
  | [] => ret []
  | JsObject c :: rest =>
      kept <- filterByConfidence rest ;;
      ret (if meetsThreshold c then c :: kept else kept)
  | JsNull :: _ => throw (Error "Cannot read properties of null (reading 'confidence')")
  | JsOther :: rest => filterByConfidence rest
  end.

(** The block under [// Parse JSON response] of [analyzeConnections]. *)
Definition parseJsonResponse (stdout : string) : M (list Connection) :=
  match matchArray stdout with
  | None =>
      emit (ConsoleWarn ("No JSON found in response: " +:+ stdout)) ;;;
      ret []
  | Some jsonMatch =>
      match JSON_parse rt jsonMatch with
      | inl syntaxError => throw (Error syntaxError)
      | inr connections => filterByConfidence connections
      end
  end.

(** The [catch] block of [analyzeConnections]. *)
Definition analyzeConnectionsCatch (error : JsError) : M (list Connection) :=
  emit (ConsoleError ("Error analyzing connections: " +:+ message error)) ;;;
  throw (Error ("Failed to analyze connections: " +:+ message error)).

(** [analyzeConnections(currentFile, allFiles, progressModal)] *)
Definition analyzeConnections (currentFile : TFile) (allFiles : list TFile)
  : M (list Connection) :=
  currentContent <- vault_read currentFile ;;
  let otherFiles :=
    List.filter (fun f => negb (String.eqb (path f) (path currentFile))) allFiles in
  let recentFiles := firstn 50 (sort byRecency otherFiles) in
  emit (Progress ("Analyzing connections with " +:+ ofNat (length recentFiles)
                  +:+ " recent notes...")) ;;;
  context <- otherNotes
    ("# Current Note: " +:+ basename currentFile +:+ nl +:+ nl +:+ currentContent
     +:+ nl +:+ nl +:+ "---" +:+ nl +:+ nl +:+ "# Other Notes:" +:+ nl +:+ nl)
    recentFiles ;;
  emit (Progress (template ["Analyzing with Claude Code..."; "(This may take 30-60 seconds)"])) ;;;
  let prompt := connectionPrompt currentFile context in
  try_catch
    (now <- Date_now ;;
     let tempFile := connectionTempFile now in
     fs_writeFile tempFile prompt ;;;
     out <- execAsync rt (pipeCommand tempFile) ;;
     let stdout := fst out in
     let stderr := snd out in
     fs_unlink tempFile ;;;
     when (negb (String.eqb stderr "")) (emit (ConsoleWarn ("Claude Code stderr: " +:+ stderr))) ;;;
     if isBlank stdout then throw (Error "Claude Code returned empty response")
     else parseJsonResponse stdout)
    analyzeConnectionsCatch.

(** [insertWikiLink(file, sourceText, targetPath)] *)
Definition insertWikiLink (file : TFile) (sourceText targetPath : string) : M bool :=
  content <- vault_read file ;;
  let targetBasename := stripMdSuffix targetPath in
  let wikiLink := "[[" +:+ targetBasename +:+ "]]" in
  let updatedContent := replace content sourceText wikiLink in
  if negb (String.eqb updatedContent content) then
    vault_modify file updatedContent ;;;
    ret true
  else ret false.

(** ** [class ConnectionSuggestionModal] *)

Definition byConfidence (a b : Connection) : Z := confidence b - confidence a.

(** The loop of the [Add All Links] button, with its two counters. *)
Fixpoint addAllLoop (currentFile : TFile) (connections : list Connection)
         (added failed : nat) : M (nat * nat) :=
  match connections with
  | [] => ret (added, failed)
  | connection :: rest =>
      counters <-
        try_catch
          (success <- insertWikiLink currentFile (sourceText connection)
                                     (targetFile connection) ;;
           if success : bool then ret (S added, failed) else ret (added, S failed))
          (fun _ => ret (added, S failed)) ;;
      addAllLoop currentFile rest (fst counters) (snd counters)
  end.

(** The click handler of [Add All Links]. *)
Definition addAllLinks (currentFile : TFile) (connections : list Connection) : M unit :=
  let sortedConnections := sort byConfidence connections in
  counters <- addAllLoop currentFile sortedConnections 0 0 ;;
  let added := fst counters in
  let failed := snd counters in
  emit (Notice ("Added " +:+ ofNat added +:+ " links. "
                +:+ (if (0 <? failed)%nat then ofNat failed +:+ " failed." else ""))).

End Plugin.

(* ================================================================== *)
(** * Quick journal entries, the missing-connections command, settings *)
(* ================================================================== *)

(** What a command leaves on the screen when it ends: the modal with the
    suggestions for a note, or no modal. *)
Inductive Opened :=
| SuggestionModal (connections : list Connection) (currentFile : TFile)
| NoModal.

Section Commands.
Variable rt : Runtime.
Variable settings : JournalAnalyzerSettings.

(** [date.toLocaleTimeString('en-US', {hour: '2-digit', minute: '2-digit',
    hour12: true})], a function of the host's locale data. *)
Variable toLocaleTimeString : Z -> string.

Import Js.

Definition journalPathOf (today : string) : string :=
  journalFolder settings +:+ "/" +:+ today +:+ ".md".

(** The text of a journal note that [saveJournalEntry] creates. *)
Definition newJournalNote (today entry : string) : string :=
  template [
    "---";
    "date: " +:+ today;
    "type: journal";
    "tags: [journal]";
    "---";
    "";
    "# " +:+ today;
    "";
    entry;
    ""
  ].

(** The text of a journal note after one more entry of the same day. *)
Definition appendedEntry (existingContent timestamp entry : string) : string :=
  existingContent +:+ nl +:+ nl +:+ "## " +:+ timestamp +:+ nl +:+ nl +:+ entry.

(** [saveJournalEntry(entry)] *)
Definition saveJournalEntry (entry : string) : M TFile :=
  now <- Date_now ;;
  let today := formatDate (newDate rt now) in
  let journalPath := journalPathOf today in
  v <- getVault ;;
  match getAbstractFileByPath v (journalFolder settings) with
  | None => vault_createFolder (journalFolder settings)
  | Some _ => ret tt
  end ;;;
  v1 <- getVault ;;
  match getAbstractFileByPath v1 journalPath with
  | Some (VFile existingFile _) =>
      existingContent <- vault_read existingFile ;;
      stamp <- Date_now ;;
      let timestamp := toLocaleTimeString stamp in
      let newContent := appendedEntry existingContent timestamp entry in
      vault_modify existingFile newContent ;;;
      ret existingFile
  | _ =>
      let frontmatter := newJournalNote today entry in
      newFile <- vault_create journalPath frontmatter ;;
      ret newFile
  end.

(** [quickJournalWithAnalysis(entry)] *)
Definition quickJournalWithAnalysis (entry : string) : M Opened :=
  emit (Progress "Initializing...") ;;;
  try_catch
    (emit (Progress "Saving journal entry...") ;;;
     journalFile <- saveJournalEntry entry ;;
     emit (Progress (template ["Analyzing connections..."; "(This may take 30-60 seconds)"])) ;;;
     v <- getVault ;;
     let allFiles := getMarkdownFiles v in
     connections <- analyzeConnections rt settings journalFile allFiles ;;
     emit ProgressClosed ;;;
     emit (Notice "Journal entry saved!") ;;;
     if (0 <? length connections)%nat then
       ret (SuggestionModal connections journalFile)
     else
       emit (OpenFile (path journalFile)) ;;;
       ret NoModal)
    (fun error =>
       emit ProgressClosed ;;;
       emit (ConsoleError ("Error saving journal entry: " +:+ message error)) ;;;
       emit (Notice ("Error: " +:+ message error)) ;;;
       ret NoModal).

(** [findMissingConnections()]; [activeFile] is what
    [workspace.getActiveFile()] gives, [None] for [null]. *)
Definition findMissingConnections (activeFile : option TFile) : M Opened :=
  emit (Progress "Initializing...") ;;;
  try_catch
    (emit (Progress "Finding current note...") ;;;
     match activeFile with
     | None =>
         emit ProgressClosed ;;;
         emit (Notice "No active file. Please open a note to analyze.") ;;;
         ret NoModal
     | Some activeFile =>
         emit (Progress "Reading vault files...") ;;;
         v <- getVault ;;
         let allFiles := getMarkdownFiles v in
         connections <- analyzeConnections rt settings activeFile allFiles ;;
         emit ProgressClosed ;;;
         if (length connections =? 0)%nat then
           emit (Notice "No connection suggestions found") ;;;
           ret NoModal
         else ret (SuggestionModal connections activeFile)
     end)
    (fun error =>
       emit ProgressClosed ;;;
       emit (ConsoleError ("Error finding connections: " +:+ message error)) ;;;
       emit (Notice ("Error finding connections: " +:+ message error)) ;;;
       ret NoModal).

(** The [Save Only] button of [QuickJournalModal]; [value] is the text of
    the text area. *)
Definition saveOnlyClick (value : string) : M unit :=
  let entry := trim value in
  if (String.length entry =? 0)%nat then emit (Notice "Please enter some text")
  else
    try_catch
      (journalFile <- saveJournalEntry entry ;;
       emit (Notice "Journal entry saved!") ;;;
       emit (OpenFile (path journalFile)))
      (fun error => emit (Notice ("Error saving entry: " +:+ message error))).

End Commands.

(** The [onChange] handler of the [Connection Types] setting:
    [value.split(',').map(s => s.trim()).filter(s => s.length > 0)]. *)
Definition connectionTypesOfText (value : string) : list string :=
  List.filter (fun s => (0 <? String.length s)%nat) (map Js.trim (Js.split "," value)).

(** What the same setting shows: [connectionTypes.join(', ')]. *)
Definition connectionTypesText (types : list string) : string :=
  String.concat ", " types.

(** The [recentFiles] of [analyzeConnections]: the other notes, the most
    recently modified first, fifty at most. *)
Definition recentNotes (currentFile : TFile) (allFiles : list TFile) : list TFile :=
  firstn 50
    (Js.sort byRecency
       (List.filter (fun f => negb (String.eqb (path f) (path currentFile))) allFiles)).

(* ================================================================== *)
(** * Vocabulary of the statements *)
(* ================================================================== *)

(** The number of positions of [s] at which [p] occurs. *)
Fixpoint occurrences (p s : string) : nat :=
  (if Js.startsWith p s then 1 else 0) +
  match s with
  | "" => 0
  | String _ s' => occurrences p s'
  end.

(** [c] is none of the code units of [s]. *)
Fixpoint avoids (c : ascii) (s : string) : Prop :=
  match s with
  | "" => True
  | String d s' => d <> c /\ avoids c s'
  end.

(** [c] is one of the ten decimal digits. *)
Definition Digit (c : ascii) : Prop := (48 <= nat_of_ascii c <= 57)%nat.

(** [d] is four digits, a hyphen, two digits, a hyphen, two digits. *)
Definition DateShaped (d : string) : Prop :=
  exists y1 y2 y3 y4 m1 m2 d1 d2,
    d = String y1 (String y2 (String y3 (String y4 (String "-"
          (String m1 (String m2 (String "-" (String d1 (String d2 "")))))))))
    /\ Digit y1 /\ Digit y2 /\ Digit y3 /\ Digit y4
    /\ Digit m1 /\ Digit m2 /\ Digit d1 /\ Digit d2.

(** [d] is the leftmost date-shaped substring of [name]. *)
Definition FirstDate (name d : string) : Prop :=
  exists before after,
    name = before +:+ d +:+ after /\ DateShaped d /\
    forall before' d' after',
      name = before' +:+ d' +:+ after' -> DateShaped d' ->
      (String.length before <= String.length before')%nat.

(** The note [f] lies under the journal folder and the first date in its
    basename is within [startDate] and [endDate], bounds included. *)
Definition Selected (settings : JournalAnalyzerSettings) (startDate endDate : string)
           (f : TFile) : Prop :=
  Js.startsWith (journalFolder settings) (path f) = true /\
  exists d, FirstDate (basename f) d /\ Js.le startDate d = true /\ Js.le d endDate = true.

(** A comparator that orders all strings: any two compare one way or the
    other, and the order is transitive. *)
Definition Collation (cmp : string -> string -> Z) : Prop :=
  (forall a b, cmp a b <= 0 \/ cmp b a <= 0) /\
  (forall a b c, cmp a b <= 0 -> cmp b c <= 0 -> cmp a c <= 0).

(** The temporary directory once [analyzeWithClaudeCode] has written its
    prompt, and the command line it then runs. *)
Definition promptWritten (rt : Runtime) (content startDate endDate : string) (w : World)
  : gmap string string :=
  <[themeTempFile rt (clock w) := themePrompt content startDate endDate]> (tmpfs w).

Definition themeCommand (rt : Runtime) (settings : JournalAnalyzerSettings) (w : World)
  : string :=
  pipeCommand settings (themeTempFile rt (clock w)).

(** The text of the analysis note: front matter dated by the clock of [w],
    then the analysis. *)
Definition metaNoteContent (rt : Runtime) (analysis startDate endDate : string) (w : World)
  : string :=
  metaFrontmatter (formatDate (newDate rt (clock w))) startDate endDate +:+ analysis.

(** A label as the settings tab stores it: not empty, no comma in it, and
    no white space at either end. *)
Definition CleanLabel (t : string) : Prop :=
  t <> ""
  /\ avoids "," t
  /\ (forall c u, t = String c u -> Js.isWhiteSpace c = false)
  /\ (forall u c, t = u +:+ String c "" -> Js.isWhiteSpace c = false).

(** The records among the elements of a decoded array, in their order. *)
Definition records (items : list Element) : list Connection :=
  flat_map (fun e => match e with JsObject c => [c] | _ => [] end) items.

(** The link that stands for the target of a suggestion. *)
Definition linkOf (c : Connection) : string :=
  "[[" +:+ Js.stripMdSuffix (targetFile c) +:+ "]]".

(** The text of a note after the suggestions were accepted one after
    another, each on the text the one before it left. *)
Fixpoint accepted (content : string) (connections : list Connection) : string :=
  match connections with
  | [] => content
  | c :: rest => accepted (Js.replace content (sourceText c) (linkOf c)) rest
  end.

(** How many of the suggestions changed the text on the way. *)
Fixpoint changes (content : string) (connections : list Connection) : nat :=
  match connections with
  | [] => 0
  | c :: rest =>
      (if String.eqb (Js.replace content (sourceText c) (linkOf c)) content then 0 else 1)
      + changes (Js.replace content (sourceText c) (linkOf c)) rest
  end.

(** The vault [v] holds the note [f] with the text [body]. *)
Definition holds (v : list TAbstractFile) (f : TFile) (body : string) : Prop :=
  readData v (path f) = Some body.

(** The sections that [readJournalFiles] writes for notes and their texts. *)
Definition sectionsOf (files : list TFile) (bodies : list string) : list string :=
  zip_with (fun f body => entrySection (basename f) body) files bodies.

(* ================================================================== *)
(** * A small vault and three external tools, for the examples *)
(* ================================================================== *)

Module Sample.

Definition note (p name : string) (t : Z) : TFile :=
  {| path := p; basename := name; extension := "md"; stat_mtime := t |}.

Definition day1 : TFile := note "journal/2025-10-01.md" "2025-10-01" 1.
Definition day2 : TFile := note "journal/2025-10-02.md" "2025-10-02" 2.
Definition day3 : TFile := note "journal/2025-10-03.md" "2025-10-03" 3.

Definition vault0 : list TAbstractFile :=
  [ VFolder "journal";
    VFile day3 "slept late";
    VFile day1 "walked to the lake";
    VFile day2 "copied an old note: ## Entry: 2019-01-01" ].

Definition world0 : World :=
  {| vault := vault0; tmpfs := ∅; clock := 1760000000000; events := [] |}.

(** Comparison by code units, the collation of plain ASCII names. *)
Definition codeUnitCompare (a b : string) : Z :=
  match String.compare a b with
  | Lt => -1
  | Eq => 0
  | Gt => 1
  end.

Definition suggestion (score : Z) : Connection :=
  {| sourceFile := "journal/2025-10-01.md"; targetFile := "journal/2025-10-03.md";
     sourceText := "lake"; targetText := "slept"; reason := "r";
     confidence := score; connectionType := "thematic" |}.

(** A decoder that knows three texts. *)
Definition decode (text : string) : string + list Element :=
  if String.eqb text "[95, 70, 69]"
  then inr [JsObject (suggestion 95); JsObject (suggestion 70); JsObject (suggestion 69)]
  else if String.eqb text "[]" then inr []
  else if String.eqb text "[null]" then inr [JsNull]
  else inl "Unexpected token in JSON".

(** A tool that answers [reply] and leaves the files alone, and a
    command that the shell does not find. *)
Definition answering (reply : string) (command : string) (fs : gmap string string)
  : ExecOutcome * gmap string string :=
  (ExecResolved reply "", fs).

Definition missing (command : string) (fs : gmap string string)
  : ExecOutcome * gmap string string :=
  (ExecRejected ("Command failed: " +:+ command), fs).

Definition runtime
  (tool : string -> gmap string string -> ExecOutcome * gmap string string)
  : Runtime :=
  {| os_tmpdir := "/tmp";
     exec := tool;
     JSON_parse := decode;
     localeCompare := codeUnitCompare;
     toLocaleString := Js.ofZ;
     newDate := fun _ => {| getFullYear := 2025; getMonth := 9; getDate := 9 |} |}.

(** The shell finds no tool; the tool prints white space only; the tool
    wraps an array in prose. *)
Definition offline : Runtime := runtime missing.
Definition silent : Runtime := runtime (answering ("  " +:+ Js.nl)).
Definition helpful : Runtime := runtime (answering "Some text [95, 70, 69] trailing").

End Sample.

(** The day of the sample clock: its note, a vault that has the note
    already, a clock on the wall and a tool with something to say. *)
Module Today.

Definition timeOfDay (stamp : Z) : string := "9:30:00 AM".

Definition note : TFile := Sample.note "journal/2025-10-09.md" "2025-10-09" 9.

Definition world1 : World :=
  {| vault := Sample.vault0 ++ [VFile note "first thoughts"];
     tmpfs := ∅; clock := 1760000000000; events := [] |}.

Definition thoughtful : Runtime := Sample.runtime (Sample.answering "Themes: the lake").

End Today.

(* ================================================================== *)
(** * Strings *)
(* ================================================================== *)

Section StringFacts.
Import Js.

Lemma app_cons c s t : String c s +:+ t = String c (s +:+ t).
Proof. reflexivity. Qed.

Lemma app_nil_l s : "" +:+ s = s.
Proof. reflexivity. Qed.

Lemma app_nil_r s : s +:+ "" = s.
Proof. induction s as [|c s IH]; [reflexivity|]. rewrite app_cons. congruence. Qed.

Lemma app_assoc (a b c : string) : (a +:+ b) +:+ c = a +:+ (b +:+ c).
Proof.
  induction a as [|x a IH]; [reflexivity|].
  rewrite !app_cons. congruence.
Qed.

Lemma length_app (a b : string) :
  String.length (a +:+ b) = (String.length a + String.length b)%nat.
Proof.
  induction a as [|x a IH]; [reflexivity|].
  rewrite app_cons. simpl. congruence.
Qed.

Lemma concat_cons (x : string) (xs : list string) :
  String.concat "" (x :: xs) = x +:+ String.concat "" xs.
Proof.
  destruct xs as [|y ys]; simpl.
  - symmetry. apply app_nil_r.
  - reflexivity.
Qed.

Lemma concat_app (xs ys : list string) :
  String.concat "" (xs ++ ys) = String.concat "" xs +:+ String.concat "" ys.
Proof.
  induction xs as [|x xs IH].
  - reflexivity.
  - change ((x :: xs) ++ ys) with (x :: (xs ++ ys)).
    rewrite !concat_cons, IH. symmetry. apply app_assoc.
Qed.

Lemma startsWith_app (p t : string) : startsWith p (p +:+ t) = true.
Proof.
  induction p as [|c p IH]; [reflexivity|].
  rewrite app_cons. simpl. rewrite Ascii.eqb_refl. exact IH.
Qed.

Lemma startsWith_split (p s : string) :
  startsWith p s = true -> exists t, s = p +:+ t.
Proof.
  revert s. induction p as [|c p IH]; intros s H.
  - exists s. reflexivity.
  - destruct s as [|d s]; [discriminate|]. simpl in H.
    destruct (Ascii.eqb c d) eqn:E; [|discriminate].
    apply Ascii.eqb_eq in E. subst d.
    destruct (IH s H) as [t ->]. exists t. reflexivity.
Qed.

Lemma startsWith_mono (p s t : string) :
  startsWith p s = true -> startsWith p (s +:+ t) = true.
Proof.
  intros H. destruct (startsWith_split _ _ H) as [u ->].
  rewrite app_assoc. apply startsWith_app.
Qed.

Lemma take_app (a b : string) : take (String.length a) (a +:+ b) = a.
Proof.
  induction a as [|x a IH].
  - simpl. destruct b; reflexivity.
  - rewrite app_cons. simpl. congruence.
Qed.

Lemma drop_app (a b : string) : drop (String.length a) (a +:+ b) = b.
Proof.
  induction a as [|x a IH].
  - reflexivity.
  - rewrite app_cons. exact IH.
Qed.

(** ** Occurrences *)

Lemma occurrences_app (p a b : string) :
  startsWith p "" = false ->
  (occurrences p a + occurrences p b <= occurrences p (a +:+ b))%nat.
Proof.
  intros Hp. induction a as [|x a IH].
  - rewrite app_nil_l. simpl. rewrite Hp. lia.
  - rewrite app_cons.
    change (occurrences p (String x a))
      with ((if startsWith p (String x a) then 1 else 0) + occurrences p a)%nat.
    change (occurrences p (String x (a +:+ b)))
      with ((if startsWith p (String x (a +:+ b)) then 1 else 0)
            + occurrences p (a +:+ b))%nat.
    destruct (startsWith p (String x a)) eqn:E.
    + apply (startsWith_mono _ _ b) in E. rewrite app_cons in E. rewrite E. lia.
    + destruct (startsWith p (String x (a +:+ b))); lia.
Qed.

Lemma occurrences_includes (p s : string) :
  includes p s = true -> (1 <= occurrences p s)%nat.
Proof.
  unfold includes. induction s as [|c s IH]; simpl.
  - destruct (startsWith p ""); [lia | discriminate].
  - destruct (startsWith p (String c s)); [lia|].
    destruct (indexOf p s); [|discriminate].
    intros _. specialize (IH eq_refl). lia.
Qed.

Lemma includes_occurrences (p s : string) :
  (1 <= occurrences p s)%nat -> includes p s = true.
Proof.
  unfold includes. induction s as [|c s IH]; simpl.
  - destruct (startsWith p ""); [reflexivity | lia].
  - destruct (startsWith p (String c s)); [reflexivity|].
    intros H. simpl in H. specialize (IH H).
    destruct (indexOf p s); [reflexivity | discriminate].
Qed.

(** ** [split] on the entry marker

    No proper suffix of ["## Entry:"] is a prefix of it, so two
    occurrences never overlap and the scan of [split] meets every
    occurrence. *)

Lemma marker_unbordered (s : string) (j : nat) :
  startsWith "## Entry:" s = true -> (j < 8)%nat ->
  startsWith "## Entry:" (drop (S j) s) = false.
Proof.
  intros H Hj. destruct (startsWith_split _ _ H) as [t ->].
  do 8 (destruct j as [|j]; [reflexivity|]). lia.
Qed.

Lemma splitFrom_length (s : string) : forall (k : nat) (piece : string),
  (k <= 8)%nat ->
  (forall j, (j < k)%nat -> startsWith "## Entry:" (drop j s) = false) ->
  length (splitFrom "## Entry:" k piece s) = S (occurrences "## Entry:" s).
Proof.
  induction s as [|c s IH]; intros k piece Hk Hclear.
  - reflexivity.
  - destruct k as [|k].
    + change (splitFrom "## Entry:" 0 piece (String c s)) with
        (if startsWith "## Entry:" (String c s)
         then String.rev piece :: splitFrom "## Entry:" 8 "" s
         else splitFrom "## Entry:" 0 (String c piece) s).
      change (occurrences "## Entry:" (String c s)) with
        ((if startsWith "## Entry:" (String c s) then 1 else 0)
         + occurrences "## Entry:" s)%nat.
      destruct (startsWith "## Entry:" (String c s)) eqn:E.
      * simpl length. rewrite (IH 8%nat ""); [lia | lia |].
        intros j Hj. apply (marker_unbordered _ j E Hj).
      * rewrite (IH 0%nat); [lia | lia |]. intros j Hj. lia.
    + change (splitFrom "## Entry:" (S k) piece (String c s)) with
        (splitFrom "## Entry:" k piece s).
      change (occurrences "## Entry:" (String c s)) with
        ((if startsWith "## Entry:" (String c s) then 1 else 0)
         + occurrences "## Entry:" s)%nat.
      assert (H0 := Hclear 0%nat ltac:(lia)).
      change (drop 0 (String c s)) with (String c s) in H0. rewrite H0.
      rewrite (IH k piece); [lia | lia |].
      intros j Hj. apply (Hclear (S j)). lia.
Qed.

Lemma split_marker_length (s : string) :
  length (split "## Entry:" s) = S (occurrences "## Entry:" s).
Proof. apply splitFrom_length; [lia|]. intros j Hj. lia. Qed.

End StringFacts.

(* ================================================================== *)
(** * Reading the journal: [readJournalFiles] *)
(* ================================================================== *)

Section Aggregation.
Import Js.
Local Open Scope js_scope.

Lemma vault_read_run (f : TFile) (w : World) :
  vault_read f w =
  match readData (vault w) (path f) with
  | Some d => (Returned d, w)
  | None => (Thrown (Error ("ENOENT: no such file or directory, open '"
                            +:+ path f +:+ "'")), w)
  end.
Proof.
  unfold vault_read, bind, getVault.
  destruct (readData (vault w) (path f)); reflexivity.
Qed.

(** Reading never changes the world, whether it returns or throws. *)
Lemma readJournalFilesFrom_world (files : list TFile) :
  forall acc w, snd (readJournalFilesFrom acc files w) = w.
Proof.
  induction files as [|f files IH]; intros acc w; [reflexivity|].
  simpl. unfold bind at 1. rewrite vault_read_run.
  destruct (readData (vault w) (path f)); [apply IH | reflexivity].
Qed.

Lemma readJournalFilesFrom_total (files : list TFile) :
  forall acc w,
    Forall (fun f => exists body, holds (vault w) f body) files ->
    exists bodies,
      Forall2 (holds (vault w)) files bodies /\
      readJournalFilesFrom acc files w =
      (Returned (acc +:+ String.concat "" (sectionsOf files bodies)), w).
Proof.
  induction files as [|f files IH]; intros acc w Hall.
  - exists []. split; [constructor|]. simpl. unfold ret. now rewrite app_nil_r.
  - inversion Hall as [|? ? [body Hb] Hrest]; subst.
    destruct (IH (acc +:+ entrySection (basename f) body) w Hrest)
      as (bodies & HF & Hrun).
    exists (body :: bodies). split; [constructor; assumption|].
    change (sectionsOf (f :: files) (body :: bodies))
      with (entrySection (basename f) body :: sectionsOf files bodies).
    rewrite concat_cons. cbn [readJournalFilesFrom].
    unfold bind at 1. rewrite vault_read_run.
    unfold holds in Hb. rewrite Hb, Hrun, app_assoc. reflexivity.
Qed.

Lemma readJournalFilesFrom_returned (files : list TFile) :
  forall acc w content w',
    readJournalFilesFrom acc files w = (Returned content, w') ->
    Forall (fun f => exists body, holds (vault w) f body) files.
Proof.
  induction files as [|f files IH]; intros acc w content w' H; [constructor|].
  simpl in H. unfold bind at 1 in H. rewrite vault_read_run in H.
  destruct (readData (vault w) (path f)) as [body|] eqn:E; [|discriminate].
  constructor; [exists body; exact E | eapply IH; exact H].
Qed.

(** The loop started on [acc] gives [acc] followed by what the loop
    gives when started on the empty text. *)
Lemma readJournalFilesFrom_acc (files : list TFile) :
  forall acc w,
    readJournalFilesFrom acc files w =
    (s <- readJournalFilesFrom "" files ;; ret (acc +:+ s)) w.
Proof.
  induction files as [|f files IH]; intros acc w.
  - simpl. unfold bind, ret. now rewrite app_nil_r.
  - cbn [readJournalFilesFrom]. unfold bind. rewrite vault_read_run.
    destruct (readData (vault w) (path f)) as [body|]; [|reflexivity].
    rewrite (IH (acc +:+ entrySection (basename f) body)).
    rewrite (IH ("" +:+ entrySection (basename f) body)).
    unfold bind. destruct (readJournalFilesFrom "" files w) as [[s|e] w1];
      [|reflexivity].
    unfold ret. now rewrite app_nil_l, app_assoc.
Qed.

Lemma readJournalFilesFrom_app (l1 l2 : list TFile) (w : World) :
  forall acc,
    readJournalFilesFrom acc (l1 ++ l2) w =
    (s1 <- readJournalFilesFrom acc l1 ;;
     s2 <- readJournalFilesFrom "" l2 ;; ret (s1 +:+ s2)) w.
Proof.
  induction l1 as [|f l1 IH]; intros acc.
  - cbn [app readJournalFilesFrom]. unfold bind at 1, ret at 1.
    apply readJournalFilesFrom_acc.
  - change ((f :: l1) ++ l2) with (f :: (l1 ++ l2)).
    cbn [readJournalFilesFrom]. unfold bind. rewrite vault_read_run.
    destruct (readData (vault w) (path f)) as [body|]; [|reflexivity].
    rewrite IH. reflexivity.
Qed.

Lemma sectionsOf_length (files : list TFile) (bodies : list string) :
  Forall2 (fun _ _ => True) files bodies ->
  length (sectionsOf files bodies) = length files.
Proof.
  unfold sectionsOf. induction 1; simpl; congruence.
Qed.

End Aggregation.

Section AggregationClaims.
Import Js.
Local Open Scope js_scope.

Lemma entrySection_occurrences (name body : string) :
  (1 + occurrences "## Entry:" body <= occurrences "## Entry:" (entrySection name body))%nat.
Proof.
  unfold entrySection.
  assert (Hp : startsWith "## Entry:" "" = false) by reflexivity.
  pose proof (occurrences_app "## Entry:" nl
                (nl +:+ "## Entry: " +:+ name +:+ nl +:+ nl +:+ body +:+ nl) Hp).
  pose proof (occurrences_app "## Entry:" nl
                ("## Entry: " +:+ name +:+ nl +:+ nl +:+ body +:+ nl) Hp).
  pose proof (occurrences_app "## Entry:" "## Entry: "
                (name +:+ nl +:+ nl +:+ body +:+ nl) Hp).
  pose proof (occurrences_app "## Entry:" name (nl +:+ nl +:+ body +:+ nl) Hp).
  pose proof (occurrences_app "## Entry:" nl (nl +:+ body +:+ nl) Hp).
  pose proof (occurrences_app "## Entry:" nl (body +:+ nl) Hp).
  pose proof (occurrences_app "## Entry:" body nl Hp).
  assert (occurrences "## Entry:" "## Entry: " = 1%nat) by reflexivity.
  lia.
Qed.

Lemma sections_occurrences (v : list TAbstractFile) (files : list TFile)
      (bodies : list string) :
  Forall2 (holds v) files bodies ->
  (length files <= occurrences "## Entry:" (String.concat "" (sectionsOf files bodies)))%nat
  /\ (Exists (fun f => exists body, holds v f body /\ includes "## Entry:" body = true) files ->
      (length files < occurrences "## Entry:" (String.concat "" (sectionsOf files bodies)))%nat).
Proof.
  induction 1 as [|f body files bodies Hf HF [IH1 IH2]].
  - split; [simpl; lia|]. intros HE. inversion HE.
  - change (sectionsOf (f :: files) (body :: bodies))
      with (entrySection (basename f) body :: sectionsOf files bodies).
    rewrite concat_cons.
    pose proof (occurrences_app "## Entry:" (entrySection (basename f) body)
                  (String.concat "" (sectionsOf files bodies)) eq_refl) as Happ.
    pose proof (entrySection_occurrences (basename f) body) as Hsec.
    split; [simpl length; lia|].
    intros HE. simpl length. inversion HE as [? ? (b & Hb & Hin)|? ? Hrest]; subst.
    + unfold holds in Hf, Hb. rewrite Hf in Hb. injection Hb as <-.
      apply occurrences_includes in Hin. lia.
    + specialize (IH2 Hrest). lia.
Qed.

(** C9.  [readJournalFiles] is additive: reading [l1 ++ l2] is reading
    [l1], then [l2], and joining the two texts.  When the vault holds
    every one of the N files, the text is the concatenation of exactly N
    sections in the order of the files, the i-th being two line breaks,
    the header [## Entry: <basename>], a blank line, the whole body of
    the i-th file and a line break. *)
Theorem readJournalFiles_sections (w : World) (files : list TFile) :
  (forall l1 l2,
      readJournalFiles (l1 ++ l2) w =
      (s1 <- readJournalFiles l1 ;; s2 <- readJournalFiles l2 ;; ret (s1 +:+ s2)) w)
  /\ (Forall (fun f => exists body, holds (vault w) f body) files ->
      exists bodies,
        Forall2 (holds (vault w)) files bodies
        /\ readJournalFiles files w =
           (Returned (String.concat "" (sectionsOf files bodies)), w)
        /\ length (sectionsOf files bodies) = length files
        /\ forall i f body,
             files !! i = Some f -> bodies !! i = Some body ->
             sectionsOf files bodies !! i =
             Some (nl +:+ nl +:+ "## Entry: " +:+ basename f +:+ nl +:+ nl
                   +:+ body +:+ nl)).
Proof.
  split.
  - intros l1 l2. unfold readJournalFiles. apply readJournalFilesFrom_app.
  - intros Hall.
    destruct (readJournalFilesFrom_total files "" w Hall) as (bodies & HF & Hrun).
    exists bodies. split; [exact HF|]. split; [exact Hrun|]. split.
    + apply sectionsOf_length. eapply Forall2_impl; [exact HF | trivial].
    + intros i f body Hi Hb. unfold sectionsOf.
      rewrite lookup_zip_with, Hi. simpl. rewrite Hb. reflexivity.
Qed.

(** C10.  The count in the footer is the number of pieces that
    [split('## Entry:')] cuts the aggregated text into, less one.  It is
    never below the number of files read; it is above it as soon as one
    body contains the marker; so it equals the number of files only
    when no body contains the marker. *)
Theorem entriesCount_overcounts (w : World) (files : list TFile) :
  Forall (fun f => exists body, holds (vault w) f body) files ->
  exists content,
    readJournalFiles files w = (Returned content, w)
    /\ entriesCount content = Z.of_nat (length (split "## Entry:" content)) - 1
    /\ Z.of_nat (length files) <= entriesCount content
    /\ (Exists (fun f => exists body,
                    holds (vault w) f body /\ includes "## Entry:" body = true) files ->
        Z.of_nat (length files) < entriesCount content)
    /\ (entriesCount content = Z.of_nat (length files) ->
        Forall (fun f => forall body,
                    holds (vault w) f body -> includes "## Entry:" body = false) files).
Proof.
  intros Hall.
  destruct (readJournalFilesFrom_total files "" w Hall) as (bodies & HF & Hrun).
  rewrite app_nil_l in Hrun.
  exists (String.concat "" (sectionsOf files bodies)).
  destruct (sections_occurrences _ _ _ HF) as [Hle Hlt].
  assert (Hcount : entriesCount (String.concat "" (sectionsOf files bodies)) =
                   Z.of_nat (occurrences "## Entry:"
                               (String.concat "" (sectionsOf files bodies)))).
  { unfold entriesCount. rewrite split_marker_length. lia. }
  split; [exact Hrun|]. split; [reflexivity|]. split; [lia|].
  split; [intros HE; specialize (Hlt HE); lia|].
  intros Heq. apply Forall_forall. intros f Hin body Hb.
  destruct (includes "## Entry:" body) eqn:E; [|reflexivity].
  exfalso. assert (HE : Exists (fun f => exists body,
               holds (vault w) f body /\ includes "## Entry:" body = true) files).
  { apply Exists_exists. exists f. split; [exact Hin|]. exists body. auto. }
  specialize (Hlt HE). lia.
Qed.

End AggregationClaims.

(* ================================================================== *)
(** * Selecting the journal files: [getJournalFilesInRange] *)
(* ================================================================== *)

Section DateMatch.
Import Js.

Lemma matchDate_eq (s : string) :
  matchDate s =
  if dateAtStart s then Some (take 10 s)
  else match s with
       | "" => None
       | String _ s' => matchDate s'
       end.
Proof. destruct s; reflexivity. Qed.

Lemma isDigit_spec (c : ascii) : isDigit c = true <-> Digit c.
Proof.
  unfold isDigit, Digit. rewrite andb_true_iff, !Nat.leb_le. reflexivity.
Qed.

Lemma DateShaped_spec (d : string) :
  DateShaped d <-> dateAtStart d = true /\ String.length d = 10%nat.
Proof.
  split.
  - intros (y1 & y2 & y3 & y4 & m1 & m2 & d1 & d2 & -> & H).
    repeat rewrite <- isDigit_spec in H.
    destruct H as (H1 & H2 & H3 & H4 & H5 & H6 & H7 & H8).
    split; [|reflexivity]. cbn [dateAtStart].
    rewrite H1, H2, H3, H4, H5, H6, H7, H8. reflexivity.
  - intros [H Hlen].
    do 10 (destruct d as [|? d]; [discriminate H|]).
    destruct d; [|discriminate Hlen].
    cbn [dateAtStart] in H. repeat rewrite andb_true_iff in H.
    repeat rewrite isDigit_spec in H. rewrite !Ascii.eqb_eq in H.
    destruct H as (((((((((? & ?) & ?) & ?) & ->) & ?) & ?) & ->) & ?) & ?).
    unfold DateShaped. do 8 eexists. split; [reflexivity|].
    do 7 (split; [assumption|]). assumption.
Qed.

Lemma dateAtStart_take (s : string) :
  dateAtStart s = true ->
  DateShaped (take 10 s) /\ s = take 10 s +:+ drop 10 s.
Proof.
  intros H.
  do 10 (destruct s as [|? s]; [discriminate H|]).
  split; [apply DateShaped_spec; split|]; [exact H | reflexivity | reflexivity].
Qed.

Lemma dateAtStart_app (d t : string) :
  DateShaped d -> dateAtStart (d +:+ t) = true.
Proof.
  intros [H Hlen]%DateShaped_spec.
  do 10 (destruct d as [|? d]; [discriminate H|]).
  destruct d; [exact H | discriminate Hlen].
Qed.

Lemma matchDate_first (name d : string) :
  matchDate name = Some d -> FirstDate name d.
Proof.
  induction name as [|c name IH]; rewrite matchDate_eq.
  - discriminate.
  - destruct (dateAtStart (String c name)) eqn:E.
    + intros [= <-]. destruct (dateAtStart_take _ E) as [Hd Hsplit].
      exists "", (drop 10 (String c name)). split; [exact Hsplit|].
      split; [exact Hd|]. intros; simpl; lia.
    + intros Hm. destruct (IH Hm) as (before & after & -> & Hd & Hmin).
      exists (String c before), after. split; [reflexivity|].
      split; [exact Hd|]. intros before' d' after' Heq Hd'.
      destruct before' as [|c' before'].
      * rewrite app_nil_l in Heq. rewrite Heq, dateAtStart_app in E by exact Hd'.
        discriminate.
      * rewrite !app_cons in Heq. injection Heq as -> Heq.
        specialize (Hmin _ _ _ Heq Hd'). simpl. lia.
Qed.

Lemma first_matchDate (name d : string) :
  FirstDate name d -> matchDate name = Some d.
Proof.
  intros (before & after & -> & Hd & Hmin).
  induction before as [|c before IH]; rewrite matchDate_eq.
  - rewrite app_nil_l, dateAtStart_app by exact Hd.
    apply DateShaped_spec in Hd as [_ Hlen]. rewrite <- Hlen, take_app. reflexivity.
  - rewrite app_cons.
    destruct (dateAtStart (String c (before +:+ d +:+ after))) eqn:E.
    + destruct (dateAtStart_take _ E) as [Hd' Hsplit].
      specialize (Hmin "" _ _ Hsplit Hd'). simpl in Hmin. lia.
    + apply IH. intros before' d' after' Heq Hd'.
      specialize (Hmin (String c before') d' after').
      rewrite !app_cons, Heq in Hmin. specialize (Hmin eq_refl Hd').
      simpl in Hmin. lia.
Qed.

Lemma matchDate_spec (name d : string) :
  matchDate name = Some d <-> FirstDate name d.
Proof. split; [apply matchDate_first | apply first_matchDate]. Qed.

End DateMatch.

Section SortFacts.
Context {A : Type} (cmp : A -> A -> Z).

Lemma insert_Permutation (x : A) (l : list A) :
  Permutation (Js.insert cmp x l) (x :: l).
Proof.
  induction l as [|y l IH]; simpl; [reflexivity|].
  destruct (cmp x y <=? 0); [reflexivity|].
  rewrite IH. apply perm_swap.
Qed.

Lemma sort_Permutation (l : list A) : Permutation (Js.sort cmp l) l.
Proof.
  unfold Js.sort. induction l as [|x l IH]; simpl; [reflexivity|].
  rewrite insert_Permutation. now constructor.
Qed.

Hypothesis cmp_total : forall a b, cmp a b <= 0 \/ cmp b a <= 0.
Hypothesis cmp_trans : forall a b c, cmp a b <= 0 -> cmp b c <= 0 -> cmp a c <= 0.

Lemma insert_StronglySorted (x : A) (l : list A) :
  StronglySorted (fun a b => cmp a b <= 0) l ->
  StronglySorted (fun a b => cmp a b <= 0) (Js.insert cmp x l).
Proof.
  induction 1 as [|y l Hs IH Hy]; simpl.
  - repeat constructor.
  - destruct (Z.leb_spec (cmp x y) 0) as [Hxy|Hxy].
    + constructor; [constructor; assumption|].
      constructor; [exact Hxy|].
      eapply Forall_impl; [exact Hy|]. intros z Hz. simpl in *. eauto.
    + constructor; [exact IH|].
      rewrite insert_Permutation. constructor; [|exact Hy].
      destruct (cmp_total x y); lia.
Qed.

Lemma sort_StronglySorted (l : list A) :
  StronglySorted (fun a b => cmp a b <= 0) (Js.sort cmp l).
Proof.
  unfold Js.sort. induction l as [|x l IH]; simpl; [constructor|].
  now apply insert_StronglySorted.
Qed.

End SortFacts.

Section Selection.
Variable rt : Runtime.
Variable settings : JournalAnalyzerSettings.
Import Js.
Local Open Scope js_scope.

Lemma inDateRange_spec (startDate endDate : string) (f : TFile) :
  inDateRange settings startDate endDate f = true <-> Selected settings startDate endDate f.
Proof.
  unfold inDateRange, Selected, ge, le. split.
  - destruct (startsWith (journalFolder settings) (path f)); [|discriminate].
    simpl. destruct (matchDate (basename f)) as [d|] eqn:E; [|discriminate].
    intros [H1 H2]%andb_prop. split; [reflexivity|].
    exists d. split; [now apply matchDate_spec | auto].
  - intros (-> & d & Hd & H1 & H2). simpl.
    apply matchDate_spec in Hd. rewrite Hd, H1, H2. reflexivity.
Qed.

Lemma getJournalFilesInRange_run (startDate endDate : string) (w : World) :
  getJournalFilesInRange rt settings startDate endDate w =
  match getAbstractFileByPath (vault w) (journalFolder settings) with
  | None => (Thrown (Error ("Journal folder not found: " +:+ journalFolder settings)), w)
  | Some _ =>
      (Returned (sort (byBasename rt)
                   (List.filter (inDateRange settings startDate endDate)
                      (getMarkdownFiles (vault w)))), w)
  end.
Proof.
  unfold getJournalFilesInRange, bind, getVault.
  destruct (getAbstractFileByPath (vault w) (journalFolder settings)); reflexivity.
Qed.

(** C1.  When the journal folder is in the vault, the selection returns,
    leaves the world as it was, and returns exactly the markdown files
    whose path starts with the journal folder and whose basename has a
    first [YYYY-MM-DD] substring [d] with [startDate <= d <= endDate] in
    the order of code units, each as often as the vault lists it; the
    result ascends by basename in the order of [localeCompare]. *)
Theorem getJournalFilesInRange_selects (startDate endDate : string) (w : World) :
  Collation (localeCompare rt) ->
  is_Some (getAbstractFileByPath (vault w) (journalFolder settings)) ->
  exists selected,
    getJournalFilesInRange rt settings startDate endDate w = (Returned selected, w)
    /\ (forall f, In f selected <->
                  In f (getMarkdownFiles (vault w)) /\ Selected settings startDate endDate f)
    /\ Permutation selected
         (List.filter (inDateRange settings startDate endDate) (getMarkdownFiles (vault w)))
    /\ StronglySorted
         (fun a b => localeCompare rt (basename a) (basename b) <= 0) selected.
Proof.
  intros [Htotal Htrans] [e He].
  rewrite getJournalFilesInRange_run, He.
  eexists. split; [reflexivity|].
  pose proof (sort_Permutation (byBasename rt)
                (List.filter (inDateRange settings startDate endDate)
                   (getMarkdownFiles (vault w)))) as Hperm.
  split; [|split].
  - intros f. split.
    + intros Hin. eapply Permutation_in in Hin; [|exact Hperm].
      apply filter_In in Hin as [Hin Hsel]. split; [exact Hin|].
      now apply inDateRange_spec.
    + intros [Hin Hsel]. eapply Permutation_in; [symmetry; exact Hperm|].
      apply filter_In. split; [exact Hin|]. now apply inDateRange_spec.
  - exact Hperm.
  - apply (sort_StronglySorted (byBasename rt)); unfold byBasename.
    + intros a b. apply Htotal.
    + intros a b c. apply Htrans.
Qed.

(** C7.  With the journal folder in the vault and no file in the range,
    the selection returns the empty array and leaves the world as it
    was.  It throws exactly when nothing is stored under the configured
    folder path, and what it throws is the not-found error that names
    the folder. *)
Theorem getJournalFilesInRange_folder (startDate endDate : string) (w : World) :
  (is_Some (getAbstractFileByPath (vault w) (journalFolder settings)) ->
   (forall f, In f (getMarkdownFiles (vault w)) -> ~ Selected settings startDate endDate f) ->
   getJournalFilesInRange rt settings startDate endDate w = (Returned [], w))
  /\ ((exists e, fst (getJournalFilesInRange rt settings startDate endDate w) = Thrown e)
      <-> getAbstractFileByPath (vault w) (journalFolder settings) = None)
  /\ (getAbstractFileByPath (vault w) (journalFolder settings) = None ->
      getJournalFilesInRange rt settings startDate endDate w =
      (Thrown (Error ("Journal folder not found: " +:+ journalFolder settings)), w)).
Proof.
  rewrite getJournalFilesInRange_run. split; [|split].
  - intros [e ->] Hnone.
    assert (List.filter (inDateRange settings startDate endDate)
              (getMarkdownFiles (vault w)) = []) as ->; [|reflexivity].
    induction (getMarkdownFiles (vault w)) as [|f l IH]; [reflexivity|].
    simpl. destruct (inDateRange settings startDate endDate f) eqn:E.
    + exfalso. apply (Hnone f); [now left | now apply inDateRange_spec].
    + apply IH. intros g Hg. apply Hnone. now right.
  - destruct (getAbstractFileByPath (vault w) (journalFolder settings)).
    + split; [intros [e He]; discriminate He | discriminate].
    + split; [reflexivity | eexists; reflexivity].
  - intros ->. reflexivity.
Qed.

End Selection.

(* ================================================================== *)
(** * Decoding the suggestions: the tail of [analyzeConnections] *)
(* ================================================================== *)

Section ArrayMatch.
Import Js.









End ArrayMatch.

Section Decoding.
Variable rt : Runtime.
Variable settings : JournalAnalyzerSettings.
Import Js.
Local Open Scope js_scope.

Lemma meetsThreshold_spec (c : Connection) :
  meetsThreshold settings c = true <-> connectionMinConfidence settings <= confidence c.
Proof. unfold meetsThreshold. apply Z.leb_le. Qed.

(** The filter on an array without [null]: the records that meet the
    threshold, in their order; the elements without a confidence are
    dropped. *)
Lemma filterByConfidence_records (items : list Element) (w : World) :
  ~ In JsNull items ->
  filterByConfidence settings items w =
  (Returned (List.filter (meetsThreshold settings) (records items)), w).
Proof.
  induction items as [|[c| |] items IH]; intros Hnull.
  - reflexivity.
  - cbn [filterByConfidence]. unfold bind.
    rewrite IH by (intros H; apply Hnull; now right).
    change (records (JsObject c :: items)) with (c :: records items).
    cbn [List.filter]. reflexivity.
  - exfalso. apply Hnull. now left.
  - cbn [filterByConfidence]. apply IH. intros H. apply Hnull. now right.
Qed.

(** The filter on an array with a [null] in it throws. *)
Lemma filterByConfidence_null (items : list Element) (w : World) :
  In JsNull items ->
  filterByConfidence settings items w =
  (Thrown (Error "Cannot read properties of null (reading 'confidence')"), w).
Proof.
  induction items as [|[c| |] items IH]; intros Hnull.
  - destruct Hnull.
  - cbn [filterByConfidence]. unfold bind. rewrite IH; [reflexivity|].
    destruct Hnull as [H|H]; [discriminate | exact H].
  - reflexivity.
  - cbn [filterByConfidence]. apply IH.
    destruct Hnull as [H|H]; [discriminate | exact H].
Qed.

Lemma In_JsNull_dec (items : list Element) : {In JsNull items} + {~ In JsNull items}.
Proof. apply in_dec. decide equality; decide equality; solve [apply Z.eq_dec | apply string_dec]. Qed.

Lemma filterByConfidence_world (items : list Element) (w : World) :
  snd (filterByConfidence settings items w) = w.
Proof.
  destruct (In_JsNull_dec items) as [H|H].
  - now rewrite filterByConfidence_null.
  - now rewrite filterByConfidence_records.
Qed.

Lemma records_objects (connections : list Connection) :
  records (map JsObject connections) = connections
  /\ ~ In JsNull (map JsObject connections).
Proof.
  induction connections as [|c l [IH1 IH2]]; [split; [reflexivity | intros []]|].
  split.
  - change (records (map JsObject (c :: l))) with (c :: records (map JsObject l)).
    now rewrite IH1.
  - intros [H|H]; [discriminate | exact (IH2 H)].
Qed.


(** C8.  The filter after decoding keeps a record whose confidence
    equals the threshold and drops one whose confidence is one below
    it: a record is kept exactly when the threshold is at most its
    confidence. *)
Theorem confidence_threshold_inclusive (stdout region : string)
        (connections : list Connection) (w : World) :
  matchArray stdout = Some region ->
  JSON_parse rt region = inr (map JsObject connections) ->
  exists kept,
    parseJsonResponse rt settings stdout w = (Returned kept, w)
    /\ (forall c, In c connections ->
                  confidence c = connectionMinConfidence settings -> In c kept)
    /\ (forall c, confidence c = connectionMinConfidence settings - 1 -> ~ In c kept)
    /\ (forall c, In c kept <->
                  In c connections /\ connectionMinConfidence settings <= confidence c).
Proof.
  intros Hm Hdec. unfold parseJsonResponse. rewrite Hm, Hdec.
  destruct (records_objects connections) as [Hrec Hnull].
  rewrite (filterByConfidence_records _ _ Hnull), Hrec.
  eexists. split; [reflexivity|].
  assert (Hkept : forall c, In c (List.filter (meetsThreshold settings) connections) <->
                            In c connections /\ connectionMinConfidence settings <= confidence c).
  { intros c. rewrite filter_In, meetsThreshold_spec. reflexivity. }
  split; [|split].
  - intros c Hin Heq. apply Hkept. split; [exact Hin | lia].
  - intros c Heq Hin. apply Hkept in Hin. lia.
  - exact Hkept.
Qed.

End Decoding.

(* ================================================================== *)
(** * Calling the external tool: [analyzeWithClaudeCode] *)
(* ================================================================== *)

Section Invocation.
Variable rt : Runtime.
Variable settings : JournalAnalyzerSettings.
Import Js.
Local Open Scope js_scope.

Lemma length_zero (s : string) : (String.length s =? 0)%nat = true <-> s = "".
Proof. destruct s; simpl; split; congruence. Qed.

Lemma isBlank_spec (stdout : string) : isBlank stdout = true <-> trim stdout = "".
Proof.
  unfold isBlank. rewrite orb_true_iff, length_zero. split.
  - intros [H|H]; [|exact H]. apply String.eqb_eq in H. now subst.
  - auto.
Qed.

(** The tool does not start or exits abnormally: the prompt file is
    where the tool left it, nothing removes it. *)
Lemma analyzeWithClaudeCode_rejected (content startDate endDate r : string)
      (fs : gmap string string) (w : World) :
  exec rt (themeCommand rt settings w) (promptWritten rt content startDate endDate w)
  = (ExecRejected r, fs) ->
  analyzeWithClaudeCode rt settings content startDate endDate w =
  (Thrown (Error ("Failed to analyze with Claude Code: " +:+ r)),
   {| vault := vault w; tmpfs := fs; clock := clock w;
      events := events w ++ [ConsoleError ("Error calling Claude Code: " +:+ r)] |}).
Proof.
  intros E. unfold themeCommand, promptWritten in E.
  unfold analyzeWithClaudeCode, try_catch, bind, Date_now, fs_writeFile, execAsync,
    setTmpfs.
  cbn [fst snd vault tmpfs clock events]. rewrite E. reflexivity.
Qed.

(** The tool wrote only white space: the call throws, whatever the tool
    did to the prompt file, and the file is gone afterwards. *)
Lemma analyzeWithClaudeCode_blank (content startDate endDate out err : string)
      (fs : gmap string string) (w : World) :
  exec rt (themeCommand rt settings w) (promptWritten rt content startDate endDate w)
  = (ExecResolved out err, fs) ->
  trim out = "" ->
  exists m,
    fst (analyzeWithClaudeCode rt settings content startDate endDate w) =
    Thrown (Error ("Failed to analyze with Claude Code: " +:+ m))
    /\ (m = "Claude Code returned empty response"
        \/ m = "ENOENT: no such file or directory, unlink '"
               +:+ themeTempFile rt (clock w) +:+ "'")
    /\ (is_Some (fs !! themeTempFile rt (clock w)) ->
        m = "Claude Code returned empty response").
Proof.
  intros E Hblank. apply isBlank_spec in Hblank.
  unfold themeCommand, promptWritten in E.
  unfold analyzeWithClaudeCode, try_catch, bind, Date_now, fs_writeFile, execAsync,
    fs_unlink, setTmpfs, when.
  cbn [fst snd vault tmpfs clock events]. rewrite E.
  cbn [fst snd vault tmpfs clock events ret throw].
  destruct (fs !! themeTempFile rt (clock w)) as [d|] eqn:Efile.
  - exists "Claude Code returned empty response".
    destruct (negb (String.eqb err "")); cbn; rewrite Hblank; cbn; auto.
  - eexists. cbn. split; [reflexivity|]. split; [now right|].
    intros [? [=]].
Qed.

(** The call never writes to the vault. *)
Lemma analyzeWithClaudeCode_vault (content startDate endDate : string) (w : World) :
  vault (snd (analyzeWithClaudeCode rt settings content startDate endDate w)) = vault w.
Proof.
  unfold analyzeWithClaudeCode, try_catch, bind, Date_now, fs_writeFile, execAsync,
    fs_unlink, setTmpfs, when.
  cbn [fst snd vault tmpfs clock events].
  destruct (exec rt _ _) as [[r|out err] fs]; cbn [fst snd vault tmpfs clock events ret throw];
    [reflexivity|].
  destruct (fs !! themeTempFile rt (clock w)); [|reflexivity].
  destruct (negb (String.eqb err "")), (isBlank out); reflexivity.
Qed.

(** Once the tool has run to its end, the prompt file is removed. *)
Lemma analyzeWithClaudeCode_resolved_cleans (content startDate endDate out err : string)
      (fs : gmap string string) (w : World) :
  exec rt (themeCommand rt settings w) (promptWritten rt content startDate endDate w)
  = (ExecResolved out err, fs) ->
  tmpfs (snd (analyzeWithClaudeCode rt settings content startDate endDate w))
    !! themeTempFile rt (clock w) = None.
Proof.
  intros E. unfold themeCommand, promptWritten in E.
  unfold analyzeWithClaudeCode, try_catch, bind, Date_now, fs_writeFile, execAsync,
    fs_unlink, setTmpfs, when.
  cbn [fst snd vault tmpfs clock events]. rewrite E.
  cbn [fst snd vault tmpfs clock events ret throw].
  destruct (fs !! themeTempFile rt (clock w)) eqn:Efile; [|exact Efile].
  destruct (negb (String.eqb err "")), (isBlank out);
    cbn [fst snd vault tmpfs clock events emit ret throw]; apply lookup_delete_eq.
Qed.

End Invocation.

(* ================================================================== *)
(** * Running a method step by step *)
(* ================================================================== *)

Lemma bind_run {A B} (m : M A) (k : A -> M B) (w : World) :
  bind m k w = match m w with
               | (Returned a, w') => k a w'
               | (Thrown e, w') => (Thrown e, w')
               end.
Proof. reflexivity. Qed.

Lemma try_catch_run {A} (body : M A) (handler : JsError -> M A) (w : World) :
  try_catch body handler w = match body w with
                             | (Returned a, w') => (Returned a, w')
                             | (Thrown e, w') => handler e w'
                             end.
Proof. reflexivity. Qed.

Lemma emit_run (e : Event) (w : World) :
  emit e w = (Returned tt, {| vault := vault w; tmpfs := tmpfs w; clock := clock w;
                              events := events w ++ [e] |}).
Proof. reflexivity. Qed.

Lemma ret_run {A} (a : A) (w : World) : ret a w = (Returned a, w).
Proof. reflexivity. Qed.

Lemma throw_run {A} (e : JsError) (w : World) : @throw A e w = (Thrown e, w).
Proof. reflexivity. Qed.

(** One step of the run recorded in [H], and as many as there are. *)
Ltac step H :=
  first [ rewrite bind_run in H | rewrite try_catch_run in H | rewrite emit_run in H
        | rewrite ret_run in H | rewrite throw_run in H ];
  cbv beta iota in H; cbn [vault tmpfs clock events] in H.

Ltac steps H := repeat step H.

Section Pipeline.
Variable rt : Runtime.
Variable settings : JournalAnalyzerSettings.
Import Js.
Local Open Scope js_scope.

(** C4.  Let the external tool, however it is called, run to its end
    with nothing but white space on its standard output.  Then the
    invoker throws its error for every aggregated text; the pipeline
    catches what is thrown and returns; the vault after the pipeline is
    the vault before it, so nothing is created at the path of the
    analysis note; and when the journal folder is there, the selection
    is not empty and every selected file can be read, the last thing
    the user sees is the notice of that error. *)
Theorem blank_output_writes_no_note (startDate endDate : string) (w : World) :
  (forall command fs, exists out err fs',
      exec rt command fs = (ExecResolved out err, fs') /\ trim out = "") ->
  (forall content w0, exists m,
      fst (analyzeWithClaudeCode rt settings content startDate endDate w0) =
      Thrown (Error ("Failed to analyze with Claude Code: " +:+ m)))
  /\ fst (analyzeJournalRange rt settings startDate endDate w) = Returned tt
  /\ vault (snd (analyzeJournalRange rt settings startDate endDate w)) = vault w
  /\ getAbstractFileByPath
       (vault (snd (analyzeJournalRange rt settings startDate endDate w)))
       (metaNotePath settings startDate endDate)
     = getAbstractFileByPath (vault w) (metaNotePath settings startDate endDate)
  /\ (forall selected,
        fst (getJournalFilesInRange rt settings startDate endDate w) = Returned selected ->
        selected <> [] ->
        Forall (fun f => exists body, holds (vault w) f body) selected ->
        exists m,
          last (events (snd (analyzeJournalRange rt settings startDate endDate w))) =
          Some (Notice ("Error analyzing journal: Failed to analyze with Claude Code: "
                        +:+ m))).
Proof.
  intros Htool.
  assert (Hthrows : forall content w0, exists m,
      fst (analyzeWithClaudeCode rt settings content startDate endDate w0) =
      Thrown (Error ("Failed to analyze with Claude Code: " +:+ m))).
  { intros content w0.
    destruct (Htool (themeCommand rt settings w0)
                    (promptWritten rt content startDate endDate w0))
      as (out & err & fs & E & Hblank).
    destruct (analyzeWithClaudeCode_blank rt settings _ _ _ _ _ _ _ E Hblank)
      as (m & Hm & _). eauto. }
  split; [exact Hthrows|].
  rewrite getJournalFilesInRange_run.
  remember (analyzeJournalRange rt settings startDate endDate w) as r eqn:Er.
  assert (Hrun : fst r = Returned tt /\ vault (snd r) = vault w
    /\ (forall selected,
        fst (match getAbstractFileByPath (vault w) (journalFolder settings) with
             | None => (Thrown (Error ("Journal folder not found: "
                                       +:+ journalFolder settings)), w)
             | Some _ => (Returned (sort (byBasename rt)
                            (List.filter (inDateRange settings startDate endDate)
                               (getMarkdownFiles (vault w)))), w)
             end) = Returned selected ->
        selected <> [] ->
        Forall (fun f => exists body, holds (vault w) f body) selected ->
        exists m, last (events (snd r)) =
          Some (Notice ("Error analyzing journal: Failed to analyze with Claude Code: "
                        +:+ m)))).
  { unfold analyzeJournalRange in Er. do 6 step Er.
    rewrite getJournalFilesInRange_run in Er. cbn [vault] in Er.
    destruct (getAbstractFileByPath (vault w) (journalFolder settings)) as [folder|].
    2:{ steps Er. subst r. split; [reflexivity|]. split; [reflexivity|]. intros ? [=]. }
    cbv beta iota in Er.
    set (selected := sort (byBasename rt) _) in *.
    destruct (length selected =? 0)%nat eqn:Elen.
    { steps Er. subst r. split; [reflexivity|]. split; [reflexivity|].
      intros ? [= <-] Hne. destruct selected; [congruence | discriminate]. }
    do 5 step Er.
    match type of Er with
    | context [readJournalFiles selected ?w1] =>
        pose proof (readJournalFilesFrom_world selected "" w1) as Hw;
        fold (readJournalFiles selected) in Hw;
        pose proof (readJournalFilesFrom_total selected "" w1) as Htotal;
        fold (readJournalFiles selected) in Htotal;
        destruct (readJournalFiles selected w1) as [[content|e] w2] eqn:Eread
    end; cbn [snd] in Hw; subst w2.
    2:{ steps Er. subst r. split; [reflexivity|]. split; [reflexivity|].
        intros ? [= <-] _ Hall. destruct (Htotal Hall) as (? & _ & [=]). }
    do 3 step Er.
    match type of Er with
    | context [analyzeWithClaudeCode rt settings content startDate endDate ?w1] =>
        destruct (Hthrows content w1) as [m Hm];
        pose proof (analyzeWithClaudeCode_vault rt settings content startDate endDate w1)
          as Hv;
        destruct (analyzeWithClaudeCode rt settings content startDate endDate w1)
          as [o w3]
    end.
    cbn [fst snd vault] in Hm, Hv. subst o. steps Er. subst r.
    cbn [fst snd vault events]. split; [reflexivity|]. split; [exact Hv|].
    intros _ _ _ _. exists m. rewrite last_snoc. reflexivity. }
  destruct Hrun as (H1 & H2 & H3).
  split; [exact H1|]. split; [exact H2|]. split; [now rewrite H2 | exact H3].
Qed.

End Pipeline.

(* ================================================================== *)
(** * Writing the analysis note: [createMetaNote] *)
(* ================================================================== *)

Ltac stepg :=
  first [ rewrite bind_run | rewrite try_catch_run | rewrite emit_run
        | rewrite ret_run | rewrite throw_run ];
  cbv beta iota; cbn [vault tmpfs clock events].

Section VaultFacts.

Lemma getVault_run (w : World) : getVault w = (Returned (vault w), w).
Proof. reflexivity. Qed.

Lemma Date_now_run (w : World) : Date_now w = (Returned (clock w), w).
Proof. reflexivity. Qed.

Lemma lookup_path (v : list TAbstractFile) (p : string) (e : TAbstractFile) :
  getAbstractFileByPath v p = Some e -> abstractPath e = p.
Proof.
  intros H. apply find_some in H as [_ H]. now apply String.eqb_eq in H.
Qed.

Lemma lookup_is_Some (v : list TAbstractFile) (p : string) :
  is_Some (getAbstractFileByPath v p) <-> In p (map abstractPath v).
Proof.
  unfold getAbstractFileByPath. induction v as [|e v IH]; simpl.
  - split; [intros [? [=]] | tauto].
  - unfold hasPath at 1. destruct (String.eqb_spec (abstractPath e) p) as [->|Hne].
    + split; [now left | eauto].
    + rewrite IH. split; [now right | intros [?|?]; [contradiction | assumption]].
Qed.

Lemma lookup_app_l (v l : list TAbstractFile) (p : string) (e : TAbstractFile) :
  getAbstractFileByPath v p = Some e -> getAbstractFileByPath (v ++ l) p = Some e.
Proof.
  unfold getAbstractFileByPath. induction v as [|x v IH]; simpl; [discriminate|].
  destruct (hasPath p x); auto.
Qed.

Lemma lookup_app_r (v l : list TAbstractFile) (p : string) :
  getAbstractFileByPath v p = None ->
  getAbstractFileByPath (v ++ l) p = getAbstractFileByPath l p.
Proof.
  unfold getAbstractFileByPath. induction v as [|x v IH]; simpl; [reflexivity|].
  destruct (hasPath p x); [discriminate | auto].
Qed.

Lemma lookup_last (v : list TAbstractFile) (e : TAbstractFile) (p : string) :
  abstractPath e = p ->
  getAbstractFileByPath v p = None ->
  getAbstractFileByPath (v ++ [e]) p = Some e.
Proof.
  intros <- H. rewrite (lookup_app_r _ _ _ H).
  unfold getAbstractFileByPath, hasPath. simpl. now rewrite String.eqb_refl.
Qed.

Lemma NoDup_paths_snoc (v : list TAbstractFile) (e : TAbstractFile) (p : string) :
  abstractPath e = p ->
  NoDup (map abstractPath v) ->
  getAbstractFileByPath v p = None ->
  NoDup (map abstractPath (v ++ [e])).
Proof.
  intros <- Hnd Hnone. rewrite map_app. apply NoDup_app.
  split; [exact Hnd|]. split.
  - intros q Hq Hin. apply list_elem_of_In in Hin. simpl in Hin.
    destruct Hin as [<-|[]].
    apply list_elem_of_In, lookup_is_Some in Hq. rewrite Hnone in Hq.
    now destruct Hq.
  - simpl. repeat constructor. intros Hin. apply list_elem_of_In in Hin.
    destruct Hin.
Qed.

Lemma paths_writeData (p data : string) (v : list TAbstractFile) :
  map abstractPath (map (writeData p data) v) = map abstractPath v.
Proof.
  induction v as [|e v IH]; simpl; [reflexivity|]. f_equal; [|exact IH].
  destruct e as [f d|q]; simpl; [|reflexivity].
  destruct (String.eqb (path f) p); reflexivity.
Qed.

Lemma lookup_writeData (p data old : string) (f : TFile) (v : list TAbstractFile) :
  getAbstractFileByPath v p = Some (VFile f old) ->
  getAbstractFileByPath (map (writeData p data) v) p = Some (VFile f data).
Proof.
  unfold getAbstractFileByPath. induction v as [|e v IH]; simpl; [discriminate|].
  destruct (hasPath p e) eqn:E.
  - intros [= ->]. unfold hasPath in E. simpl in *. rewrite E. simpl.
    unfold hasPath. simpl. now rewrite E.
  - intros H. assert (hasPath p (writeData p data e) = false) as ->; [|auto].
    destruct e as [g d|q]; simpl; [|exact E].
    destruct (String.eqb (path g) p); exact E.
Qed.

Lemma one_entry_per_path (v : list TAbstractFile) (p : string) :
  NoDup (map abstractPath v) -> In p (map abstractPath v) ->
  length (List.filter (hasPath p) v) = 1%nat.
Proof.
  induction v as [|e v IH]; simpl; [tauto|].
  intros Hnd Hin. apply NoDup_cons in Hnd as [Hfresh Hnd].
  unfold hasPath at 1. destruct (String.eqb_spec (abstractPath e) p) as [Hp|Hne].
  - subst p. simpl. f_equal.
    assert (List.filter (hasPath (abstractPath e)) v = []) as ->; [|reflexivity].
    clear -Hfresh. induction v as [|x v IH]; simpl; [reflexivity|].
    unfold hasPath at 1. destruct (String.eqb_spec (abstractPath x) (abstractPath e)).
    + exfalso. apply Hfresh. rewrite list_elem_of_In. simpl. auto.
    + apply IH. intros H. apply Hfresh. rewrite list_elem_of_In in *. simpl. auto.
  - apply IH; [exact Hnd|]. destruct Hin; [contradiction | assumption].
Qed.

Lemma vault_modify_run (f : TFile) (data : string) (w : World) :
  vault_modify f data w =
  match readData (vault w) (path f) with
  | Some _ => (Returned tt,
               {| vault := map (writeData (path f) data) (vault w); tmpfs := tmpfs w;
                  clock := clock w; events := events w |})
  | None => (Thrown (Error ("ENOENT: no such file or directory, open '"
                            +:+ path f +:+ "'")), w)
  end.
Proof.
  unfold vault_modify, bind, getVault.
  destruct (readData (vault w) (path f)); reflexivity.
Qed.

Lemma vault_create_run (p data : string) (w : World) :
  vault_create p data w =
  match getAbstractFileByPath (vault w) p with
  | Some _ => (Thrown (Error "File already exists."), w)
  | None =>
      let f := {| path := p; basename := beforeLastDot (fileName p);
                  extension := afterLastDot (fileName p); stat_mtime := clock w |} in
      (Returned f,
       {| vault := vault w ++ [VFile f data]; tmpfs := tmpfs w;
          clock := clock w; events := events w |})
  end.
Proof.
  unfold vault_create, bind, getVault.
  destruct (getAbstractFileByPath (vault w) p); reflexivity.
Qed.

Lemma vault_createFolder_run (p : string) (w : World) :
  vault_createFolder p w =
  match getAbstractFileByPath (vault w) p with
  | Some _ => (Thrown (Error "Folder already exists."), w)
  | None => (Returned tt,
             {| vault := vault w ++ [VFolder p]; tmpfs := tmpfs w;
                clock := clock w; events := events w |})
  end.
Proof.
  unfold vault_createFolder, bind, getVault.
  destruct (getAbstractFileByPath (vault w) p); reflexivity.
Qed.

End VaultFacts.

Section MetaNote.
Variable rt : Runtime.
Variable settings : JournalAnalyzerSettings.
Import Js.
Local Open Scope js_scope.

(** The note is there already: its text is replaced, nothing is added. *)
Lemma createMetaNote_replaces (analysis startDate endDate old : string) (f : TFile)
      (w : World) :
  is_Some (getAbstractFileByPath (vault w) (metaFolder settings)) ->
  getAbstractFileByPath (vault w) (metaNotePath settings startDate endDate)
  = Some (VFile f old) ->
  createMetaNote rt settings analysis startDate endDate w =
  (Returned tt,
   {| vault := map (writeData (metaNotePath settings startDate endDate)
                      (metaNoteContent rt analysis startDate endDate w)) (vault w);
      tmpfs := tmpfs w; clock := clock w;
      events := events w ++ [OpenFile (metaNotePath settings startDate endDate)] |}).
Proof.
  intros [folder Hfolder] Hfile.
  pose proof (lookup_path _ _ _ Hfile) as Hp. simpl in Hp.
  unfold createMetaNote, metaNoteContent.
  stepg. rewrite getVault_run. cbv beta iota. rewrite Hfolder.
  do 3 stepg. rewrite Date_now_run. cbv beta iota. stepg.
  rewrite getVault_run. cbv beta iota. rewrite Hfile. stepg.
  rewrite vault_modify_run, Hp. unfold readData. rewrite Hfile. cbv beta iota.
  stepg. rewrite getVault_run. cbv beta iota. cbn [vault].
  rewrite (lookup_writeData _ _ _ _ _ Hfile). rewrite emit_run. cbn [vault tmpfs clock events].
  rewrite Hp. reflexivity.
Qed.

(** The folder of the notes is missing: it is created, and the rest is
    the run in the vault that has the folder. *)
Lemma createMetaNote_folder (analysis startDate endDate : string) (w : World) :
  getAbstractFileByPath (vault w) (metaFolder settings) = None ->
  createMetaNote rt settings analysis startDate endDate w =
  createMetaNote rt settings analysis startDate endDate
    {| vault := vault w ++ [VFolder (metaFolder settings)]; tmpfs := tmpfs w;
       clock := clock w; events := events w |}.
Proof.
  intros Hnone. unfold createMetaNote.
  rewrite !(bind_run getVault), !getVault_run. cbv beta iota. cbn [vault].
  rewrite Hnone, (lookup_last _ (VFolder (metaFolder settings)) (metaFolder settings) eq_refl Hnone).
  rewrite !bind_run, vault_createFolder_run, Hnone, ret_run. reflexivity.
Qed.

Lemma createMetaNote_present (analysis startDate endDate : string) (w w1 : World) :
  is_Some (getAbstractFileByPath (vault w) (metaFolder settings)) ->
  NoDup (map abstractPath (vault w)) ->
  createMetaNote rt settings analysis startDate endDate w = (Returned tt, w1) ->
  NoDup (map abstractPath (vault w1))
  /\ is_Some (getAbstractFileByPath (vault w1) (metaFolder settings))
  /\ clock w1 = clock w
  /\ exists f, getAbstractFileByPath (vault w1) (metaNotePath settings startDate endDate)
               = Some (VFile f (metaNoteContent rt analysis startDate endDate w)).
Proof.
  intros Hfolder Hnd Hrun.
  destruct (getAbstractFileByPath (vault w) (metaNotePath settings startDate endDate))
    as [[f old|q]|] eqn:Hfile.
  - rewrite (createMetaNote_replaces _ _ _ _ _ _ Hfolder Hfile) in Hrun.
    injection Hrun as <-. cbn [vault clock].
    split; [now rewrite paths_writeData|].
    split; [apply lookup_is_Some; rewrite paths_writeData; now apply lookup_is_Some|].
    split; [reflexivity|]. exists f. now apply (lookup_writeData _ _ old).
  - exfalso. destruct Hfolder as [folder Hfolder]. unfold createMetaNote in Hrun.
    step Hrun. rewrite getVault_run in Hrun. cbv beta iota in Hrun.
    rewrite Hfolder in Hrun. do 3 step Hrun. rewrite Date_now_run in Hrun.
    cbv beta iota in Hrun. step Hrun. rewrite getVault_run in Hrun.
    cbv beta iota in Hrun. rewrite Hfile in Hrun. do 2 step Hrun.
    rewrite vault_create_run, Hfile in Hrun. discriminate Hrun.
  - pose proof Hfolder as [folder Hfolder']. unfold createMetaNote in Hrun.
    step Hrun. rewrite getVault_run in Hrun. cbv beta iota in Hrun.
    rewrite Hfolder' in Hrun. do 3 step Hrun. rewrite Date_now_run in Hrun.
    cbv beta iota in Hrun. step Hrun. rewrite getVault_run in Hrun.
    cbv beta iota in Hrun. rewrite Hfile in Hrun. do 2 step Hrun.
    rewrite vault_create_run, Hfile in Hrun. cbv beta iota zeta in Hrun.
    do 2 step Hrun. rewrite getVault_run in Hrun. cbv beta iota in Hrun.
    cbn [vault] in Hrun.
    match type of Hrun with
    | context [VFile ?f ?d] => rewrite (lookup_last _ (VFile f d) (metaNotePath settings startDate endDate) eq_refl Hfile) in Hrun
    end.
    rewrite emit_run in Hrun. injection Hrun as <-. cbn [vault clock].
    split.
    { apply (NoDup_paths_snoc _ _ (metaNotePath settings startDate endDate));
        [reflexivity | exact Hnd | exact Hfile]. }
    split; [destruct Hfolder as [e He]; exists e; now apply lookup_app_l|].
    split; [reflexivity|].
    eexists. apply lookup_last; [reflexivity | exact Hfile].
Qed.

Lemma createMetaNote_returned (analysis startDate endDate : string) (w w1 : World) :
  NoDup (map abstractPath (vault w)) ->
  createMetaNote rt settings analysis startDate endDate w = (Returned tt, w1) ->
  NoDup (map abstractPath (vault w1))
  /\ is_Some (getAbstractFileByPath (vault w1) (metaFolder settings))
  /\ clock w1 = clock w
  /\ exists f, getAbstractFileByPath (vault w1) (metaNotePath settings startDate endDate)
               = Some (VFile f (metaNoteContent rt analysis startDate endDate w)).
Proof.
  intros Hnd Hrun.
  destruct (getAbstractFileByPath (vault w) (metaFolder settings)) as [folder|] eqn:Hfolder.
  - apply (createMetaNote_present analysis startDate endDate w w1); eauto.
  - rewrite (createMetaNote_folder _ _ _ _ Hfolder) in Hrun.
    apply createMetaNote_present in Hrun; cbn [vault clock] in *.
    + exact Hrun.
    + exists (VFolder (metaFolder settings)).
      apply (lookup_last _ (VFolder _) (metaFolder settings) eq_refl Hfolder).
    + apply (NoDup_paths_snoc _ _ (metaFolder settings));
        [reflexivity | exact Hnd | exact Hfolder].
Qed.

(** C6.  The analysis note of a date range goes to
    [<metaFolder>/analysis-<start>-to-<end>.md].  After a run that has
    written the note, a second run over the same range returns too; it
    leaves the vault with the same paths in the same places, so with no
    second note; the one entry under the path of the note is the note,
    and its text is the text of the second run. *)
Theorem createMetaNote_idempotent_by_path
        (analysis1 analysis2 startDate endDate : string) (w0 w1 : World) :
  NoDup (map abstractPath (vault w0)) ->
  createMetaNote rt settings analysis1 startDate endDate w0 = (Returned tt, w1) ->
  metaNotePath settings startDate endDate
  = metaFolder settings +:+ "/analysis-" +:+ startDate +:+ "-to-" +:+ endDate +:+ ".md"
  /\ (exists f, getAbstractFileByPath (vault w1) (metaNotePath settings startDate endDate)
                = Some (VFile f (metaNoteContent rt analysis1 startDate endDate w0)))
  /\ exists w2,
       createMetaNote rt settings analysis2 startDate endDate w1 = (Returned tt, w2)
       /\ map abstractPath (vault w2) = map abstractPath (vault w1)
       /\ length (List.filter (hasPath (metaNotePath settings startDate endDate)) (vault w2))
          = 1%nat
       /\ exists f, getAbstractFileByPath (vault w2) (metaNotePath settings startDate endDate)
                    = Some (VFile f (metaNoteContent rt analysis2 startDate endDate w1)).
Proof.
  intros Hnd Hrun.
  destruct (createMetaNote_returned _ _ _ _ _ Hnd Hrun) as (Hnd1 & Hfolder & _ & f & Hf).
  split; [reflexivity|]. split; [eauto|].
  eexists. split; [apply (createMetaNote_replaces _ _ _ _ _ _ Hfolder Hf)|].
  cbn [vault]. split; [apply paths_writeData|]. split.
  - apply one_entry_per_path; rewrite paths_writeData; [exact Hnd1|].
    apply lookup_is_Some. eauto.
  - exists f. now apply (lookup_writeData _ _ _ _ _ Hf).
Qed.

End MetaNote.

(* ================================================================== *)
(** * Inserting links: [insertWikiLink] and [Add All Links] *)
(* ================================================================== *)

Section Links.
Import Js.
Local Open Scope js_scope.

Lemma indexOf_eq (p s : string) :
  indexOf p s =
  if startsWith p s then Some O
  else match s with
       | "" => None
       | String _ s' => option_map S (indexOf p s')
       end.
Proof. destruct s; reflexivity. Qed.

(** [indexOf] finds the leftmost occurrence. *)
Lemma indexOf_Some (p s : string) : forall i,
  indexOf p s = Some i ->
  s = take i s +:+ p +:+ drop (i + String.length p) s
  /\ forall j, (j < i)%nat -> startsWith p (drop j s) = false.
Proof.
  induction s as [|c s IH]; intros i; rewrite indexOf_eq.
  - destruct (startsWith p "") eqn:E; [|discriminate].
    intros [= <-]. destruct p; [|discriminate]. split; [reflexivity | lia].
  - destruct (startsWith p (String c s)) eqn:E.
    + intros [= <-]. destruct (startsWith_split _ _ E) as [t Ht].
      split; [|lia]. rewrite Ht. cbn [take Nat.add].
      now rewrite app_nil_l, drop_app.
    + destruct (indexOf p s) as [i'|]; [|discriminate]. intros [= <-].
      destruct (IH i' eq_refl) as [Hs Hmin]. split.
      * cbn [take drop Nat.add]. rewrite app_cons. congruence.
      * intros [|j] Hj; [exact E|]. cbn [drop]. apply Hmin. lia.
Qed.

Lemma replace_absent (s p r : string) : includes p s = false -> replace s p r = s.
Proof.
  unfold includes, replace. destruct (indexOf p s); [discriminate | reflexivity].
Qed.

Lemma avoids_app (c : ascii) (a b : string) :
  avoids c a -> avoids c b -> avoids c (a +:+ b).
Proof.
  induction a as [|x a IH]; [auto|]. intros [Hx Ha] Hb.
  rewrite app_cons. split; auto.
Qed.

(** A replacement text without a dollar sign is taken as it is. *)
Lemma getSubstitution_plain (matched before after template : string) :
  avoids "$" template -> getSubstitution matched before after template = template.
Proof.
  induction template as [|c t IH]; [reflexivity|]. intros [Hc Ht].
  cbn [getSubstitution]. destruct (Ascii.eqb_spec c "$"); [contradiction|].
  now rewrite IH.
Qed.

Lemma replace_plain (s p r : string) (i : nat) :
  indexOf p s = Some i -> avoids "$" r ->
  replace s p r = take i s +:+ r +:+ drop (i + String.length p) s.
Proof.
  intros Hi Hr. unfold replace. rewrite Hi. now rewrite getSubstitution_plain.
Qed.

Lemma insertWikiLink_run (file : TFile) (source target : string) (w : World) :
  insertWikiLink file source target w =
  match readData (vault w) (path file) with
  | None => (Thrown (Error ("ENOENT: no such file or directory, open '"
                            +:+ path file +:+ "'")), w)
  | Some content =>
      let updated := replace content source ("[[" +:+ stripMdSuffix target +:+ "]]") in
      if negb (String.eqb updated content)
      then (Returned true,
            {| vault := map (writeData (path file) updated) (vault w);
               tmpfs := tmpfs w; clock := clock w; events := events w |})
      else (Returned false, w)
  end.
Proof.
  unfold insertWikiLink. rewrite bind_run, vault_read_run.
  destruct (readData (vault w) (path file)) as [content|] eqn:E; [|reflexivity].
  cbv zeta. destruct (negb _); [|reflexivity].
  rewrite bind_run, vault_modify_run, E. reflexivity.
Qed.

(** The source text is not in the note: [false], and nothing changes. *)
Lemma insertWikiLink_absent (file : TFile) (source target content : string) (w : World) :
  holds (vault w) file content -> includes source content = false ->
  insertWikiLink file source target w = (Returned false, w).
Proof.
  intros Hc Habs. rewrite insertWikiLink_run. unfold holds in Hc. rewrite Hc.
  cbv zeta. rewrite (replace_absent _ _ _ Habs), String.eqb_refl. reflexivity.
Qed.

(** A target without a dollar sign: the first occurrence of the source
    text, and only it, becomes the link. *)
Lemma insertWikiLink_plain (file : TFile) (source target content : string) (i : nat)
      (w : World) :
  holds (vault w) file content -> indexOf source content = Some i ->
  avoids "$" (stripMdSuffix target) ->
  let updated := take i content +:+ ("[[" +:+ stripMdSuffix target +:+ "]]")
                 +:+ drop (i + String.length source) content in
  insertWikiLink file source target w =
  if String.eqb updated content then (Returned false, w)
  else (Returned true,
        {| vault := map (writeData (path file) updated) (vault w);
           tmpfs := tmpfs w; clock := clock w; events := events w |}).
Proof.
  intros Hc Hi Hplain updated. rewrite insertWikiLink_run. unfold holds in Hc.
  rewrite Hc. cbv zeta. rewrite (replace_plain _ _ _ _ Hi).
  - fold updated. now destruct (String.eqb updated content).
  - apply (avoids_app "$" "[["); [simpl; intuition discriminate|].
    apply avoids_app; [exact Hplain | simpl; intuition discriminate].
Qed.

(** The loop of [Add All Links] visits every connection: it returns, and
    its two counters grow by the number of connections between them. *)
Lemma addAllLoop_total (file : TFile) (connections : list Connection) :
  forall added failed w,
  exists added' failed' w',
    addAllLoop file connections added failed w = (Returned (added', failed'), w')
    /\ (added' + failed' = added + failed + length connections)%nat.
Proof.
  induction connections as [|c rest IH]; intros added failed w.
  - exists added, failed, w. split; [reflexivity | simpl; lia].
  - cbn [addAllLoop]. rewrite bind_run, try_catch_run, bind_run, insertWikiLink_run.
    destruct (readData (vault w) (path file)) as [content|].
    + cbv zeta. destruct (negb _); cbv beta iota; rewrite ret_run; cbn [fst snd].
      * destruct (IH (S added) failed
                    {| vault := map (writeData (path file)
                                       (replace content (sourceText c)
                                          ("[[" +:+ stripMdSuffix (targetFile c) +:+ "]]")))
                                    (vault w);
                       tmpfs := tmpfs w; clock := clock w; events := events w |})
          as (a' & f' & w' & Hrun & Hsum).
        exists a', f', w'. split; [exact Hrun | simpl; lia].
      * destruct (IH added (S failed) w) as (a' & f' & w' & Hrun & Hsum).
        exists a', f', w'. split; [exact Hrun | simpl; lia].
    + cbv beta iota. rewrite ret_run. cbn [fst snd].
      destruct (IH added (S failed) w) as (a' & f' & w' & Hrun & Hsum).
      exists a', f', w'. split; [exact Hrun | simpl; lia].
Qed.

(** C5, at a target whose name has a dollar sign.  The note reads
    "walked to the lake" and the suggestion links "lake" to
    [journal/earned $$ today.md].  The call reports success, but what
    it writes in place of "lake" is not the link to that note: the two
    dollar signs have become one. *)
Theorem insertWikiLink_expands_dollar :
  exists w',
    insertWikiLink Sample.day1 "lake" "journal/earned $$ today.md" Sample.world0
    = (Returned true, w')
    /\ readData (vault w') (path Sample.day1)
       = Some "walked to the [[journal/earned $ today]]"
    /\ "walked to the [[journal/earned $ today]]"
       <> "walked to the " +:+ "[[" +:+ "journal/earned $$ today" +:+ "]]".
Proof.
  eexists. split; [vm_compute; reflexivity|].
  split; [vm_compute; reflexivity | discriminate].
Qed.

End Links.

(* ================================================================== *)
(** * The prompt file after a failed call *)
(* ================================================================== *)

Section Leak.
Import Js.

(** C3, at a command the shell cannot run.  Both callers of the tool
    throw, and the prompt file each of them wrote is still in the
    temporary directory afterwards, with the prompt in it. *)
Theorem prompt_file_survives_failed_call :
  let rt := Sample.runtime Sample.missing in
  let theme := analyzeWithClaudeCode rt DEFAULT_SETTINGS "walked" "2025-10-01"
                 "2025-10-02" Sample.world0 in
  let links := analyzeConnections rt DEFAULT_SETTINGS Sample.day1
                 (getMarkdownFiles Sample.vault0) Sample.world0 in
  (exists m, fst theme = Thrown (Error m))
  /\ tmpfs (snd theme) !! themeTempFile rt (clock Sample.world0)
     = Some (themePrompt "walked" "2025-10-01" "2025-10-02")
  /\ (exists m, fst links = Thrown (Error m))
  /\ is_Some (tmpfs (snd links) !! connectionTempFile rt (clock Sample.world0)).
Proof.
  cbv zeta. split; [eexists; vm_compute; reflexivity|].
  split; [vm_compute; reflexivity|].
  split; [eexists; vm_compute; reflexivity|].
  eexists. vm_compute. reflexivity.
Qed.

End Leak.

(* ================================================================== *)
(** * From the tool's answer to the decoder: [analyzeConnections] *)
(* ================================================================== *)

Section ConnectionsRun.
Variable rt : Runtime.
Variable settings : JournalAnalyzerSettings.
Import Js.
Local Open Scope js_scope.

Lemma fs_writeFile_run (file data : string) (w : World) :
  fs_writeFile file data w =
  (Returned tt, {| vault := vault w; tmpfs := <[file := data]> (tmpfs w);
                   clock := clock w; events := events w |}).
Proof. reflexivity. Qed.

Lemma fs_unlink_run (file : string) (w : World) :
  fs_unlink file w =
  match tmpfs w !! file with
  | Some _ => (Returned tt, {| vault := vault w; tmpfs := delete file (tmpfs w);
                               clock := clock w; events := events w |})
  | None => (Thrown (Error ("ENOENT: no such file or directory, unlink '"
                            +:+ file +:+ "'")), w)
  end.
Proof. unfold fs_unlink. destruct (tmpfs w !! file); reflexivity. Qed.

Lemma execAsync_run (command : string) (w : World) :
  execAsync rt command w =
  match exec rt command (tmpfs w) with
  | (ExecResolved out err, fs) =>
      (Returned (out, err),
       {| vault := vault w; tmpfs := fs; clock := clock w; events := events w |})
  | (ExecRejected r, fs) =>
      (Thrown (Error r),
       {| vault := vault w; tmpfs := fs; clock := clock w; events := events w |})
  end.
Proof.
  unfold execAsync. destruct (exec rt command (tmpfs w)) as [[r|out err] fs]; reflexivity.
Qed.

Lemma otherNotes_total (files : list TFile) :
  forall context w,
    Forall (fun f => exists body, holds (vault w) f body) files ->
    exists context', otherNotes context files w = (Returned context', w).
Proof.
  induction files as [|f files IH]; intros context w Hall.
  - exists context. reflexivity.
  - inversion Hall as [|? ? [body Hb] Hrest]; subst.
    cbn [otherNotes]. rewrite bind_run, vault_read_run.
    unfold holds in Hb. rewrite Hb. apply IH. exact Hrest.
Qed.

(** When the tool answers [out], not blank, and leaves the prompt file
    alone, the result of [analyzeConnections] is the result of its
    decoding block on [out], under its [catch], in a world with the same
    vault. *)
Lemma analyzeConnections_resolved (currentFile : TFile) (allFiles : list TFile)
      (out : string) (w : World) :
  (forall command fs, exists err, exec rt command fs = (ExecResolved out err, fs)) ->
  isBlank out = false ->
  Forall (fun f => exists body, holds (vault w) f body) (currentFile :: allFiles) ->
  exists w',
    vault w' = vault w
    /\ analyzeConnections rt settings currentFile allFiles w =
       try_catch (parseJsonResponse rt settings out) (analyzeConnectionsCatch) w'.
Proof.
  intros Htool Hblank Hall.
  inversion Hall as [|? ? [content Hc] Hothers]; subst.
  unfold analyzeConnections.
  rewrite bind_run, vault_read_run. unfold holds in Hc. rewrite Hc.
  do 2 stepg.
  set (recentFiles := firstn 50 _).
  assert (Hrecent : Forall (fun f => exists body, holds (vault w) f body) recentFiles).
  { apply Forall_forall. intros f Hin. unfold recentFiles in Hin.
    apply (subseteq_take 50), list_elem_of_In in Hin.
    eapply Permutation_in in Hin; [|apply sort_Permutation].
    apply filter_In in Hin as [Hin _].
    rewrite Forall_forall in Hothers. apply Hothers, list_elem_of_In, Hin. }
  rewrite bind_run.
  match goal with
  | |- context [otherNotes ?ctx recentFiles ?w1] =>
      destruct (otherNotes_total recentFiles ctx w1 Hrecent) as [context Hctx];
      rewrite Hctx
  end.
  do 2 stepg.
  rewrite try_catch_run, bind_run, Date_now_run. cbv beta iota. cbn [clock].
  rewrite bind_run, fs_writeFile_run. cbv beta iota.
  rewrite bind_run, execAsync_run. cbn [tmpfs].
  match goal with
  | |- context [exec rt ?c ?fs] => destruct (Htool c fs) as [err Hexec]; rewrite Hexec
  end.
  cbv beta iota. cbn [fst snd]. rewrite bind_run, fs_unlink_run. cbn [tmpfs].
  rewrite lookup_insert_eq. cbv beta iota. rewrite bind_run, Hblank.
  destruct (negb (String.eqb err "")); cbn [when].
  - rewrite emit_run. cbv beta iota. eexists. split; [|reflexivity]. reflexivity.
  - rewrite ret_run. cbv beta iota. eexists. split; [|reflexivity]. reflexivity.
Qed.

End ConnectionsRun.

(* ================================================================== *)
(** * The statements at work on the small vault *)
(* ================================================================== *)

Section Examples.
Import Js.
Local Open Scope js_scope.

Lemma codeUnitCompare_le (a b : string) :
  Sample.codeUnitCompare a b <= 0 <-> String.leb a b = true.
Proof.
  unfold Sample.codeUnitCompare, String.leb.
  destruct (String.compare a b); split; (lia || discriminate || reflexivity).
Qed.

Lemma codeUnitCompare_collation : Collation Sample.codeUnitCompare.
Proof.
  split.
  - intros a b. rewrite !codeUnitCompare_le. apply String.leb_total.
  - intros a b c. rewrite !codeUnitCompare_le. intros H1 H2.
    apply Is_true_true. apply Is_true_true in H1, H2.
    exact (transitivity (R := String.le) H1 H2).
Qed.


(** Scenario A: three days in the vault, the first two in the range. *)
Example scenario_A :
  getJournalFilesInRange Sample.offline DEFAULT_SETTINGS "2025-10-01" "2025-10-02"
    Sample.world0
  = (Returned [Sample.day1; Sample.day2], Sample.world0).
Proof. reflexivity. Qed.

(** Scenario C: an array inside prose, at the threshold of 70. *)
Example scenario_C :
  fst (analyzeConnections Sample.helpful DEFAULT_SETTINGS Sample.day1
         (getMarkdownFiles Sample.vault0) Sample.world0)
  = Returned [Sample.suggestion 95; Sample.suggestion 70].
Proof. vm_compute. reflexivity. Qed.

Lemma getJournalFilesInRange_selects_witness :
  exists selected,
    getJournalFilesInRange Sample.offline DEFAULT_SETTINGS "2025-10-01" "2025-10-02"
      Sample.world0 = (Returned selected, Sample.world0)
    /\ (forall f, In f selected <->
                  In f (getMarkdownFiles (vault Sample.world0))
                  /\ Selected DEFAULT_SETTINGS "2025-10-01" "2025-10-02" f)
    /\ Permutation selected
         (List.filter (inDateRange DEFAULT_SETTINGS "2025-10-01" "2025-10-02")
            (getMarkdownFiles (vault Sample.world0)))
    /\ StronglySorted
         (fun a b => localeCompare Sample.offline (basename a) (basename b) <= 0)
         selected.
Proof.
  apply getJournalFilesInRange_selects.
  - exact codeUnitCompare_collation.
  - eexists. reflexivity.
Defined.



Lemma blank_output_writes_no_note_witness :
  (forall command fs, exists out err fs',
      exec Sample.silent command fs = (ExecResolved out err, fs') /\ trim out = "")
  /\ vault (snd (analyzeJournalRange Sample.silent DEFAULT_SETTINGS
                   "2025-10-01" "2025-10-02" Sample.world0))
     = vault Sample.world0
  /\ exists m,
       last (events (snd (analyzeJournalRange Sample.silent DEFAULT_SETTINGS
                            "2025-10-01" "2025-10-02" Sample.world0)))
       = Some (Notice ("Error analyzing journal: Failed to analyze with Claude Code: "
                       +:+ m)).
Proof.
  assert (Htool : forall command fs, exists out err fs',
             exec Sample.silent command fs = (ExecResolved out err, fs')
             /\ trim out = "").
  { intros command fs. do 3 eexists. split; reflexivity. }
  split; [exact Htool|].
  destruct (blank_output_writes_no_note Sample.silent DEFAULT_SETTINGS
              "2025-10-01" "2025-10-02" Sample.world0 Htool)
    as (_ & _ & Hvault & _ & Hnotice).
  split; [exact Hvault|].
  apply (Hnotice [Sample.day1; Sample.day2]).
  - reflexivity.
  - discriminate.
  - repeat constructor; eexists; reflexivity.
Defined.

Lemma createMetaNote_idempotent_by_path_witness :
  exists w2,
    createMetaNote Sample.offline DEFAULT_SETTINGS "second" "2025-10-01" "2025-10-02"
      (snd (createMetaNote Sample.offline DEFAULT_SETTINGS "first" "2025-10-01"
              "2025-10-02" Sample.world0))
    = (Returned tt, w2)
    /\ length (List.filter
                 (hasPath "journal/meta/analysis-2025-10-01-to-2025-10-02.md")
                 (vault w2)) = 1%nat
    /\ exists f, getAbstractFileByPath (vault w2)
                   "journal/meta/analysis-2025-10-01-to-2025-10-02.md"
                 = Some (VFile f (metaFrontmatter "2025-10-09" "2025-10-01" "2025-10-02"
                                  +:+ "second")).
Proof.
  destruct (createMetaNote_idempotent_by_path Sample.offline DEFAULT_SETTINGS
              "first" "second" "2025-10-01" "2025-10-02" Sample.world0
              (snd (createMetaNote Sample.offline DEFAULT_SETTINGS "first" "2025-10-01"
                      "2025-10-02" Sample.world0)))
    as (_ & _ & w2 & Hrun & _ & Hone & Hnote).
  - apply (bool_decide_unpack _ (dec := NoDup_dec _)). vm_compute. exact I.
  - vm_compute. reflexivity.
  - exists w2. split; [exact Hrun|]. split; [exact Hone | exact Hnote].
Defined.

Lemma getJournalFilesInRange_folder_witness :
  getJournalFilesInRange Sample.offline DEFAULT_SETTINGS "2030-01-01" "2030-12-31"
    Sample.world0 = (Returned [], Sample.world0).
Proof.
  apply (proj1 (getJournalFilesInRange_folder Sample.offline DEFAULT_SETTINGS
                  "2030-01-01" "2030-12-31" Sample.world0)).
  - eexists. reflexivity.
  - intros f Hin Hsel. apply inDateRange_spec in Hsel.
    simpl in Hin. destruct Hin as [<-|[<-|[<-|[]]]]; vm_compute in Hsel; discriminate.
Defined.

Lemma confidence_threshold_inclusive_witness :
  exists kept,
    parseJsonResponse Sample.offline DEFAULT_SETTINGS "Some text [95, 70, 69] trailing"
      Sample.world0 = (Returned kept, Sample.world0)
    /\ In (Sample.suggestion 70) kept
    /\ ~ In (Sample.suggestion 69) kept.
Proof.
  destruct (confidence_threshold_inclusive Sample.offline DEFAULT_SETTINGS
              "Some text [95, 70, 69] trailing" "[95, 70, 69]"
              [Sample.suggestion 95; Sample.suggestion 70; Sample.suggestion 69]
              Sample.world0 eq_refl eq_refl)
    as (kept & Hrun & Hkeep & Hdrop & _).
  exists kept. split; [exact Hrun|]. split.
  - apply Hkeep; [simpl; auto | reflexivity].
  - apply Hdrop. reflexivity.
Defined.

Lemma readJournalFiles_sections_witness :
  exists bodies,
    Forall2 (holds (vault Sample.world0)) [Sample.day1; Sample.day2] bodies
    /\ readJournalFiles [Sample.day1; Sample.day2] Sample.world0
       = (Returned (String.concat "" (sectionsOf [Sample.day1; Sample.day2] bodies)),
          Sample.world0)
    /\ length (sectionsOf [Sample.day1; Sample.day2] bodies) = 2%nat.
Proof.
  destruct (proj2 (readJournalFiles_sections Sample.world0 [Sample.day1; Sample.day2]))
    as (bodies & HF & Hrun & Hlen & _).
  - repeat constructor; eexists; reflexivity.
  - exists bodies. split; [exact HF|]. split; [exact Hrun | exact Hlen].
Defined.

Lemma entriesCount_overcounts_witness :
  exists content,
    readJournalFiles [Sample.day1; Sample.day2] Sample.world0
    = (Returned content, Sample.world0)
    /\ 2 < entriesCount content.
Proof.
  destruct (entriesCount_overcounts Sample.world0 [Sample.day1; Sample.day2])
    as (content & Hrun & _ & _ & Hmore & _).
  - repeat constructor; eexists; reflexivity.
  - exists content. split; [exact Hrun|]. apply Hmore.
    apply Exists_cons_tl, Exists_cons_hd. eexists. split; reflexivity.
Defined.

End Examples.

(* ================================================================== *)
(** * Suggesting connections reads the vault and writes nothing *)
(* ================================================================== *)

(** Run as far as the next call or case distinction. *)
Ltac run H :=
  repeat (first [ rewrite bind_run in H | rewrite try_catch_run in H
                | rewrite emit_run in H | rewrite ret_run in H | rewrite throw_run in H
                | rewrite getVault_run in H | rewrite Date_now_run in H ];
          cbv beta iota zeta in H; cbn [vault tmpfs clock events] in H).

Ltac rung :=
  repeat (first [ rewrite bind_run | rewrite try_catch_run
                | rewrite emit_run | rewrite ret_run | rewrite throw_run
                | rewrite getVault_run | rewrite Date_now_run ];
          cbv beta iota zeta; cbn [vault tmpfs clock events]).

Section ReadOnly.
Variable rt : Runtime.
Variable settings : JournalAnalyzerSettings.
Import Js.
Local Open Scope js_scope.

Lemma otherNotes_world (files : list TFile) :
  forall context w, snd (otherNotes context files w) = w.
Proof.
  induction files as [|f files IH]; intros context w; [reflexivity|].
  cbn [otherNotes]. rewrite bind_run, vault_read_run.
  destruct (readData (vault w) (path f)); [apply IH | reflexivity].
Qed.

Lemma analyzeConnections_vault (currentFile : TFile) (allFiles : list TFile) (w : World) :
  vault (snd (analyzeConnections rt settings currentFile allFiles w)) = vault w.
Proof.
  unfold analyzeConnections. rewrite bind_run, vault_read_run.
  destruct (readData (vault w) (path currentFile)) as [content|]; [|reflexivity].
  do 2 stepg. rewrite bind_run.
  match goal with
  | |- context [otherNotes ?ctx ?files ?w1] =>
      pose proof (otherNotes_world files ctx w1) as Hw;
      destruct (otherNotes ctx files w1) as [[context|e] w2]
  end; cbn [snd] in Hw; subst w2; [|reflexivity].
  do 2 stepg.
  unfold try_catch, bind, Date_now, fs_writeFile, execAsync, fs_unlink, setTmpfs, when,
    parseJsonResponse, analyzeConnectionsCatch.
  cbn [fst snd vault tmpfs clock events].
  destruct (exec rt _ _) as [[r|out err] fs];
    cbn [fst snd vault tmpfs clock events ret throw emit]; [reflexivity|].
  rewrite lookup_insert_eq || idtac.
  match goal with
  | |- context [fs !! ?k] => destruct (fs !! k)
  end; [|reflexivity].
  destruct (negb (String.eqb err "")), (isBlank out); try reflexivity;
    cbn [fst snd vault tmpfs clock events ret throw emit];
    destruct (matchArray out); try reflexivity;
    destruct (JSON_parse rt _) as [msg|items]; try reflexivity;
    match goal with
    | |- context [filterByConfidence settings items ?w1] =>
        pose proof (filterByConfidence_world settings items w1) as Hw;
        destruct (filterByConfidence settings items w1) as [[kept|e] w2]
    end; cbn [snd] in Hw; subst w2; reflexivity.
Qed.

(** X7.  Suggesting connections never writes to the vault, whatever the
    tool answers and whether the call returns or throws.  The command
    [findMissingConnections] never throws either: it ends with no modal
    or with the modal for the active note, and the modal is opened with
    a list of suggestions that is not empty. *)
Theorem connections_read_only (activeFile : option TFile) (w : World) :
  (forall currentFile allFiles,
      vault (snd (analyzeConnections rt settings currentFile allFiles w)) = vault w)
  /\ vault (snd (findMissingConnections rt settings activeFile w)) = vault w
  /\ exists opened,
       fst (findMissingConnections rt settings activeFile w) = Returned opened
       /\ forall connections file,
            opened = SuggestionModal connections file ->
            activeFile = Some file /\ connections <> [].
Proof.
  split; [intros; apply analyzeConnections_vault|].
  remember (findMissingConnections rt settings activeFile w) as r eqn:Er.
  unfold findMissingConnections in Er. run Er.
  destruct activeFile as [file|].
  2:{ run Er. subst r. cbn [fst snd vault]. split; [reflexivity|].
      eexists. split; [reflexivity|]. discriminate. }
  run Er.
  match type of Er with
  | context [analyzeConnections rt settings file ?files ?w1] =>
      pose proof (analyzeConnections_vault file files w1) as Hv;
      destruct (analyzeConnections rt settings file files w1) as [[connections|e] w2]
  end; cbn [snd vault] in Hv.
  - run Er. destruct connections as [|c connections]; cbn [length Nat.eqb] in Er.
    + run Er. subst r. cbn [fst snd vault]. split; [exact Hv|].
      eexists. split; [reflexivity|]. discriminate.
    + run Er. subst r. cbn [fst snd vault]. split; [exact Hv|].
      eexists. split; [reflexivity|]. intros ? ? [= <- <-]. split; [reflexivity | discriminate].
  - run Er. subst r. cbn [fst snd vault]. split; [exact Hv|].
    eexists. split; [reflexivity|]. discriminate.
Qed.

End ReadOnly.

(* ================================================================== *)
(** * What a run of the analysis touches *)
(* ================================================================== *)

Section NoteOnly.
Variable rt : Runtime.
Variable settings : JournalAnalyzerSettings.
Import Js.
Local Open Scope js_scope.

Lemma readData_snoc_folder (v : list TAbstractFile) (p q : string) :
  readData (v ++ [VFolder p]) q = readData v q.
Proof.
  unfold readData.
  destruct (getAbstractFileByPath v q) as [e|] eqn:E.
  - now rewrite (lookup_app_l _ _ _ _ E).
  - rewrite (lookup_app_r _ _ _ E). unfold getAbstractFileByPath, hasPath. simpl.
    now destruct (String.eqb p q).
Qed.

Lemma readData_snoc_file (v : list TAbstractFile) (f : TFile) (d q : string) :
  q <> path f -> readData (v ++ [VFile f d]) q = readData v q.
Proof.
  intros Hq. unfold readData.
  destruct (getAbstractFileByPath v q) as [e|] eqn:E.
  - now rewrite (lookup_app_l _ _ _ _ E).
  - rewrite (lookup_app_r _ _ _ E). unfold getAbstractFileByPath, hasPath. simpl.
    destruct (String.eqb_spec (path f) q); [congruence | reflexivity].
Qed.

Lemma readData_writeData (v : list TAbstractFile) (p d q : string) :
  q <> p -> readData (map (writeData p d) v) q = readData v q.
Proof.
  intros Hq. unfold readData, getAbstractFileByPath.
  induction v as [|e v IH]; [reflexivity|]. cbn [map List.find].
  destruct e as [f old|r]; cbn [writeData].
  - destruct (String.eqb_spec (path f) p) as [Hp|Hp]; unfold hasPath; cbn [abstractPath].
    + destruct (String.eqb_spec (path f) q); [congruence | exact IH].
    + destruct (String.eqb (path f) q); [reflexivity | exact IH].
  - unfold hasPath; cbn [abstractPath]. destruct (String.eqb r q); [reflexivity | exact IH].
Qed.

Lemma readData_written (v : list TAbstractFile) (p d old : string) :
  readData v p = Some old -> readData (map (writeData p d) v) p = Some d.
Proof.
  unfold readData. destruct (getAbstractFileByPath v p) as [[f o|r]|] eqn:E; try discriminate.
  intros _. now rewrite (lookup_writeData _ d _ _ _ E).
Qed.

(** A folder sits where the note should go: nothing is written. *)
Lemma createMetaNote_blocked (analysis startDate endDate p : string) (w : World) :
  is_Some (getAbstractFileByPath (vault w) (metaFolder settings)) ->
  getAbstractFileByPath (vault w) (metaNotePath settings startDate endDate)
  = Some (VFolder p) ->
  createMetaNote rt settings analysis startDate endDate w
  = (Thrown (Error "File already exists."), w).
Proof.
  intros [folder Hfolder] Hfile. unfold createMetaNote. rung. rewrite Hfolder. rung.
  rewrite Hfile. rung. rewrite vault_create_run, Hfile. destruct w; reflexivity.
Qed.

(** Nothing is stored at the path of the note: the note is added. *)
Lemma createMetaNote_creates (analysis startDate endDate : string) (w : World) :
  is_Some (getAbstractFileByPath (vault w) (metaFolder settings)) ->
  getAbstractFileByPath (vault w) (metaNotePath settings startDate endDate) = None ->
  createMetaNote rt settings analysis startDate endDate w =
  (Returned tt,
   {| vault := vault w ++
        [VFile {| path := metaNotePath settings startDate endDate;
                  basename := beforeLastDot (fileName (metaNotePath settings startDate endDate));
                  extension := afterLastDot (fileName (metaNotePath settings startDate endDate));
                  stat_mtime := clock w |}
               (metaNoteContent rt analysis startDate endDate w)];
      tmpfs := tmpfs w; clock := clock w;
      events := events w ++ [OpenFile (metaNotePath settings startDate endDate)] |}).
Proof.
  intros [folder Hfolder] Hfile. unfold createMetaNote, metaNoteContent. rung.
  rewrite Hfolder. rung. rewrite Hfile. rung. rewrite vault_create_run, Hfile.
  cbv beta iota zeta. rung.
  match goal with
  | |- context [VFile ?f ?d] =>
      rewrite (lookup_last _ (VFile f d) (metaNotePath settings startDate endDate)
                 eq_refl Hfile)
  end.
  rung. reflexivity.
Qed.

Lemma metaNotePath_not_folder (startDate endDate : string) :
  metaFolder settings <> metaNotePath settings startDate endDate.
Proof.
  unfold metaNotePath. intros H. apply (f_equal String.length) in H.
  rewrite length_app in H. change (String.length ("/analysis-" +:+ ?x)) with
    (S (String.length ("analysis-" +:+ x))) in H. lia.
Qed.

(** Whatever a run of [createMetaNote] does, it does at the path of the
    note: every other path reads as before. *)
Lemma createMetaNote_elsewhere (analysis startDate endDate q : string) (w : World) :
  q <> metaNotePath settings startDate endDate ->
  readData (vault (snd (createMetaNote rt settings analysis startDate endDate w))) q
  = readData (vault w) q.
Proof.
  intros Hq.
  assert (Hpresent : forall w0,
    is_Some (getAbstractFileByPath (vault w0) (metaFolder settings)) ->
    readData (vault (snd (createMetaNote rt settings analysis startDate endDate w0))) q
    = readData (vault w0) q).
  { intros w0 Hfolder.
    destruct (getAbstractFileByPath (vault w0) (metaNotePath settings startDate endDate))
      as [[f old|p]|] eqn:Hfile.
    - rewrite (createMetaNote_replaces _ _ _ _ _ _ _ _ Hfolder Hfile). cbn [snd vault].
      now apply readData_writeData.
    - now rewrite (createMetaNote_blocked _ _ _ _ _ Hfolder Hfile).
    - rewrite (createMetaNote_creates _ _ _ _ Hfolder Hfile). cbn [snd vault].
      now apply readData_snoc_file. }
  destruct (getAbstractFileByPath (vault w) (metaFolder settings)) as [folder|] eqn:Hfolder.
  - apply Hpresent. rewrite Hfolder. eauto.
  - rewrite (createMetaNote_folder _ _ _ _ _ _ Hfolder), Hpresent; cbn [vault].
    + apply readData_snoc_folder.
    + exists (VFolder (metaFolder settings)).
      apply (lookup_last _ (VFolder _) (metaFolder settings) eq_refl Hfolder).
Qed.

(** X8.  A run of [analyzeJournalRange] never throws, whatever the vault
    holds and whatever the tool does; and it writes to the vault nowhere
    but at the path of the analysis note: every other path reads after
    the run as it read before. *)
Theorem analyzeJournalRange_only_note (startDate endDate : string) (w : World) :
  fst (analyzeJournalRange rt settings startDate endDate w) = Returned tt
  /\ forall q, q <> metaNotePath settings startDate endDate ->
       readData (vault (snd (analyzeJournalRange rt settings startDate endDate w))) q
       = readData (vault w) q.
Proof.
  remember (analyzeJournalRange rt settings startDate endDate w) as r eqn:Er.
  unfold analyzeJournalRange in Er. run Er.
  rewrite getJournalFilesInRange_run in Er. cbn [vault] in Er.
  destruct (getAbstractFileByPath (vault w) (journalFolder settings)) as [folder|].
  2:{ run Er. subst r. split; reflexivity. }
  cbv beta iota in Er. set (selected := sort (byBasename rt) _) in *.
  destruct (length selected =? 0)%nat.
  { run Er. subst r. split; reflexivity. }
  run Er.
  match type of Er with
  | context [readJournalFiles selected ?w1] =>
      pose proof (readJournalFilesFrom_world selected "" w1) as Hw;
      fold (readJournalFiles selected) in Hw;
      destruct (readJournalFiles selected w1) as [[content|e] w2]
  end; cbn [snd] in Hw; subst w2.
  2:{ run Er. subst r. split; reflexivity. }
  run Er.
  match type of Er with
  | context [analyzeWithClaudeCode rt settings content startDate endDate ?w1] =>
      pose proof (analyzeWithClaudeCode_vault rt settings content startDate endDate w1)
        as Hv;
      destruct (analyzeWithClaudeCode rt settings content startDate endDate w1)
        as [[analysis|e] w3]
  end; cbn [snd vault] in Hv.
  2:{ run Er. subst r. cbn [fst snd vault]. split; [reflexivity|]. intros. now rewrite Hv. }
  run Er.
  match type of Er with
  | context [createMetaNote rt settings analysis startDate endDate ?w1] =>
      pose proof (fun q H => createMetaNote_elsewhere analysis startDate endDate q w1 H)
        as Hnote;
      destruct (createMetaNote rt settings analysis startDate endDate w1) as [[[]|e] w4]
  end; cbn [snd vault] in Hnote; rewrite Hv in Hnote.
  - run Er. subst r. cbn [fst snd vault]. split; [reflexivity | exact Hnote].
  - run Er. subst r. cbn [fst snd vault]. split; [reflexivity | exact Hnote].
Qed.

End NoteOnly.

(* ================================================================== *)
(** * A run of the analysis that succeeds *)
(* ================================================================== *)

Section Success.
Variable rt : Runtime.
Variable settings : JournalAnalyzerSettings.
Import Js.
Local Open Scope js_scope.

Lemma readJournalFilesFrom_fst (files : list TFile) :
  forall acc w1 w,
    vault w1 = vault w ->
    fst (readJournalFilesFrom acc files w1) = fst (readJournalFilesFrom acc files w).
Proof.
  induction files as [|f files IH]; intros acc w1 w Hv; [reflexivity|].
  cbn [readJournalFilesFrom]. rewrite !bind_run, !vault_read_run, Hv.
  destruct (readData (vault w) (path f)); [now apply IH | reflexivity].
Qed.

(** The tool answers [out], not blank, and leaves the prompt file alone:
    the call returns the trimmed answer with the footer under it. *)
Lemma analyzeWithClaudeCode_answers (content startDate endDate out : string) (w : World) :
  (forall command fs, exists err, exec rt command fs = (ExecResolved out err, fs)) ->
  isBlank out = false ->
  exists w',
    analyzeWithClaudeCode rt settings content startDate endDate w =
    (Returned (template [
       trim out; ""; "---"; "*Generated by Journal Analyzer Plugin*";
       "*Entries analyzed: " +:+ ofZ (entriesCount content) +:+ "*";
       "*Generated: " +:+ toLocaleString rt (clock w) +:+ "*" ]), w')
    /\ vault w' = vault w /\ clock w' = clock w.
Proof.
  intros Htool Hblank. unfold analyzeWithClaudeCode.
  rewrite try_catch_run, bind_run, Date_now_run. cbv beta iota zeta.
  rewrite bind_run, fs_writeFile_run. cbv beta iota.
  rewrite bind_run, execAsync_run. cbn [tmpfs].
  match goal with
  | |- context [exec rt ?c ?fs] => destruct (Htool c fs) as [err Hexec]; rewrite Hexec
  end.
  cbv beta iota. cbn [fst snd]. rewrite bind_run, fs_unlink_run. cbn [tmpfs].
  rewrite lookup_insert_eq. cbv beta iota. rewrite bind_run, Hblank.
  destruct (negb (String.eqb err "")); cbn [when]; rung;
    (eexists; split; [reflexivity | split; reflexivity]).
Qed.

(** No folder sits at the path of the note: the run returns, and the note
    holds the front matter and the analysis. *)
Lemma createMetaNote_writes (analysis startDate endDate : string) (w : World) :
  (forall p, getAbstractFileByPath (vault w) (metaNotePath settings startDate endDate)
             <> Some (VFolder p)) ->
  exists f w',
    createMetaNote rt settings analysis startDate endDate w = (Returned tt, w')
    /\ getAbstractFileByPath (vault w') (metaNotePath settings startDate endDate)
       = Some (VFile f (metaNoteContent rt analysis startDate endDate w))
    /\ events w' = events w ++ [OpenFile (metaNotePath settings startDate endDate)].
Proof.
  assert (Hpresent : forall w0,
    (forall p, getAbstractFileByPath (vault w0) (metaNotePath settings startDate endDate)
               <> Some (VFolder p)) ->
    is_Some (getAbstractFileByPath (vault w0) (metaFolder settings)) ->
    exists f w',
      createMetaNote rt settings analysis startDate endDate w0 = (Returned tt, w')
      /\ getAbstractFileByPath (vault w') (metaNotePath settings startDate endDate)
         = Some (VFile f (metaNoteContent rt analysis startDate endDate w0))
      /\ events w' = events w0 ++ [OpenFile (metaNotePath settings startDate endDate)]).
  { intros w0 Hnf Hfolder.
    destruct (getAbstractFileByPath (vault w0) (metaNotePath settings startDate endDate))
      as [[f old|p]|] eqn:Hfile.
    - do 2 eexists. split; [apply (createMetaNote_replaces _ _ _ _ _ _ _ _ Hfolder Hfile)|].
      cbn [vault events]. split; [|reflexivity]. apply (lookup_writeData _ _ _ _ _ Hfile).
    - now destruct (Hnf p).
    - do 2 eexists. split; [apply (createMetaNote_creates _ _ _ _ _ _ Hfolder Hfile)|].
      cbn [vault events]. split; [|reflexivity]. apply lookup_last; [reflexivity | exact Hfile]. }
  intros Hnf.
  destruct (getAbstractFileByPath (vault w) (metaFolder settings)) as [folder|] eqn:Hfolder.
  - apply Hpresent; [exact Hnf | rewrite Hfolder; eauto].
  - rewrite (createMetaNote_folder _ _ _ _ _ _ Hfolder).
    match goal with
    | |- context [createMetaNote rt settings analysis startDate endDate ?w1] =>
        destruct (Hpresent w1) as (f & w' & Hrun & Hnote & Hev)
    end.
    + intros p. cbn [vault].
      destruct (getAbstractFileByPath (vault w) (metaNotePath settings startDate endDate))
        as [e|] eqn:Hfile.
      * rewrite (lookup_app_l _ _ _ _ Hfile). intros [= ->]. now destruct (Hnf p).
      * rewrite (lookup_app_r _ _ _ Hfile). unfold getAbstractFileByPath, hasPath. simpl.
        destruct (String.eqb_spec (metaFolder settings)
                    (metaNotePath settings startDate endDate)) as [E|E]; [|discriminate].
        now destruct (metaNotePath_not_folder settings startDate endDate).
    + exists (VFolder (metaFolder settings)).
      apply (lookup_last _ (VFolder _) (metaFolder settings) eq_refl Hfolder).
    + exists f, w'. split; [exact Hrun|]. split; [exact Hnote | exact Hev].
Qed.

(** X9.  Let the journal folder be there, the selection for the range be
    not empty and readable, no folder sit at the path of the analysis
    note, and the tool answer [out], not blank, leaving the prompt file
    alone.  Then the run returns; the note at
    [<metaFolder>/analysis-<start>-to-<end>.md] holds the front matter,
    the trimmed answer and the footer with the number of entries counted
    in the text that was read; and the last thing the user sees is the
    notice that the analysis is complete. *)
Theorem analyzeJournalRange_writes_note (startDate endDate out : string)
        (selected : list TFile) (w : World) :
  fst (getJournalFilesInRange rt settings startDate endDate w) = Returned selected ->
  selected <> [] ->
  Forall (fun f => exists body, holds (vault w) f body) selected ->
  (forall command fs, exists err, exec rt command fs = (ExecResolved out err, fs)) ->
  trim out <> "" ->
  (forall p, getAbstractFileByPath (vault w) (metaNotePath settings startDate endDate)
             <> Some (VFolder p)) ->
  exists content f w',
    readJournalFiles selected w = (Returned content, w)
    /\ analyzeJournalRange rt settings startDate endDate w = (Returned tt, w')
    /\ getAbstractFileByPath (vault w') (metaNotePath settings startDate endDate)
       = Some (VFile f (metaNoteContent rt
                 (template [
                    trim out; ""; "---"; "*Generated by Journal Analyzer Plugin*";
                    "*Entries analyzed: " +:+ ofZ (entriesCount content) +:+ "*";
                    "*Generated: " +:+ toLocaleString rt (clock w) +:+ "*" ])
                 startDate endDate w))
    /\ last (events w') = Some (Notice "Journal analysis complete!").
Proof.
  intros Hsel Hne Hall Htool Hout Hnf.
  assert (Hblank : isBlank out = false).
  { destruct (isBlank out) eqn:E; [|reflexivity]. apply isBlank_spec in E. contradiction. }
  destruct (readJournalFilesFrom_total selected "" w Hall) as (bodies & _ & Hread).
  fold (readJournalFiles selected) in Hread. rewrite app_nil_l in Hread.
  exists (String.concat "" (sectionsOf selected bodies)).
  rewrite getJournalFilesInRange_run in Hsel.
  destruct (getAbstractFileByPath (vault w) (journalFolder settings)) as [folder|] eqn:Hfolder;
    [|discriminate Hsel].
  cbn [fst] in Hsel. injection Hsel as Hsel.
  remember (analyzeJournalRange rt settings startDate endDate w) as r eqn:Er.
  unfold analyzeJournalRange in Er. run Er.
  rewrite getJournalFilesInRange_run in Er. cbn [vault] in Er.
  rewrite Hfolder, Hsel in Er. cbv beta iota in Er.
  destruct selected as [|f0 rest] eqn:Eselected; [congruence|].
  rewrite <- Eselected in *. assert ((length selected =? 0)%nat = false) as Hlen
    by (rewrite Eselected; reflexivity).
  rewrite Hlen in Er. run Er.
  match type of Er with
  | context [readJournalFiles selected ?w1] =>
      pose proof (readJournalFilesFrom_world selected "" w1) as Hw;
      pose proof (readJournalFilesFrom_fst selected "" w1 w eq_refl) as Hfst;
      fold (readJournalFiles selected) in Hw, Hfst;
      destruct (readJournalFiles selected w1) as [o w2]
  end; cbn [snd fst] in Hw, Hfst; subst w2. rewrite Hread in Hfst. cbn [fst] in Hfst.
  subst o. run Er.
  match type of Er with
  | context [analyzeWithClaudeCode rt settings ?c startDate endDate ?w1] =>
      destruct (analyzeWithClaudeCode_answers c startDate endDate out w1 Htool Hblank)
        as (w3 & Hrun & Hv & Hc); rewrite Hrun in Er
  end.
  cbn [vault clock] in Hv, Hc. run Er.
  match type of Er with
  | context [createMetaNote rt settings ?a startDate endDate ?w1] =>
      destruct (createMetaNote_writes a startDate endDate w1) as (f & w4 & Hnote & Hfile & _);
        [cbn [vault]; rewrite Hv; exact Hnf | rewrite Hnote in Er]
  end.
  run Er. subst r. exists f. eexists. split; [exact Hread|]. split; [reflexivity|].
  cbn [vault events]. split.
  - rewrite Hfile. unfold metaNoteContent. cbn [clock]. rewrite Hc. reflexivity.
  - rewrite last_snoc. reflexivity.
Qed.

End Success.

(* ================================================================== *)
(** * Quick journal entries: [saveJournalEntry] *)
(* ================================================================== *)

Section Saving.
Variable rt : Runtime.
Variable settings : JournalAnalyzerSettings.
Variable toLocaleTimeString : Z -> string.
Import Js.
Local Open Scope js_scope.

Local Abbreviation today w := (formatDate (newDate rt (clock w))).
Local Abbreviation journalPath w := (journalPathOf settings (formatDate (newDate rt (clock w)))).
Local Abbreviation save := (saveJournalEntry rt settings toLocaleTimeString).

Lemma lookup_snoc_other (v : list TAbstractFile) (e : TAbstractFile) (p : string) :
  abstractPath e <> p ->
  getAbstractFileByPath (v ++ [e]) p = getAbstractFileByPath v p.
Proof.
  intros Hne. destruct (getAbstractFileByPath v p) as [x|] eqn:E.
  - now apply lookup_app_l.
  - rewrite (lookup_app_r _ _ _ E). unfold getAbstractFileByPath, hasPath. simpl.
    destruct (String.eqb_spec (abstractPath e) p); [contradiction | reflexivity].
Qed.

Lemma journalPath_not_folder (name : string) :
  journalFolder settings <> journalPathOf settings name.
Proof.
  unfold journalPathOf. intros H. apply (f_equal String.length) in H.
  rewrite length_app in H. change (String.length ("/" +:+ ?x)) with
    (S (String.length x)) in H. lia.
Qed.

Lemma saveJournalEntry_folder (entry : string) (w : World) :
  getAbstractFileByPath (vault w) (journalFolder settings) = None ->
  save entry w =
  save entry {| vault := vault w ++ [VFolder (journalFolder settings)]; tmpfs := tmpfs w;
                clock := clock w; events := events w |}.
Proof.
  intros Hnone. unfold saveJournalEntry.
  rewrite !(bind_run Date_now), !Date_now_run. cbv beta iota zeta. cbn [clock].
  rewrite !(bind_run getVault), !getVault_run. cbv beta iota. cbn [vault].
  rewrite Hnone, (lookup_last _ (VFolder (journalFolder settings)) (journalFolder settings)
                    eq_refl Hnone).
  rewrite !bind_run, vault_createFolder_run, Hnone, ret_run. reflexivity.
Qed.

Lemma saveJournalEntry_appends_present (entry old : string) (f : TFile) (w : World) :
  is_Some (getAbstractFileByPath (vault w) (journalFolder settings)) ->
  getAbstractFileByPath (vault w) (journalPath w) = Some (VFile f old) ->
  save entry w =
  (Returned f,
   {| vault := map (writeData (journalPath w)
                      (appendedEntry old (toLocaleTimeString (clock w)) entry)) (vault w);
      tmpfs := tmpfs w; clock := clock w; events := events w |}).
Proof.
  intros [folder Hfolder] Hfile.
  pose proof (lookup_path _ _ _ Hfile) as Hp. simpl in Hp.
  unfold saveJournalEntry. rung. rewrite Hfolder. rung. rewrite Hfile. rung.
  rewrite vault_read_run, Hp. unfold readData at 1. rewrite Hfile. rung.
  rewrite vault_modify_run, Hp. unfold readData. rewrite Hfile. rung. reflexivity.
Qed.

Lemma saveJournalEntry_creates_present (entry : string) (w : World) :
  is_Some (getAbstractFileByPath (vault w) (journalFolder settings)) ->
  getAbstractFileByPath (vault w) (journalPath w) = None ->
  save entry w =
  (Returned {| path := journalPath w;
               basename := beforeLastDot (fileName (journalPath w));
               extension := afterLastDot (fileName (journalPath w));
               stat_mtime := clock w |},
   {| vault := vault w ++
        [VFile {| path := journalPath w;
                  basename := beforeLastDot (fileName (journalPath w));
                  extension := afterLastDot (fileName (journalPath w));
                  stat_mtime := clock w |}
               (newJournalNote (today w) entry)];
      tmpfs := tmpfs w; clock := clock w; events := events w |}).
Proof.
  intros [folder Hfolder] Hfile.
  unfold saveJournalEntry. rung. rewrite Hfolder. rung. rewrite Hfile. rung.
  rewrite vault_create_run, Hfile. cbv beta iota zeta. rung. reflexivity.
Qed.

(** X11.  A note for today is in the vault with the text [old]: the
    entry is appended to it under a heading with the time of day, so the
    old text is kept in front of it; the note itself is returned, and
    every other path reads as before. *)
Theorem saveJournalEntry_appends (entry old : string) (w : World) :
  readData (vault w) (journalPath w) = Some old ->
  exists f w',
    save entry w = (Returned f, w')
    /\ getAbstractFileByPath (vault w) (journalPath w) = Some (VFile f old)
    /\ readData (vault w') (journalPath w)
       = Some (old +:+ nl +:+ nl +:+ "## " +:+ toLocaleTimeString (clock w)
               +:+ nl +:+ nl +:+ entry)
    /\ clock w' = clock w
    /\ forall q, q <> journalPath w -> readData (vault w') q = readData (vault w) q.
Proof.
  intros Hold.
  assert (Hpresent : forall w0,
    clock w0 = clock w ->
    is_Some (getAbstractFileByPath (vault w0) (journalFolder settings)) ->
    readData (vault w0) (journalPath w) = Some old ->
    exists f w',
      save entry w0 = (Returned f, w')
      /\ getAbstractFileByPath (vault w0) (journalPath w) = Some (VFile f old)
      /\ readData (vault w') (journalPath w)
         = Some (appendedEntry old (toLocaleTimeString (clock w)) entry)
      /\ clock w' = clock w
      /\ forall q, q <> journalPath w -> readData (vault w') q = readData (vault w0) q).
  { intros w0 Hc Hfolder H0. unfold readData in H0.
    destruct (getAbstractFileByPath (vault w0) (journalPath w)) as [[f o|p]|] eqn:Hfile;
      try discriminate.
    injection H0 as ->. rewrite <- Hc in Hfile.
    exists f. eexists. split; [apply (saveJournalEntry_appends_present _ _ _ _ Hfolder Hfile)|].
    cbn [vault clock]. rewrite Hc in *.
    split; [reflexivity|]. split.
    - apply (readData_written _ _ _ old). unfold readData. now rewrite Hfile.
    - split; [reflexivity|]. intros q Hq. now apply readData_writeData. }
  destruct (getAbstractFileByPath (vault w) (journalFolder settings)) as [folder|] eqn:Hfolder.
  - apply Hpresent; [reflexivity | rewrite Hfolder; eauto | exact Hold].
  - rewrite (saveJournalEntry_folder _ _ Hfolder).
    match goal with
    | |- context [saveJournalEntry rt settings toLocaleTimeString entry ?w1] =>
        destruct (Hpresent w1) as (f & w' & Hrun & Hp & Hnew & Hc & Hel)
    end.
    + reflexivity.
    + exists (VFolder (journalFolder settings)).
      apply (lookup_last _ (VFolder _) (journalFolder settings) eq_refl Hfolder).
    + cbn [vault]. now rewrite readData_snoc_folder.
    + exists f, w'. split; [exact Hrun|]. split.
      { cbn [vault] in Hp. rewrite lookup_snoc_other in Hp; [exact Hp|].
        apply journalPath_not_folder. }
      split; [exact Hnew|].
      split; [exact Hc|]. intros q Hq. rewrite (Hel q Hq). cbn [vault].
      apply readData_snoc_folder.
Qed.

(** Nothing is stored under today's path: the note is created. *)
Lemma saveJournalEntry_creates (entry : string) (w : World) :
  getAbstractFileByPath (vault w) (journalPath w) = None ->
  exists w',
    save entry w =
    (Returned {| path := journalPath w;
                 basename := beforeLastDot (fileName (journalPath w));
                 extension := afterLastDot (fileName (journalPath w));
                 stat_mtime := clock w |}, w')
    /\ readData (vault w') (journalPath w) = Some (newJournalNote (today w) entry)
    /\ getAbstractFileByPath (vault w') (journalPath w)
       = Some (VFile {| path := journalPath w;
                        basename := beforeLastDot (fileName (journalPath w));
                        extension := afterLastDot (fileName (journalPath w));
                        stat_mtime := clock w |} (newJournalNote (today w) entry))
    /\ is_Some (getAbstractFileByPath (vault w') (journalFolder settings))
    /\ clock w' = clock w
    /\ forall q, q <> journalPath w -> readData (vault w') q = readData (vault w) q.
Proof.
  intros Hnone.
  assert (Hpresent : forall w0,
    clock w0 = clock w ->
    is_Some (getAbstractFileByPath (vault w0) (journalFolder settings)) ->
    getAbstractFileByPath (vault w0) (journalPath w) = None ->
    exists w',
      save entry w0 =
      (Returned {| path := journalPath w;
                   basename := beforeLastDot (fileName (journalPath w));
                   extension := afterLastDot (fileName (journalPath w));
                   stat_mtime := clock w |}, w')
      /\ readData (vault w') (journalPath w) = Some (newJournalNote (today w) entry)
      /\ getAbstractFileByPath (vault w') (journalPath w)
         = Some (VFile {| path := journalPath w;
                          basename := beforeLastDot (fileName (journalPath w));
                          extension := afterLastDot (fileName (journalPath w));
                          stat_mtime := clock w |} (newJournalNote (today w) entry))
      /\ is_Some (getAbstractFileByPath (vault w') (journalFolder settings))
      /\ clock w' = clock w
      /\ forall q, q <> journalPath w -> readData (vault w') q = readData (vault w0) q).
  { intros w0 Hc Hfolder Hfile. rewrite <- Hc in Hfile.
    eexists. split; [rewrite <- Hc; apply (saveJournalEntry_creates_present _ _ Hfolder Hfile)|].
    cbn [vault clock]. rewrite Hc in *. split.
    - unfold readData. erewrite lookup_last; [reflexivity | reflexivity | exact Hfile].
    - split; [apply lookup_last; [reflexivity | exact Hfile]|].
      split; [destruct Hfolder as [e He]; exists e; now apply lookup_app_l|].
      split; [reflexivity|].
      intros q Hq. now apply readData_snoc_file. }
  destruct (getAbstractFileByPath (vault w) (journalFolder settings)) as [folder|] eqn:Hfolder.
  - apply Hpresent; [reflexivity | rewrite Hfolder; eauto | exact Hnone].
  - rewrite (saveJournalEntry_folder _ _ Hfolder).
    match goal with
    | |- context [saveJournalEntry rt settings toLocaleTimeString entry ?w1] =>
        destruct (Hpresent w1) as (w' & Hrun & Hnew & Hin & Hf & Hc & Hel)
    end.
    + reflexivity.
    + exists (VFolder (journalFolder settings)).
      apply (lookup_last _ (VFolder _) (journalFolder settings) eq_refl Hfolder).
    + cbn [vault]. rewrite lookup_snoc_other; [exact Hnone|].
      apply journalPath_not_folder.
    + exists w'. split; [exact Hrun|]. split; [exact Hnew|]. split; [exact Hin|].
      split; [exact Hf|]. split; [exact Hc|].
      intros q Hq. rewrite (Hel q Hq). cbn [vault]. apply readData_snoc_folder.
Qed.

(** X12.  Nothing is stored under today's path.  The first entry of the
    day creates the note, with its front matter, the date as title and
    the entry; the second entry of the day goes into the same note,
    under a heading with the time, after everything the first one wrote.
    Every other path reads after both as it read before. *)
Theorem saveJournalEntry_twice (first second : string) (w : World) :
  getAbstractFileByPath (vault w) (journalPath w) = None ->
  exists f w1 w2,
    save first w = (Returned f, w1)
    /\ save second w1 = (Returned f, w2)
    /\ path f = journalPath w
    /\ readData (vault w1) (journalPath w) = Some (newJournalNote (today w) first)
    /\ readData (vault w2) (journalPath w)
       = Some (newJournalNote (today w) first +:+ nl +:+ nl +:+ "## "
               +:+ toLocaleTimeString (clock w) +:+ nl +:+ nl +:+ second)
    /\ forall q, q <> journalPath w -> readData (vault w2) q = readData (vault w) q.
Proof.
  intros Hnone.
  destruct (saveJournalEntry_creates first w Hnone)
    as (w1 & Hrun1 & Hnew & Hin & Hfolder & Hc & Hel1).
  assert (Hold : readData (vault w1) (journalPath w1) = Some (newJournalNote (today w) first))
    by (rewrite Hc; exact Hnew).
  assert (Hin1 : getAbstractFileByPath (vault w1) (journalPath w1)
                 = Some (VFile {| path := journalPath w;
                                  basename := beforeLastDot (fileName (journalPath w));
                                  extension := afterLastDot (fileName (journalPath w));
                                  stat_mtime := clock w |}
                           (newJournalNote (today w) first)))
    by (rewrite Hc; exact Hin).
  pose proof (saveJournalEntry_appends_present second _ _ w1 Hfolder Hin1) as Hrun2.
  rewrite Hc in Hrun2, Hold.
  do 3 eexists. split; [exact Hrun1|]. split; [exact Hrun2|].
  cbn [vault path]. split; [reflexivity|]. split; [exact Hnew|]. split.
  - exact (readData_written _ _ _ _ Hold).
  - intros q Hq. rewrite readData_writeData by exact Hq. now apply Hel1.
Qed.

End Saving.

(* ================================================================== *)
(** * Dates as [formatDate] prints them *)
(* ================================================================== *)

Section Dates.
Import Js.

(** One decimal digit in front of a number, and the character it prints as. *)
Lemma digit_in_front (k : nat) :
  (k < 10)%nat ->
  exists (D : Decimal.uint -> Decimal.uint) (c : ascii),
    Digit c
    /\ (forall d acc, Nat.of_uint_acc (D d) acc = Nat.of_uint_acc d (k + 10 * acc)%nat)
    /\ (forall d, NilEmpty.string_of_uint (D d) = String c (NilEmpty.string_of_uint d))
    /\ (k <> 0%nat -> forall d, Decimal.unorm (D d) = D d).
Proof.
  intros Hk.
  assert (Hacc : forall acc, Nat.tail_mul 10 acc = (10 * acc)%nat)
    by (intros; apply Nat.tail_mul_spec).
  assert (Hcase : forall (D : Decimal.uint -> Decimal.uint) (c : ascii) (j : nat),
    Digit c ->
    (forall d acc, Nat.of_uint_acc (D d) acc = Nat.of_uint_acc d (j + Nat.tail_mul 10 acc)%nat) ->
    (forall d, NilEmpty.string_of_uint (D d) = String c (NilEmpty.string_of_uint d)) ->
    (j <> 0%nat -> forall d, Decimal.unorm (D d) = D d) ->
    exists (D : Decimal.uint -> Decimal.uint) (c : ascii),
      Digit c
      /\ (forall d acc, Nat.of_uint_acc (D d) acc = Nat.of_uint_acc d (j + 10 * acc)%nat)
      /\ (forall d, NilEmpty.string_of_uint (D d) = String c (NilEmpty.string_of_uint d))
      /\ (j <> 0%nat -> forall d, Decimal.unorm (D d) = D d)).
  { intros D c j H1 H2 H3 H4. exists D, c. split; [exact H1|]. split; [|auto].
    intros d acc. rewrite H2, Hacc. reflexivity. }
  assert (Hdigit : forall n, (48 <= n <= 57)%nat -> Digit (ascii_of_nat n)).
  { intros n Hn. unfold Digit. rewrite nat_ascii_embedding; lia. }
  destruct k as [|k]; [apply (Hcase Decimal.D0 "0"%char 0%nat);
    [apply (Hdigit 48%nat); lia | reflexivity | reflexivity | intros H; now destruct H]|].
  destruct k as [|k]; [apply (Hcase Decimal.D1 "1"%char 1%nat);
    [apply (Hdigit 49%nat); lia | reflexivity | reflexivity | reflexivity]|].
  destruct k as [|k]; [apply (Hcase Decimal.D2 "2"%char 2%nat);
    [apply (Hdigit 50%nat); lia | reflexivity | reflexivity | reflexivity]|].
  destruct k as [|k]; [apply (Hcase Decimal.D3 "3"%char 3%nat);
    [apply (Hdigit 51%nat); lia | reflexivity | reflexivity | reflexivity]|].
  destruct k as [|k]; [apply (Hcase Decimal.D4 "4"%char 4%nat);
    [apply (Hdigit 52%nat); lia | reflexivity | reflexivity | reflexivity]|].
  destruct k as [|k]; [apply (Hcase Decimal.D5 "5"%char 5%nat);
    [apply (Hdigit 53%nat); lia | reflexivity | reflexivity | reflexivity]|].
  destruct k as [|k]; [apply (Hcase Decimal.D6 "6"%char 6%nat);
    [apply (Hdigit 54%nat); lia | reflexivity | reflexivity | reflexivity]|].
  destruct k as [|k]; [apply (Hcase Decimal.D7 "7"%char 7%nat);
    [apply (Hdigit 55%nat); lia | reflexivity | reflexivity | reflexivity]|].
  destruct k as [|k]; [apply (Hcase Decimal.D8 "8"%char 8%nat);
    [apply (Hdigit 56%nat); lia | reflexivity | reflexivity | reflexivity]|].
  destruct k as [|k]; [apply (Hcase Decimal.D9 "9"%char 9%nat);
    [apply (Hdigit 57%nat); lia | reflexivity | reflexivity | reflexivity]|].
  lia.
Qed.

Lemma ofNat_four_digits (y : nat) :
  1000 <= Z.of_nat y <= 9999 ->
  exists a b c d,
    ofNat y = String a (String b (String c (String d "")))
    /\ Digit a /\ Digit b /\ Digit c /\ Digit d.
Proof.
  intros Hy.
  destruct (digit_in_front (y / 1000)) as (Da & a & Ha & Hacc_a & Hstr_a & Hnorm_a);
    [apply Nat.Div0.div_lt_upper_bound; lia|].
  destruct (digit_in_front ((y / 100) mod 10)) as (Db & b & Hb & Hacc_b & Hstr_b & _);
    [apply Nat.mod_upper_bound; lia|].
  destruct (digit_in_front ((y / 10) mod 10)) as (Dc & c & Hc & Hacc_c & Hstr_c & _);
    [apply Nat.mod_upper_bound; lia|].
  destruct (digit_in_front (y mod 10)) as (Dd & d & Hd & Hacc_d & Hstr_d & _);
    [apply Nat.mod_upper_bound; lia|].
  exists a, b, c, d. split; [|auto].
  assert (Hof : Nat.of_uint (Da (Db (Dc (Dd Decimal.Nil)))) = y).
  { unfold Nat.of_uint. rewrite Hacc_a, Hacc_b, Hacc_c, Hacc_d. cbn [Nat.of_uint_acc].
    pose proof (Nat.div_mod_eq y 10). pose proof (Nat.div_mod_eq (y / 10) 10).
    pose proof (Nat.div_mod_eq (y / 100) 10).
    assert (y / 10 / 10 = y / 100)%nat by (rewrite Nat.Div0.div_div; reflexivity).
    assert (y / 100 / 10 = y / 1000)%nat by (rewrite Nat.Div0.div_div; reflexivity).
    lia. }
  unfold ofNat. rewrite <- Hof at 1. rewrite DecimalNat.Unsigned.to_of.
  rewrite Hnorm_a.
  - now rewrite Hstr_a, Hstr_b, Hstr_c, Hstr_d.
  - assert (1 <= y / 1000)%nat by (apply Nat.div_le_lower_bound; lia). lia.
Qed.

Lemma padStart2_two_digits (k : nat) :
  (k <= 99)%nat ->
  exists a b, padStart2 (ofNat k) = String a (String b "") /\ Digit a /\ Digit b.
Proof.
  intros Hk.
  assert (Hall : forallb (fun k =>
            match padStart2 (ofNat k) with
            | String a (String b "") => isDigit a && isDigit b
            | _ => false
            end) (seq 0 100) = true) by (vm_compute; reflexivity).
  rewrite forallb_forall in Hall. specialize (Hall k).
  destruct (padStart2 (ofNat k)) as [|a [|b [|? ?]]];
    try (assert (false = true) by (apply Hall, in_seq; lia); discriminate).
  exists a, b. split; [reflexivity|].
  assert (isDigit a && isDigit b = true) as [Ha Hb]%andb_prop
    by (apply Hall, in_seq; lia).
  split; now apply isDigit_spec.
Qed.

(** What [formatDate] prints has the shape of a date. *)
Lemma formatDate_digits (date : JsDate) :
  1000 <= Z.of_nat (getFullYear date) <= 9999 ->
  (getMonth date <= 11)%nat ->
  (1 <= getDate date <= 31)%nat ->
  DateShaped (formatDate date).
Proof.
  intros Hy Hm Hd.
  destruct (ofNat_four_digits _ Hy) as (y1 & y2 & y3 & y4 & Ey & ? & ? & ? & ?).
  destruct (padStart2_two_digits (getMonth date + 1)) as (m1 & m2 & Em & ? & ?); [lia|].
  destruct (padStart2_two_digits (getDate date)) as (d1 & d2 & Ed & ? & ?); [lia|].
  unfold formatDate. rewrite Ey, Em, Ed.
  exists y1, y2, y3, y4, m1, m2, d1, d2. split; [reflexivity|].
  do 7 (split; [assumption|]). assumption.
Qed.

(** The pattern finds a date in a text that is that date. *)
Lemma DateShaped_matchDate (d : string) : DateShaped d -> matchDate d = Some d.
Proof.
  intros Hshape. apply first_matchDate. exists "", "".
  split; [now rewrite app_nil_l, app_nil_r|].
  split; [exact Hshape|]. intros; simpl; lia.
Qed.

(** X10.  For a year of four digits, a month from 0 to 11 and a day from
    1 to 31, [formatDate] prints four digits, a hyphen, two digits, a
    hyphen and two digits, months and days below ten with a zero in
    front; so the date pattern that selects the journal files finds in
    the printed date that very date. *)
Theorem formatDate_shaped (date : JsDate) :
  1000 <= Z.of_nat (getFullYear date) <= 9999 ->
  (getMonth date <= 11)%nat ->
  (1 <= getDate date <= 31)%nat ->
  DateShaped (formatDate date)
  /\ String.length (formatDate date) = 10%nat
  /\ matchDate (formatDate date) = Some (formatDate date).
Proof.
  intros Hy Hm Hd.
  pose proof (formatDate_digits date Hy Hm Hd) as Hshape.
  split; [exact Hshape|]. split.
  - now apply DateShaped_spec in Hshape.
  - now apply DateShaped_matchDate.
Qed.

End Dates.

(* ================================================================== *)
(** * An entry saved today is a journal file of today *)
(* ================================================================== *)

Section SavedAndSelected.
Variable rt : Runtime.
Variable settings : JournalAnalyzerSettings.
Variable toLocaleTimeString : Z -> string.
Import Js.
Local Open Scope js_scope.

Lemma includes_char_avoids (c : ascii) (s : string) :
  avoids c s -> includes (String c "") s = false.
Proof.
  unfold includes. induction s as [|d s IH]; [reflexivity|].
  intros [Hd Hs]. rewrite indexOf_eq. cbn [startsWith].
  destruct (Ascii.eqb_spec c d); [congruence|].
  specialize (IH Hs). destruct (indexOf (String c "") s); [discriminate | reflexivity].
Qed.

Lemma includes_char_app (c : ascii) (a b : string) :
  includes (String c "") (a +:+ String c b) = true.
Proof.
  apply includes_occurrences.
  pose proof (occurrences_app (String c "") a (String c b) eq_refl) as H.
  assert (1 <= occurrences (String c "") (String c b))%nat; [|lia].
  cbn [occurrences startsWith]. rewrite Ascii.eqb_refl. destruct b; simpl; lia.
Qed.

Lemma fileName_avoids (n : string) : avoids "/" n -> fileName n = n.
Proof.
  destruct n as [|c n]; [reflexivity|]. intros H. cbn [fileName].
  now rewrite (includes_char_avoids _ _ H).
Qed.

Lemma fileName_app (a n : string) :
  avoids "/" n -> fileName (a +:+ "/" +:+ n) = n.
Proof.
  intros Hn. induction a as [|x a IH].
  - rewrite app_nil_l. change ("/" +:+ n) with (String "/" n). cbn [fileName].
    assert (includes "/" (String "/" n) = true) as ->
      by exact (includes_char_app "/" "" n).
    now apply fileName_avoids.
  - rewrite app_cons. cbn [fileName].
    assert (includes "/" (String x (a +:+ "/" +:+ n)) = true) as ->
      by exact (includes_char_app "/" (String x a) n).
    exact IH.
Qed.

Lemma beforeLastDot_md (n : string) :
  avoids "." n -> beforeLastDot (n +:+ ".md") = n.
Proof.
  induction n as [|x n IH]; [reflexivity|]. intros [Hx Hn].
  rewrite app_cons. cbn [beforeLastDot].
  assert (includes "." (n +:+ ".md") = true) as ->
    by exact (includes_char_app "." n "md").
  now rewrite IH.
Qed.

Lemma afterLastDot_md (n : string) :
  avoids "." n -> afterLastDot (n +:+ ".md") = "md".
Proof.
  induction n as [|x n IH]; [reflexivity|]. intros [Hx Hn].
  rewrite app_cons. cbn [afterLastDot].
  assert (includes "." (n +:+ ".md") = true) as ->
    by exact (includes_char_app "." n "md").
  now apply IH.
Qed.

Lemma Digit_not (c x : ascii) : Digit c -> (nat_of_ascii x < 48)%nat -> c <> x.
Proof. unfold Digit. intros Hc Hx ->. lia. Qed.

Lemma DateShaped_plain (d : string) :
  DateShaped d -> avoids "/" d /\ avoids "." d.
Proof.
  intros (y1 & y2 & y3 & y4 & m1 & m2 & d1 & d2 & -> & H1 & H2 & H3 & H4 & H5 & H6 & H7 & H8).
  split; cbn [avoids];
    repeat (split; [first [ discriminate
                          | apply Digit_not; [assumption | vm_compute; lia] ]|]);
    exact I.
Qed.

(** X13.  Let the clock show a year of four digits, and let nothing be
    stored under today's path.  Then [saveJournalEntry] returns a file
    whose path is [<journalFolder>/<today>.md] and whose basename is
    today's date, and a selection over any range that has today between
    its bounds, made in the vault that the save left, contains that
    file. *)
Theorem saved_entry_is_selected (entry startDate endDate : string) (w : World) :
  1000 <= Z.of_nat (getFullYear (newDate rt (clock w))) <= 9999 ->
  (getMonth (newDate rt (clock w)) <= 11)%nat ->
  (1 <= getDate (newDate rt (clock w)) <= 31)%nat ->
  getAbstractFileByPath (vault w)
    (journalPathOf settings (formatDate (newDate rt (clock w)))) = None ->
  le startDate (formatDate (newDate rt (clock w))) = true ->
  le (formatDate (newDate rt (clock w))) endDate = true ->
  exists f w1 selected,
    saveJournalEntry rt settings toLocaleTimeString entry w = (Returned f, w1)
    /\ path f = journalFolder settings +:+ "/" +:+ formatDate (newDate rt (clock w)) +:+ ".md"
    /\ basename f = formatDate (newDate rt (clock w))
    /\ extension f = "md"
    /\ getJournalFilesInRange rt settings startDate endDate w1 = (Returned selected, w1)
    /\ In f selected.
Proof.
  intros Hy Hm Hd Hnone Hstart Hend.
  pose proof (formatDate_digits _ Hy Hm Hd) as Hshape.
  pose proof (DateShaped_matchDate _ Hshape) as Hmatch.
  destruct (DateShaped_plain _ Hshape) as [Hslash Hdot].
  destruct (saveJournalEntry_creates rt settings toLocaleTimeString entry w Hnone)
    as (w1 & Hrun & _ & Hfile & Hfolder & _ & _).
  set (today := formatDate (newDate rt (clock w))) in *.
  assert (Hname : fileName (journalPathOf settings today) = today +:+ ".md").
  { unfold journalPathOf. apply fileName_app.
    apply avoids_app; [exact Hslash | simpl; intuition discriminate]. }
  rewrite Hname, (beforeLastDot_md _ Hdot), (afterLastDot_md _ Hdot) in Hrun, Hfile.
  do 2 eexists. rewrite getJournalFilesInRange_run.
  destruct Hfolder as [folder Hfolder]. rewrite Hfolder.
  eexists. split; [exact Hrun|]. cbn [path basename extension].
  split; [reflexivity|]. split; [reflexivity|]. split; [reflexivity|].
  split; [reflexivity|].
  eapply Permutation_in; [symmetry; apply sort_Permutation|].
  apply filter_In. split.
  - apply find_some in Hfile as [Hin _].
    apply list_elem_of_In, list_elem_of_omap. eexists. split;
      [apply list_elem_of_In; exact Hin | reflexivity].
  - unfold inDateRange. cbn [path basename]. unfold journalPathOf.
    rewrite startsWith_app. cbn [negb]. rewrite Hmatch. unfold ge.
    fold (le startDate today). now rewrite Hstart, Hend.
Qed.

End SavedAndSelected.

(* ================================================================== *)
(** * Saving and analysing in one go: [quickJournalWithAnalysis] *)
(* ================================================================== *)

Section QuickEntry.
Variable rt : Runtime.
Variable settings : JournalAnalyzerSettings.
Variable toLocaleTimeString : Z -> string.
Import Js.
Local Open Scope js_scope.

(** What [saveJournalEntry] returns and what it makes of the vault depend
    on the vault and the clock alone. *)
Lemma saveJournalEntry_frame (entry : string) (w1 w : World) :
  vault w1 = vault w -> clock w1 = clock w ->
  fst (saveJournalEntry rt settings toLocaleTimeString entry w1)
  = fst (saveJournalEntry rt settings toLocaleTimeString entry w)
  /\ vault (snd (saveJournalEntry rt settings toLocaleTimeString entry w1))
     = vault (snd (saveJournalEntry rt settings toLocaleTimeString entry w)).
Proof.
  intros Hv Hc. destruct w1 as [v1 fs1 c1 ev1], w as [v fs c ev].
  cbn [vault clock] in Hv, Hc. subst v1 c1.
  unfold saveJournalEntry, bind, Date_now, getVault, vault_createFolder, vault_read,
    vault_modify, vault_create, setVault, ret, throw, bind, getVault, Date_now.
  cbn [vault clock tmpfs events fst snd].
  repeat match goal with
         | |- context [match ?x with _ => _ end] =>
             lazymatch x with
             | context [match _ with _ => _ end] => fail
             | _ => destruct x eqn:?
             end; cbn [vault clock tmpfs events fst snd]
         end;
    split; reflexivity.
Qed.

(** X14.  [quickJournalWithAnalysis] never throws, and it leaves the
    vault exactly as [saveJournalEntry] alone would leave it: whatever
    the tool does afterwards, and whether the analysis returns or throws,
    the entry that was saved stays saved and nothing else is written.
    The modal is opened only for the saved file and only with a list of
    suggestions that is not empty; when the save itself throws, the last
    thing the user sees is the notice of that error. *)
Theorem quickJournalWithAnalysis_keeps_entry (entry : string) (w : World) :
  vault (snd (quickJournalWithAnalysis rt settings toLocaleTimeString entry w))
  = vault (snd (saveJournalEntry rt settings toLocaleTimeString entry w))
  /\ exists opened,
       fst (quickJournalWithAnalysis rt settings toLocaleTimeString entry w) = Returned opened
       /\ (forall connections file,
             opened = SuggestionModal connections file ->
             fst (saveJournalEntry rt settings toLocaleTimeString entry w) = Returned file
             /\ connections <> [])
       /\ (forall e,
             fst (saveJournalEntry rt settings toLocaleTimeString entry w) = Thrown e ->
             last (events (snd (quickJournalWithAnalysis rt settings toLocaleTimeString
                                 entry w)))
             = Some (Notice ("Error: " +:+ message e))).
Proof.
  remember (quickJournalWithAnalysis rt settings toLocaleTimeString entry w) as r eqn:Er.
  unfold quickJournalWithAnalysis in Er. run Er.
  match type of Er with
  | context [saveJournalEntry rt settings toLocaleTimeString entry ?w1] =>
      destruct (saveJournalEntry_frame entry w1 w eq_refl eq_refl) as [Hfst Hvault];
      destruct (saveJournalEntry rt settings toLocaleTimeString entry w1) as [[f|e] w2]
  end; cbn [fst snd] in Hfst, Hvault; rewrite <- Hfst, <- Hvault.
  - run Er.
    match type of Er with
    | context [analyzeConnections rt settings f ?files ?w1] =>
        pose proof (analyzeConnections_vault rt settings f files w1) as Hv;
        destruct (analyzeConnections rt settings f files w1) as [[connections|e] w3]
    end; cbn [snd vault] in Hv.
    + run Er. destruct connections as [|c connections]; cbn [length Nat.ltb Nat.leb] in Er.
      * run Er. subst r. cbn [fst snd vault]. split; [exact Hv|].
        eexists. split; [reflexivity|]. split; [discriminate | discriminate].
      * run Er. subst r. cbn [fst snd vault]. split; [exact Hv|].
        eexists. split; [reflexivity|]. split; [|discriminate].
        intros ? ? [= <- <-]. split; [reflexivity | discriminate].
    + run Er. subst r. cbn [fst snd vault]. split; [exact Hv|].
      eexists. split; [reflexivity|]. split; [discriminate | discriminate].
  - run Er. subst r. cbn [fst snd vault events]. split; [reflexivity|].
    eexists. split; [reflexivity|]. split; [discriminate|].
    intros ? [= <-]. now rewrite last_snoc.
Qed.

End QuickEntry.

(* ================================================================== *)
(** * What goes into the prompt for connections, and in which order *)
(* ================================================================== *)

Section Suggestions.
Import Js.

Lemma length_take_string (n : nat) (s : string) :
  String.length (take n s) = Nat.min n (String.length s).
Proof.
  revert s. induction n as [|n IH]; intros [|c s]; simpl; try reflexivity.
  now rewrite IH.
Qed.

Lemma take_take_app (n : nat) (s t : string) :
  (n <= String.length s)%nat -> take n (take n s +:+ t) = take n s.
Proof.
  revert s. induction n as [|n IH]; intros s H; [reflexivity|].
  destruct s as [|c s]; [simpl in H; lia|].
  change (take (S n) (String c s)) with (String c (take n s)).
  rewrite app_cons.
  change (take (S n) (String c (take n s +:+ t))) with (String c (take n (take n s +:+ t))).
  rewrite IH; [reflexivity | simpl in H; lia].
Qed.

(** X6.  What the prompt shows of another note is the note itself when
    it has at most 500 code units, and its first 500 code units followed
    by three dots otherwise: never more than 503 code units, and always
    the same first 500 as the note. *)
Theorem preview_bounded (content : string) :
  (String.length (preview content) <= 503)%nat
  /\ ((String.length content <= 500)%nat -> preview content = content)
  /\ ((500 < String.length content)%nat ->
      preview content = take 500 content +:+ "..."
      /\ String.length (preview content) = 503%nat)
  /\ take 500 (preview content) = take 500 content.
Proof.
  unfold preview. destruct (Nat.ltb_spec 500 (String.length content)) as [Hlong|Hshort].
  - assert (Hlen : String.length (take 500 content +:+ "...") = 503%nat).
    { rewrite length_app, length_take_string. simpl String.length. lia. }
    split; [lia|]. split; [lia|]. split; [auto|].
    apply take_take_app. lia.
  - split; [lia|]. split; [reflexivity|]. split; [lia | reflexivity].
Qed.

Lemma StronglySorted_weaken {A} (R S : A -> A -> Prop) (l : list A) :
  (forall a b, R a b -> S a b) -> StronglySorted R l -> StronglySorted S l.
Proof.
  intros HRS. induction 1 as [|x l Hs IH Hx]; constructor; [exact IH|].
  eapply Forall_impl; [exact Hx | auto].
Qed.

(** X4.  The modal lists the suggestions from the most to the least
    confident, and it lists each suggestion it was given once: the list
    shown is a rearrangement of the list received. *)
Theorem suggestions_by_confidence (connections : list Connection) :
  StronglySorted (fun a b => confidence b <= confidence a) (sort byConfidence connections)
  /\ Permutation (sort byConfidence connections) connections
  /\ length (sort byConfidence connections) = length connections.
Proof.
  split; [|split].
  - apply (StronglySorted_weaken (fun a b => byConfidence a b <= 0)).
    + unfold byConfidence. intros; lia.
    + apply sort_StronglySorted; unfold byConfidence; intros; lia.
  - apply sort_Permutation.
  - apply Permutation_length, sort_Permutation.
Qed.

(** X5.  The other notes that [analyzeConnections] reads for its prompt:
    at most fifty; each of them one of the files given, never one with
    the path of the current note; in the order of their modification
    times, the latest first; and no other note that was left out is more
    recent than one that was taken. *)
Theorem recentNotes_most_recent (currentFile : TFile) (allFiles : list TFile) :
  (length (recentNotes currentFile allFiles) <= 50)%nat
  /\ (forall f, In f (recentNotes currentFile allFiles) ->
                In f allFiles /\ path f <> path currentFile)
  /\ StronglySorted (fun a b => stat_mtime b <= stat_mtime a)
       (recentNotes currentFile allFiles)
  /\ (forall f g, In f (recentNotes currentFile allFiles) ->
                  In g allFiles -> path g <> path currentFile ->
                  ~ In g (recentNotes currentFile allFiles) ->
                  stat_mtime g <= stat_mtime f)
  /\ ((length (List.filter (fun f => negb (String.eqb (path f) (path currentFile)))
                 allFiles) <= 50)%nat ->
      Permutation (recentNotes currentFile allFiles)
        (List.filter (fun f => negb (String.eqb (path f) (path currentFile))) allFiles)).
Proof.
  unfold recentNotes.
  set (others := List.filter _ allFiles).
  set (sorted := sort byRecency others).
  assert (Hperm : Permutation sorted others) by apply sort_Permutation.
  assert (Hsorted : StronglySorted (fun a b => stat_mtime b <= stat_mtime a) sorted).
  { apply (StronglySorted_weaken (fun a b => byRecency a b <= 0)).
    - unfold byRecency. intros; lia.
    - apply sort_StronglySorted; unfold byRecency; intros; lia. }
  assert (Hothers : forall f, In f others <-> In f allFiles /\ path f <> path currentFile).
  { intros f. unfold others. rewrite filter_In, negb_true_iff, String.eqb_neq. reflexivity. }
  rewrite <- (take_drop 50 sorted) in Hsorted.
  split; [apply firstn_le_length|]. split; [|split; [|split]].
  - intros f Hf. apply Hothers. eapply Permutation_in; [exact Hperm|].
    apply list_elem_of_In. apply (subseteq_take 50). now apply list_elem_of_In.
  - eapply sorting.StronglySorted_app_1_l. exact Hsorted.
  - intros f g Hf Hg Hpath Hout.
    assert (Hin : In g sorted).
    { eapply Permutation_in; [symmetry; exact Hperm|]. now apply Hothers. }
    rewrite <- (take_drop 50 sorted) in Hin. apply in_app_or in Hin as [Hin|Hin];
      [contradiction|].
    apply (sorting.StronglySorted_app_1_elem_of _ _ _ f g Hsorted); now apply list_elem_of_In.
  - intros Hfew. rewrite firstn_all2; [exact Hperm|].
    rewrite (Permutation_length Hperm). exact Hfew.
Qed.

End Suggestions.

(* ================================================================== *)
(** * What accepting suggestions does to the vault *)
(* ================================================================== *)

Section Accepting.
Import Js.
Local Open Scope js_scope.

(** X1.  [insertWikiLink] writes nothing unless it reports success: when
    it returns [false] or throws, the world is as it was.  When it
    returns [true], the note of the file held some text, now holds that
    text with the replacement made, and the two differ.  In every case
    the other paths of the vault read as before, and neither the
    temporary directory nor the screen changes. *)
Theorem insertWikiLink_effect (file : TFile) (source target : string) (w : World) :
  (fst (insertWikiLink file source target w) = Returned true ->
   exists content,
     holds (vault w) file content
     /\ readData (vault (snd (insertWikiLink file source target w))) (path file)
        = Some (replace content source ("[[" +:+ stripMdSuffix target +:+ "]]"))
     /\ replace content source ("[[" +:+ stripMdSuffix target +:+ "]]") <> content)
  /\ (fst (insertWikiLink file source target w) <> Returned true ->
      snd (insertWikiLink file source target w) = w)
  /\ (forall q, q <> path file ->
        readData (vault (snd (insertWikiLink file source target w))) q
        = readData (vault w) q)
  /\ tmpfs (snd (insertWikiLink file source target w)) = tmpfs w
  /\ events (snd (insertWikiLink file source target w)) = events w.
Proof.
  rewrite insertWikiLink_run.
  destruct (readData (vault w) (path file)) as [content|] eqn:Hc.
  - cbv zeta.
    destruct (String.eqb_spec (replace content source ("[[" +:+ stripMdSuffix target +:+ "]]"))
                content) as [Heq|Hne]; cbn [negb fst snd vault tmpfs events].
    + split; [discriminate|]. repeat split; reflexivity.
    + split.
      * intros _. exists content. split; [exact Hc|]. split; [|exact Hne].
        now apply (readData_written _ _ _ content).
      * split; [intros H; now destruct H|]. split; [|split; reflexivity].
        intros q Hq. now apply readData_writeData.
  - cbn [fst snd]. split; [discriminate|]. repeat split; reflexivity.
Qed.

Lemma app_inv_tail_string (a b c : string) : a +:+ c = b +:+ c -> a = b.
Proof.
  revert b. induction a as [|x a IH]; intros b H.
  - destruct b as [|y b]; [reflexivity|]. apply (f_equal String.length) in H.
    rewrite app_nil_l, length_app in H. simpl in H. lia.
  - destruct b as [|y b].
    + apply (f_equal String.length) in H.
      rewrite app_nil_l, length_app in H. simpl in H. lia.
    + rewrite !app_cons in H. injection H as -> H. f_equal. now apply IH.
Qed.

Lemma indexOf_first (p before after : string) :
  (forall j, (j < String.length before)%nat ->
             startsWith p (drop j (before +:+ p +:+ after)) = false) ->
  indexOf p (before +:+ p +:+ after) = Some (String.length before).
Proof.
  induction before as [|c before IH]; intros Hmin; rewrite indexOf_eq.
  - rewrite app_nil_l, startsWith_app. reflexivity.
  - assert (H0 := Hmin 0%nat ltac:(simpl; lia)). cbn [drop] in H0. rewrite H0.
    rewrite app_cons, IH; [reflexivity|].
    intros j Hj. apply (Hmin (S j)). simpl. lia.
Qed.

(** X2.  Let the note read [before], then the source text, then [after],
    with no occurrence of the source text that starts earlier, and let
    the name of the target have no dollar sign.  Then the note becomes
    [before], the link [[[target without .md]]], [after]: what stood
    before and after the first occurrence is kept, later occurrences
    included, and the call returns [true]; unless the source text is
    that very link, in which case the note stays as it is and the call
    returns [false]. *)
Theorem insertWikiLink_first_occurrence (file : TFile) (source target before after : string)
        (w : World) :
  holds (vault w) file (before +:+ source +:+ after) ->
  (forall j, (j < String.length before)%nat ->
             startsWith source (drop j (before +:+ source +:+ after)) = false) ->
  avoids "$" (stripMdSuffix target) ->
  insertWikiLink file source target w =
  if String.eqb ("[[" +:+ stripMdSuffix target +:+ "]]") source
  then (Returned false, w)
  else (Returned true,
        {| vault := map (writeData (path file)
                           (before +:+ ("[[" +:+ stripMdSuffix target +:+ "]]") +:+ after))
                        (vault w);
           tmpfs := tmpfs w; clock := clock w; events := events w |}).
Proof.
  intros Hc Hmin Hplain.
  pose proof (indexOf_first _ _ _ Hmin) as Hi.
  rewrite (insertWikiLink_plain file source target _ _ w Hc Hi Hplain). cbv zeta.
  assert (Hdrop : drop (String.length before + String.length source)
                    (before +:+ source +:+ after) = after).
  { rewrite <- length_app, <- app_assoc. apply drop_app. }
  rewrite take_app, Hdrop.
  set (link := "[[" +:+ stripMdSuffix target +:+ "]]").
  destruct (String.eqb_spec link source) as [->|Hne].
  - rewrite String.eqb_refl. reflexivity.
  - destruct (String.eqb_spec (before +:+ link +:+ after) (before +:+ source +:+ after))
      as [Heq|_]; [|reflexivity].
    apply String.app_inj in Heq. apply app_inv_tail_string in Heq. contradiction.
Qed.

(** The loop on a note that the vault holds: one suggestion after
    another is tried on the text the one before it left. *)
Lemma addAllLoop_held (file : TFile) (connections : list Connection) :
  forall content added failed w,
    holds (vault w) file content ->
    exists failed' w',
      addAllLoop file connections added failed w
      = (Returned ((added + changes content connections)%nat, failed'), w')
      /\ (changes content connections + failed' = failed + length connections)%nat
      /\ holds (vault w') file (accepted content connections)
      /\ events w' = events w
      /\ tmpfs w' = tmpfs w
      /\ forall q, q <> path file -> readData (vault w') q = readData (vault w) q.
Proof.
  induction connections as [|c rest IH]; intros content added failed w Hc.
  - exists failed, w. cbn [addAllLoop changes accepted length].
    rewrite Nat.add_0_r. repeat split; [lia | exact Hc].
  - cbn [addAllLoop changes accepted length].
    rewrite bind_run, try_catch_run, bind_run, insertWikiLink_run.
    unfold holds in Hc. rewrite Hc. cbv zeta.
    change ("[[" +:+ stripMdSuffix (targetFile c) +:+ "]]") with (linkOf c).
    destruct (String.eqb (replace content (sourceText c) (linkOf c)) content) eqn:E;
      cbn [negb]; cbv beta iota; rewrite ret_run; cbn [fst snd].
    + apply String.eqb_eq in E. rewrite E.
      destruct (IH content added (S failed) w Hc)
        as (failed' & w' & Hrun & Hsum & Hnote & Hev & Hfs & Hel).
      exists failed', w'. rewrite Hrun. repeat split; try assumption. lia.
    + set (w1 := {| vault := _ |}).
      assert (Hc1 : holds (vault w1) file (replace content (sourceText c) (linkOf c))).
      { unfold holds, w1. cbn [vault]. exact (readData_written _ _ _ _ Hc). }
      destruct (IH _ (S added) failed w1 Hc1)
        as (failed' & w' & Hrun & Hsum & Hnote & Hev & Hfs & Hel).
      exists failed', w'. rewrite Hrun.
      replace (added + (1 + changes (replace content (sourceText c) (linkOf c)) rest))%nat
        with (S added + changes (replace content (sourceText c) (linkOf c)) rest)%nat by lia.
      repeat split; try assumption; [lia|].
      intros q Hq. rewrite Hel by exact Hq. unfold w1. cbn [vault].
      now apply readData_writeData.
Qed.

(** The loop on a note that the vault does not hold: every read throws,
    every suggestion fails, nothing is written. *)
Lemma addAllLoop_missing (file : TFile) (connections : list Connection) :
  forall added failed w,
    readData (vault w) (path file) = None ->
    addAllLoop file connections added failed w
    = (Returned (added, (failed + length connections)%nat), w).
Proof.
  induction connections as [|c rest IH]; intros added failed w Hnone.
  - cbn [addAllLoop length]. now rewrite Nat.add_0_r.
  - cbn [addAllLoop length].
    rewrite bind_run, try_catch_run, bind_run, insertWikiLink_run, Hnone.
    cbv beta iota. rewrite ret_run. cbn [fst snd].
    rewrite IH by exact Hnone. do 3 f_equal. lia.
Qed.

(** X3.  [Add All Links] never throws.  It tries every suggestion, the
    most confident first, each on the text the one before it left: the
    note ends up with the text of all the replacements in that order,
    the number of links added is the number of suggestions that changed
    the text, and the rest are reported as failed, in one closing
    notice.  It writes to no note but the current one and to no
    temporary file.  On a note that the vault does not hold every
    suggestion fails and nothing is written. *)
Theorem addAllLinks_reports_all (file : TFile) (connections : list Connection) (w : World) :
  exists added failed w',
    addAllLinks file connections w = (Returned tt, w')
    /\ (added + failed = length connections)%nat
    /\ events w' = events w ++
         [Notice ("Added " +:+ ofNat added +:+ " links. "
                  +:+ (if (0 <? failed)%nat then ofNat failed +:+ " failed." else ""))]
    /\ (forall q, q <> path file -> readData (vault w') q = readData (vault w) q)
    /\ tmpfs w' = tmpfs w
    /\ (forall content,
          holds (vault w) file content ->
          added = changes content (sort byConfidence connections)
          /\ holds (vault w') file (accepted content (sort byConfidence connections)))
    /\ (readData (vault w) (path file) = None -> added = 0%nat /\ vault w' = vault w).
Proof.
  assert (Hlen : length (sort byConfidence connections) = length connections)
    by apply Permutation_length, sort_Permutation.
  unfold addAllLinks. cbv zeta. rewrite bind_run.
  destruct (readData (vault w) (path file)) as [content|] eqn:E.
  - destruct (addAllLoop_held file (sort byConfidence connections) content 0 0 w E)
      as (failed & w1 & Hrun & Hsum & Hnote & Hev & Hfs & Hel).
    rewrite Hrun. cbv beta iota. cbn [fst snd]. rewrite emit_run.
    cbn [Nat.add] in *.
    exists (changes content (sort byConfidence connections)), failed. eexists.
    split; [reflexivity|]. cbn [vault tmpfs clock events].
    split; [lia|]. split; [now rewrite Hev|]. split; [exact Hel|]. split; [exact Hfs|].
    split; [|discriminate].
    intros content' Hc'. unfold holds in Hc'. rewrite E in Hc'. injection Hc' as <-.
    split; [reflexivity | exact Hnote].
  - rewrite (addAllLoop_missing file _ 0 0 w E). cbv beta iota. cbn [fst snd].
    rewrite emit_run. cbn [Nat.add].
    exists 0%nat, (length (sort byConfidence connections)). eexists.
    split; [reflexivity|]. cbn [vault tmpfs clock events].
    split; [lia|]. split; [reflexivity|]. split; [reflexivity|]. split; [reflexivity|].
    split; [|intros _; split; reflexivity].
    intros content Hc. unfold holds in Hc. rewrite E in Hc. discriminate.
Qed.

End Accepting.

(* ================================================================== *)
(** * The connection types in the settings tab *)
(* ================================================================== *)

Section ConnectionTypes.
Import Js.

Lemma rev_app_acc (s acc : string) :
  String.rev_app s acc = String.rev s +:+ acc.
Proof.
  unfold String.rev. revert acc. induction s as [|c s IH]; intros acc; [reflexivity|].
  cbn [String.rev_app]. rewrite (IH (String c acc)), (IH (String c "")).
  now rewrite app_assoc.
Qed.

Lemma rev_cons (c : ascii) (s : string) :
  String.rev (String c s) = String.rev s +:+ String c "".
Proof. unfold String.rev at 1. cbn [String.rev_app]. apply rev_app_acc. Qed.

Lemma rev_snoc (s : string) (c : ascii) :
  String.rev (s +:+ String c "") = String c (String.rev s).
Proof.
  induction s as [|x s IH]; [reflexivity|].
  rewrite app_cons, !rev_cons, IH. reflexivity.
Qed.

Lemma rev_involutive (s : string) : String.rev (String.rev s) = s.
Proof.
  induction s as [|c s IH]; [reflexivity|]. now rewrite rev_cons, rev_snoc, IH.
Qed.

Lemma snoc_cases (t : string) : t = "" \/ exists u c, t = u +:+ String c "".
Proof.
  induction t as [|x t [->|(u & c & ->)]]; [now left | right | right].
  - exists "", x. reflexivity.
  - exists (String x u), c. reflexivity.
Qed.

Lemma trim_clean (t : string) : CleanLabel t -> trim t = t.
Proof.
  intros (Hne & _ & Hfirst & Hlast). unfold trim.
  assert (Hstart : trimStart t = t).
  { destruct t as [|c u]; [reflexivity|]. cbn [trimStart].
    now rewrite (Hfirst c u eq_refl). }
  rewrite Hstart. destruct (snoc_cases t) as [->|(u & c & ->)]; [contradiction|].
  rewrite rev_snoc. cbn [trimStart]. rewrite (Hlast u c eq_refl).
  now rewrite <- rev_snoc, rev_involutive.
Qed.

Lemma trim_space_clean (t : string) : CleanLabel t -> trim (" " +:+ t) = t.
Proof.
  intros Ht. pose proof (trim_clean t Ht) as H. unfold trim in *.
  change (" " +:+ t) with (String " " t). cbn [trimStart]. exact H.
Qed.

Lemma splitFrom_comma_run (a s piece : string) :
  avoids "," a ->
  splitFrom "," 0 piece (a +:+ s) = splitFrom "," 0 (String.rev_app a piece) s.
Proof.
  revert piece. induction a as [|c a IH]; intros piece Ha; [reflexivity|].
  destruct Ha as [Hc Ha]. rewrite app_cons. cbn [splitFrom startsWith String.rev_app].
  destruct (Ascii.eqb_spec "," c) as [E|_]; [congruence|]. now apply IH.
Qed.

Lemma split_comma_last (a : string) : avoids "," a -> split "," a = [a].
Proof.
  intros Ha. unfold split. rewrite <- (app_nil_r a) at 1.
  rewrite (splitFrom_comma_run _ _ _ Ha). cbn [splitFrom].
  now rewrite rev_app_acc, app_nil_r, rev_involutive.
Qed.

Lemma split_comma_cons (a b : string) :
  avoids "," a -> split "," (a +:+ "," +:+ b) = a :: split "," b.
Proof.
  intros Ha. unfold split. rewrite (splitFrom_comma_run _ _ _ Ha).
  change ("," +:+ b) with (String "," b). cbn [splitFrom startsWith String.length Nat.sub].
  rewrite Ascii.eqb_refl. now rewrite rev_app_acc, app_nil_r, rev_involutive.
Qed.

Lemma labels_after (p : string) (types : list string) :
  avoids "," p -> (forall t, CleanLabel t -> trim (p +:+ t) = t) ->
  types <> [] -> Forall CleanLabel types ->
  map trim (split "," (p +:+ String.concat ", " types)) = types.
Proof.
  intros Hp Htrim Hne Hall. revert p Hp Htrim.
  induction Hall as [|t rest Ht Hrest IH]; intros p Hp Htrim; [contradiction|].
  destruct rest as [|t2 rest].
  - cbn [String.concat]. rewrite split_comma_last.
    + cbn [map]. now rewrite Htrim.
    + apply avoids_app; [exact Hp | apply Ht].
  - change (String.concat ", " (t :: t2 :: rest))
      with (t +:+ ", " +:+ String.concat ", " (t2 :: rest)).
    change (", " +:+ String.concat ", " (t2 :: rest))
      with ("," +:+ " " +:+ String.concat ", " (t2 :: rest)).
    rewrite <- (app_assoc p t). rewrite split_comma_cons.
    + cbn [map]. rewrite Htrim by exact Ht. f_equal.
      apply IH; [discriminate | simpl; intuition discriminate | apply trim_space_clean].
    + apply avoids_app; [exact Hp | apply Ht].
Qed.

(** X15.  The settings tab shows the connection types joined by a comma
    and a space, and reads them back by cutting the text at the commas,
    trimming the pieces and dropping the empty ones.  Reading back what
    it shows gives the same list, for every list of labels that are not
    empty, contain no comma and have no white space at either end; the
    empty list comes back empty. *)
Theorem connectionTypes_round_trip (types : list string) :
  Forall CleanLabel types ->
  connectionTypesOfText (connectionTypesText types) = types.
Proof.
  intros Hall. unfold connectionTypesOfText, connectionTypesText.
  destruct types as [|t rest]; [reflexivity|].
  rewrite <- (app_nil_l (String.concat ", " (t :: rest))).
  rewrite (labels_after "" (t :: rest)); [| exact I | apply trim_clean | discriminate | exact Hall].
  generalize (t :: rest), Hall. clear. intros l Hall.
  induction Hall as [|x l Hx Hl IH]; [reflexivity|].
  cbn [List.filter]. destruct x as [|c x]; [now destruct Hx as [Hx _]|].
  rewrite IH. reflexivity.
Qed.

(** What the handler stores is never an empty label. *)
Lemma connectionTypesOfText_nonempty (value t : string) :
  In t (connectionTypesOfText value) -> t <> "".
Proof.
  unfold connectionTypesOfText. intros [_ H]%filter_In ->. discriminate H.
Qed.

End ConnectionTypes.

(* ================================================================== *)
(** * The two ways a call of the tool ends, and the [Save Only] button *)
(* ================================================================== *)

Section Outcomes.
Variable rt : Runtime.
Variable settings : JournalAnalyzerSettings.
Variable toLocaleTimeString : Z -> string.
Import Js.
Local Open Scope js_scope.

(** What the call gives, read off what the tool did. *)
Lemma analyzeWithClaudeCode_fst (content startDate endDate : string) (w : World) :
  fst (analyzeWithClaudeCode rt settings content startDate endDate w) =
  match exec rt (themeCommand rt settings w) (promptWritten rt content startDate endDate w)
  with
  | (ExecRejected r, _) => Thrown (Error ("Failed to analyze with Claude Code: " +:+ r))
  | (ExecResolved out err, fs) =>
      match fs !! themeTempFile rt (clock w) with
      | None =>
          Thrown (Error ("Failed to analyze with Claude Code: "
                         +:+ ("ENOENT: no such file or directory, unlink '"
                              +:+ themeTempFile rt (clock w) +:+ "'")))
      | Some _ =>
          if isBlank out
          then Thrown (Error ("Failed to analyze with Claude Code: "
                              +:+ "Claude Code returned empty response"))
          else Returned (template [
                 trim out; ""; "---"; "*Generated by Journal Analyzer Plugin*";
                 "*Entries analyzed: " +:+ ofZ (entriesCount content) +:+ "*";
                 "*Generated: " +:+ toLocaleString rt (clock w) +:+ "*" ])
      end
  end.
Proof.
  unfold themeCommand, promptWritten.
  unfold analyzeWithClaudeCode, try_catch, bind, Date_now, fs_writeFile, execAsync,
    fs_unlink, setTmpfs, when.
  cbn [fst snd vault tmpfs clock events].
  destruct (exec rt _ _) as [[r|out err] fs];
    cbn [fst snd vault tmpfs clock events ret throw emit]; [reflexivity|].
  destruct (fs !! themeTempFile rt (clock w));
    cbn [fst snd vault tmpfs clock events ret throw emit]; [|reflexivity].
  destruct (isBlank out), (negb (String.eqb err "")); reflexivity.
Qed.

(** X16.  [analyzeWithClaudeCode] returns exactly when the tool it ran
    on the prompt file resolved, left the prompt file in place and wrote
    something that is not blank; what it returns is then that output of
    the tool, trimmed, with the footer under it.  In every other case it
    throws, and what it throws carries the prefix of the method in front
    of the message of what went wrong.  It never returns an empty
    analysis and never lets an error through as it came. *)
Theorem analyzeWithClaudeCode_outcomes (content startDate endDate : string) (w : World) :
  (forall analysis,
      fst (analyzeWithClaudeCode rt settings content startDate endDate w) = Returned analysis
      <-> exists out err fs,
            exec rt (themeCommand rt settings w)
                 (promptWritten rt content startDate endDate w)
            = (ExecResolved out err, fs)
            /\ is_Some (fs !! themeTempFile rt (clock w))
            /\ trim out <> ""
            /\ analysis = template [
                 trim out; ""; "---"; "*Generated by Journal Analyzer Plugin*";
                 "*Entries analyzed: " +:+ ofZ (entriesCount content) +:+ "*";
                 "*Generated: " +:+ toLocaleString rt (clock w) +:+ "*" ])
  /\ (forall e,
        fst (analyzeWithClaudeCode rt settings content startDate endDate w) = Thrown e ->
        exists m, e = Error ("Failed to analyze with Claude Code: " +:+ m)).
Proof.
  rewrite analyzeWithClaudeCode_fst.
  destruct (exec rt _ _) as [[r|out err] fs] eqn:E.
  - split.
    + intros analysis. split; [discriminate|].
      intros (out & err & fs' & [=] & _).
    + intros e [= <-]. eauto.
  - destruct (fs !! themeTempFile rt (clock w)) as [kept|] eqn:F.
    + destruct (isBlank out) eqn:B.
      * split.
        -- intros analysis. split; [discriminate|].
           intros (out' & err' & fs' & [= <- <- <-] & _ & Hne & _).
           apply isBlank_spec in B. contradiction.
        -- intros e [= <-]. eauto.
      * split.
        -- intros analysis. split.
           ++ intros [= <-]. exists out, err, fs. split; [reflexivity|].
              split; [rewrite F; eauto|]. split; [|reflexivity].
              intros H. apply isBlank_spec in H. congruence.
           ++ intros (out' & err' & fs' & [= <- <- <-] & _ & _ & ->). reflexivity.
        -- discriminate.
    + split.
      * intros analysis. split; [discriminate|].
        intros (out' & err' & fs' & [= <- <- <-] & [x Hx] & _). congruence.
      * intros e [= <-]. eauto.
Qed.

(** X17.  The [Save Only] button never throws.  For a text that is blank
    it writes nothing and asks for some text; for any other text the
    vault it leaves is the vault that saving the trimmed text leaves,
    and when that save throws, the last notice carries its message. *)
Theorem saveOnlyClick_effect (value : string) (w : World) :
  fst (saveOnlyClick rt settings toLocaleTimeString value w) = Returned tt
  /\ (trim value = "" ->
      saveOnlyClick rt settings toLocaleTimeString value w
      = (Returned tt, snd (emit (Notice "Please enter some text") w)))
  /\ (trim value <> "" ->
      vault (snd (saveOnlyClick rt settings toLocaleTimeString value w))
      = vault (snd (saveJournalEntry rt settings toLocaleTimeString (trim value) w))
      /\ forall e,
           fst (saveJournalEntry rt settings toLocaleTimeString (trim value) w) = Thrown e ->
           last (events (snd (saveOnlyClick rt settings toLocaleTimeString value w)))
           = Some (Notice ("Error saving entry: " +:+ message e))).
Proof.
  unfold saveOnlyClick. cbv zeta.
  destruct (String.length (trim value) =? 0)%nat eqn:Hlen.
  - apply length_zero in Hlen. split; [reflexivity|]. split; [reflexivity|].
    intros H. contradiction.
  - assert (Hne : trim value <> "").
    { intros H. rewrite H in Hlen. discriminate. }
    rewrite try_catch_run, bind_run.
    destruct (saveJournalEntry rt settings toLocaleTimeString (trim value) w)
      as [[f|e] w1]; cbv beta iota.
    + rung. cbn [fst snd vault]. split; [reflexivity|]. split; [contradiction|].
      intros _. split; [reflexivity | discriminate].
    + rung. cbn [fst snd vault events]. split; [reflexivity|]. split; [contradiction|].
      intros _. split; [reflexivity|]. intros ? [= <-]. now rewrite last_snoc.
Qed.

End Outcomes.

(* ================================================================== *)
(** * The further properties at the sample vault *)
(* ================================================================== *)

Section MoreExamples.
Import Js.
Local Open Scope js_scope.

Lemma insertWikiLink_effect_witness :
  snd (insertWikiLink Sample.day1 "moon" "journal/2025-10-03.md" Sample.world0)
  = Sample.world0.
Proof.
  destruct (insertWikiLink_effect Sample.day1 "moon" "journal/2025-10-03.md" Sample.world0)
    as (_ & Hsame & _).
  apply Hsame. vm_compute. discriminate.
Defined.

Lemma insertWikiLink_first_occurrence_witness :
  fst (insertWikiLink Sample.day1 "lake" "journal/2025-10-03.md" Sample.world0)
  = Returned true.
Proof.
  rewrite (insertWikiLink_first_occurrence Sample.day1 "lake" "journal/2025-10-03.md"
             "walked to the " "" Sample.world0).
  - reflexivity.
  - reflexivity.
  - intros j Hj. do 14 (destruct j as [|j]; [reflexivity|]). simpl in Hj. lia.
  - vm_compute. repeat split; discriminate.
Defined.

Lemma addAllLinks_reports_all_witness :
  exists w',
    addAllLinks Sample.day1 [Sample.suggestion 70; Sample.suggestion 95] Sample.world0
    = (Returned tt, w')
    /\ holds (vault w') Sample.day1 "walked to the [[journal/2025-10-03]]"
    /\ events w' = [Notice "Added 1 links. 1 failed."].
Proof.
  destruct (addAllLinks_reports_all Sample.day1
              [Sample.suggestion 70; Sample.suggestion 95] Sample.world0)
    as (added & failed & w' & Hrun & Hsum & Hev & _ & _ & Hheld & _).
  destruct (Hheld "walked to the lake" eq_refl) as [Hadded Hnote].
  vm_compute in Hadded. subst added.
  simpl in Hsum. injection Hsum as ->.
  exists w'. split; [exact Hrun|]. split; [exact Hnote | exact Hev].
Defined.

Lemma recentNotes_most_recent_witness :
  Permutation
    (recentNotes Sample.day1 [Sample.day3; Sample.day1; Sample.day2])
    (List.filter (fun f => negb (String.eqb (path f) (path Sample.day1)))
       [Sample.day3; Sample.day1; Sample.day2]).
Proof.
  destruct (recentNotes_most_recent Sample.day1 [Sample.day3; Sample.day1; Sample.day2])
    as (_ & _ & _ & _ & Hall).
  apply Hall. simpl. lia.
Defined.

Lemma preview_bounded_witness : preview "walked to the lake" = "walked to the lake".
Proof.
  destruct (preview_bounded "walked to the lake") as (_ & Hshort & _).
  apply Hshort. simpl. lia.
Defined.

Lemma connections_read_only_witness :
  exists connections,
    fst (findMissingConnections Sample.helpful DEFAULT_SETTINGS (Some Sample.day1)
           Sample.world0)
    = Returned (SuggestionModal connections Sample.day1)
    /\ connections <> [].
Proof.
  destruct (connections_read_only Sample.helpful DEFAULT_SETTINGS (Some Sample.day1)
              Sample.world0) as (_ & _ & opened & Hfst & Hmodal).
  destruct opened as [connections file|].
  - destruct (Hmodal connections file eq_refl) as [[= <-] Hsome].
    exists connections. split; [exact Hfst | exact Hsome].
  - vm_compute in Hfst. discriminate.
Defined.

Lemma analyzeJournalRange_only_note_witness :
  readData (vault (snd (analyzeJournalRange Today.thoughtful DEFAULT_SETTINGS
                          "2025-10-01" "2025-10-02" Sample.world0)))
    "journal/2025-10-01.md"
  = Some "walked to the lake".
Proof.
  destruct (analyzeJournalRange_only_note Today.thoughtful DEFAULT_SETTINGS
              "2025-10-01" "2025-10-02" Sample.world0) as (_ & Hrest).
  rewrite Hrest; [reflexivity|].
  vm_compute. discriminate.
Defined.

Lemma analyzeJournalRange_writes_note_witness :
  exists w',
    analyzeJournalRange Today.thoughtful DEFAULT_SETTINGS "2025-10-01" "2025-10-02"
      Sample.world0 = (Returned tt, w')
    /\ last (events w') = Some (Notice "Journal analysis complete!").
Proof.
  destruct (analyzeJournalRange_writes_note Today.thoughtful DEFAULT_SETTINGS
              "2025-10-01" "2025-10-02" "Themes: the lake"
              [Sample.day1; Sample.day2] Sample.world0)
    as (content & f & w' & _ & Hrun & _ & Hlast).
  - vm_compute. reflexivity.
  - discriminate.
  - repeat constructor.
    + exists "walked to the lake". reflexivity.
    + exists "copied an old note: ## Entry: 2019-01-01". reflexivity.
  - intros command fs. exists "". reflexivity.
  - vm_compute. discriminate.
  - intros p. vm_compute. discriminate.
  - exists w'. split; assumption.
Defined.

Lemma formatDate_shaped_witness :
  matchDate (formatDate {| getFullYear := 2025; getMonth := 9; getDate := 9 |})
  = Some (formatDate {| getFullYear := 2025; getMonth := 9; getDate := 9 |}).
Proof.
  apply (formatDate_shaped {| getFullYear := 2025; getMonth := 9; getDate := 9 |}).
  - vm_compute. split; discriminate.
  - simpl. lia.
  - simpl. lia.
Defined.

Lemma saveJournalEntry_appends_witness :
  exists f w',
    saveJournalEntry Sample.offline DEFAULT_SETTINGS Today.timeOfDay "evening" Today.world1
    = (Returned f, w')
    /\ clock w' = clock Today.world1.
Proof.
  destruct (saveJournalEntry_appends Sample.offline DEFAULT_SETTINGS Today.timeOfDay
              "evening" "first thoughts" Today.world1)
    as (f & w' & Hrun & _ & _ & Hclock & _).
  - reflexivity.
  - exists f, w'. split; assumption.
Defined.

Lemma saveJournalEntry_twice_witness :
  exists f w1 w2,
    saveJournalEntry Sample.offline DEFAULT_SETTINGS Today.timeOfDay "morning" Sample.world0
    = (Returned f, w1)
    /\ saveJournalEntry Sample.offline DEFAULT_SETTINGS Today.timeOfDay "evening" w1
       = (Returned f, w2).
Proof.
  destruct (saveJournalEntry_twice Sample.offline DEFAULT_SETTINGS Today.timeOfDay
              "morning" "evening" Sample.world0)
    as (f & w1 & w2 & Hone & Htwo & _).
  - reflexivity.
  - exists f, w1, w2. split; assumption.
Defined.

Lemma saved_entry_is_selected_witness :
  exists f w1 selected,
    saveJournalEntry Sample.offline DEFAULT_SETTINGS Today.timeOfDay "morning" Sample.world0
    = (Returned f, w1)
    /\ getJournalFilesInRange Sample.offline DEFAULT_SETTINGS "2025-10-01" "2025-10-31" w1
       = (Returned selected, w1)
    /\ In f selected.
Proof.
  destruct (saved_entry_is_selected Sample.offline DEFAULT_SETTINGS Today.timeOfDay
              "morning" "2025-10-01" "2025-10-31" Sample.world0)
    as (f & w1 & selected & Hsave & _ & _ & _ & Hsel & Hin).
  - vm_compute. split; discriminate.
  - simpl. lia.
  - simpl. lia.
  - reflexivity.
  - reflexivity.
  - reflexivity.
  - exists f, w1, selected. repeat split; assumption.
Defined.

Lemma quickJournalWithAnalysis_keeps_entry_witness :
  exists connections file,
    fst (quickJournalWithAnalysis Sample.helpful DEFAULT_SETTINGS Today.timeOfDay
           "morning" Sample.world0)
    = Returned (SuggestionModal connections file)
    /\ fst (saveJournalEntry Sample.helpful DEFAULT_SETTINGS Today.timeOfDay
              "morning" Sample.world0) = Returned file
    /\ connections <> [].
Proof.
  destruct (quickJournalWithAnalysis_keeps_entry Sample.helpful DEFAULT_SETTINGS
              Today.timeOfDay "morning" Sample.world0)
    as (_ & opened & Hfst & Hmodal & _).
  destruct opened as [connections file|].
  - exists connections, file. split; [exact Hfst | exact (Hmodal _ _ eq_refl)].
  - vm_compute in Hfst. discriminate.
Defined.

Lemma connectionTypes_round_trip_witness :
  connectionTypesOfText "thematic, temporal, entity" = ["thematic"; "temporal"; "entity"].
Proof.
  apply (connectionTypes_round_trip ["thematic"; "temporal"; "entity"]).
  repeat constructor; try discriminate;
    try (intros c u [= <- <-]; reflexivity);
    intros u c Hlast; pose proof (rev_snoc u c) as Hrev; rewrite <- Hlast in Hrev;
    vm_compute in Hrev; injection Hrev as <- _; reflexivity.
Defined.

Lemma analyzeWithClaudeCode_outcomes_witness :
  fst (analyzeWithClaudeCode Today.thoughtful DEFAULT_SETTINGS "walked" "2025-10-01"
         "2025-10-02" Sample.world0)
  = Returned (template [
      "Themes: the lake"; ""; "---"; "*Generated by Journal Analyzer Plugin*";
      "*Entries analyzed: 0*"; "*Generated: 1760000000000*" ]).
Proof.
  apply (analyzeWithClaudeCode_outcomes Today.thoughtful DEFAULT_SETTINGS "walked"
           "2025-10-01" "2025-10-02" Sample.world0).
  exists "Themes: the lake", "". eexists. split; [reflexivity|].
  split; [|split; [vm_compute; discriminate | reflexivity]].
  unfold promptWritten. rewrite lookup_insert_eq. eauto.
Defined.

Lemma saveOnlyClick_effect_witness :
  saveOnlyClick Sample.offline DEFAULT_SETTINGS Today.timeOfDay "   " Sample.world0
  = (Returned tt, snd (emit (Notice "Please enter some text") Sample.world0)).
Proof.
  destruct (saveOnlyClick_effect Sample.offline DEFAULT_SETTINGS Today.timeOfDay
              "   " Sample.world0) as (_ & Hblank & _).
  apply Hblank. reflexivity.
Defined.

End MoreExamples.
